(** * enterprise-catalog: the API serializers and the export helpers

    A shallow embedding of
    [enterprise_catalog/apps/api/v1/export_utils.py] and
    [enterprise_catalog/apps/api/v1/serializers.py], with the properties the
    specification states about them.

    Python dictionaries used as maps are [gmap]s or, where the value is a
    JSON document, association lists inside the [json] tree; Python
    exceptions are the [Raise] outcomes of an explicit error type; objects
    that are shared and mutated live in an explicit heap. *)

From Stdlib Require Import ZArith String Ascii List Bool Lia DecimalString.
From stdpp Require Import gmap strings list.

Local Open Scope string_scope.

(** ** Outcomes of Python calls *)

Inductive outcome (E A : Type) : Type :=
| Return (a : A)
| Raise (e : E).
Arguments Return {E A} a.
Arguments Raise {E A} e.

Definition obind {E A B} (m : outcome E A) (k : A -> outcome E B) : outcome E B :=
  match m with
  | Return a => k a
  | Raise e => Raise e
  end.

Notation "'try!' x ':=' m 'in' k" := (obind m (fun x => k))
  (at level 10, x name, m at level 100, k at level 200).

(** The built-in exceptions the export helpers can meet. *)
Inductive py_exn : Type :=
| KeyError
| IndexError
| TypeError
| AttributeError
| ValueError
| OverflowError
| OSError.

(** ** JSON documents as Python sees them

    A search hit and a stored metadata blob are decoded JSON: [None],
    booleans, numbers, strings, lists and dictionaries with string keys.  A
    dictionary keeps its entries in insertion order; a lookup takes the
    first entry of the key.  Numbers are kept as integers, and a string is
    its sequence of bytes. *)

#[warnings="-register-all"]
Inductive json : Type :=
| JNull
| JBool (b : bool)
| JNum (z : Z)
| JStr (s : string)
| JList (items : list json)
| JDict (entries : list (string * json)).

Module Py.

(** [bool(v)] *)
Definition truthy (v : json) : bool :=
  match v with
  | JNull => false
  | JBool b => b
  | JNum z => negb (z =? 0)%Z
  | JStr s => negb (String.eqb s "")
  | JList items => match items with [] => false | _ => true end
  | JDict entries => match entries with [] => false | _ => true end
  end.

Fixpoint lookup_entry (k : string) (entries : list (string * json)) : option json :=
  match entries with
  | [] => None
  | (k', v) :: rest => if String.eqb k k' then Some v else lookup_entry k rest
  end.

(** [d.get(k)] and [d.get(k, default)] on a dictionary [d] *)
Definition dict_get (d : list (string * json)) (k : string) : json :=
  match lookup_entry k d with
  | Some v => v
  | None => JNull
  end.

Definition dict_get_default (d : list (string * json)) (k : string) (default : json) : json :=
  match lookup_entry k d with
  | Some v => v
  | None => default
  end.

(** [d[k]] on a dictionary [d] *)
Definition dict_item (d : list (string * json)) (k : string) : outcome py_exn json :=
  match lookup_entry k d with
  | Some v => Return v
  | None => Raise KeyError
  end.

(** [v.get(k)] on any value: only a dictionary has the method. *)
Definition method_get (v : json) (k : string) : outcome py_exn json :=
  match v with
  | JDict d => Return (dict_get d k)
  | _ => Raise AttributeError
  end.

(** [v[k]] with a string [k]: a list or a string wants an integer index,
    the other scalars are not subscriptable. *)
Definition subscript_key (v : json) (k : string) : outcome py_exn json :=
  match v with
  | JDict d => dict_item d k
  | _ => Raise TypeError
  end.

(** [v[0]]: a dictionary decoded from JSON has no integer key. *)
Definition subscript_zero (v : json) : outcome py_exn json :=
  match v with
  | JList (x :: _) => Return x
  | JList [] => Raise IndexError
  | JStr (String c _) => Return (JStr (String c EmptyString))
  | JStr EmptyString => Raise IndexError
  | JDict _ => Raise KeyError
  | _ => Raise TypeError
  end.

Fixpoint chars (s : string) : list json :=
  match s with
  | EmptyString => []
  | String c rest => JStr (String c EmptyString) :: chars rest
  end.

Fixpoint distinct_keys (entries : list (string * json)) : list string :=
  match entries with
  | [] => []
  | (k, _) :: rest =>
      k :: List.filter (fun k' => negb (String.eqb k k')) (distinct_keys rest)
  end.

(** [iter(v)]: the items of a list, the characters of a string, the keys of
    a dictionary. *)
Definition iterate (v : json) : outcome py_exn (list json) :=
  match v with
  | JList items => Return items
  | JStr s => Return (chars s)
  | JDict entries => Return (List.map JStr (distinct_keys entries))
  | _ => Raise TypeError
  end.

(** [len(v)] *)
Definition len (v : json) : outcome py_exn Z :=
  match v with
  | JList items => Return (Z.of_nat (length items))
  | JStr s => Return (Z.of_nat (String.length s))
  | JDict entries => Return (Z.of_nat (length (distinct_keys entries)))
  | _ => Raise TypeError
  end.

(** [sep.join(items)]: every item must be a string. *)
Fixpoint join_items (sep : string) (items : list json) : outcome py_exn string :=
  match items with
  | [] => Return ""
  | JStr s :: rest =>
      try! tail := join_items sep rest in
      Return (match rest with [] => s | _ => s ++ sep ++ tail end)
  | _ :: _ => Raise TypeError
  end.

Definition join (sep : string) (v : json) : outcome py_exn string :=
  try! items := iterate v in join_items sep items.

(** [[f(x) for x in items]] *)
Fixpoint comprehension (f : json -> outcome py_exn json) (items : list json)
  : outcome py_exn (list json) :=
  match items with
  | [] => Return []
  | x :: rest =>
      try! y := f x in
      try! ys := comprehension f rest in
      Return (y :: ys)
  end.

End Py.

Module ExportUtils.
Import Py.

Definition CSV_COURSE_HEADERS : list string :=
  [ "Title"; "Partner Name"; "Start"; "End"; "Verified Upgrade Deadline";
    "Program Type"; "Program Name"; "Pacing"; "Level"; "Price"; "Language";
    "URL"; "Short Description"; "Subjects"; "Key"; "Short Key"; "Skills";
    "Min Effort"; "Max Effort"; "Length"; "What You’ll Learn"; "Pre-requisites" ].

Definition CSV_PROGRAM_HEADERS : list string :=
  [ "Title"; "Program Type"; "Partner"; "Short Description"; "Number of courses" ].

Definition CSV_COURSE_RUN_HEADERS : list string :=
  [ "Title"; "Key"; "Course Short Key"; "Pacing"; "Availability"; "Start Date";
    "End Date"; "Verified Upgrade Deadline"; "Min Effort"; "Max Effort"; "Length" ].

(** [csv_row.append(cell)] *)
Definition append (csv_row : list json) (cell : json) : list json := csv_row ++ [cell].

Section Projections.

(** [parser.parse(text).strftime(DATE_FORMAT)] of [dateutil]: the day, or
    the error the library raises for a text it cannot read as a date. *)
Variable parse_strftime : string -> outcome py_exn string.
(** [datetime.datetime.fromtimestamp(seconds).strftime(DATE_FORMAT)]: the
    day, or the error the library raises for a timestamp it cannot
    convert. *)
Variable fromtimestamp_strftime : Z -> outcome py_exn string.
(** [django.utils.html.strip_tags], which first takes [str] of its
    argument. *)
Variable strip_tags : json -> string.

Definition parse_date (raw : json) : outcome py_exn json :=
  match raw with
  | JStr text =>
      try! day := parse_strftime text in
      Return (JStr day)
  | _ => Raise TypeError
  end.

Definition timestamp_date (raw : json) : outcome py_exn json :=
  let seconds :=
    match raw with
    | JNum z => Some z
    | JBool b => Some (if b then 1 else 0)%Z
    | _ => None
    end in
  match seconds with
  | Some z =>
      try! day := fromtimestamp_strftime z in
      Return (JStr day)
  | None => Raise TypeError
  end.

Definition program_hit_to_row (hit : list (string * json)) : outcome py_exn (list json) :=
  let csv_row := [] in
  let csv_row := append csv_row (dict_get hit "title") in
  let csv_row := append csv_row (dict_get hit "program_type") in
  try! entries := iterate (dict_get_default hit "partners" (JList [])) in
  try! partners := comprehension (fun partner => subscript_key partner "name") entries in
  try! joined := join_items ", " partners in
  let csv_row := append csv_row (JStr joined) in
  let csv_row := append csv_row (dict_get hit "subtitle") in
  try! n := len (dict_get_default hit "course_keys" (JList [])) in
  let csv_row := append csv_row (JNum n) in
  Return csv_row.

(** The hit is only read, so [hit['advertised_course_run']], which the
    source writes out at each use, is looked up once and named [run]. *)
Definition course_hit_to_row (hit : list (string * json)) : outcome py_exn (list json) :=
  let csv_row := [] in
  let csv_row := append csv_row (dict_get hit "title") in
  try! csv_row :=
    (if truthy (dict_get hit "partners") then
       try! partners := dict_item hit "partners" in
       try! partner := subscript_zero partners in
       try! name := subscript_key partner "name" in
       Return (append csv_row name)
     else
       Return (append csv_row JNull)) in
  try! branch :=
    (if truthy (dict_get hit "advertised_course_run") then
       try! run := dict_item hit "advertised_course_run" in
       try! start := method_get run "start" in
       try! start_date :=
         (if truthy start then
            try! raw := subscript_key run "start" in parse_date raw
          else Return JNull) in
       let csv_row := append csv_row start_date in
       try! end_ := method_get run "end" in
       try! end_date :=
         (if truthy end_ then
            try! raw := subscript_key run "end" in parse_date raw
          else Return JNull) in
       let csv_row := append csv_row end_date in
       try! deadline := method_get run "upgrade_deadline" in
       try! upgrade_deadline :=
         (if truthy deadline then
            try! raw_deadline := subscript_key run "upgrade_deadline" in
            timestamp_date raw_deadline
          else Return JNull) in
       let csv_row := append csv_row upgrade_deadline in
       try! pacing_type := subscript_key run "pacing_type" in
       try! key := method_get run "key" in
       Return (csv_row, pacing_type, key)
     else
       let csv_row := append csv_row JNull in
       let csv_row := append csv_row JNull in
       let csv_row := append csv_row JNull in
       Return (csv_row, JNull, JNull)) in
  let '(csv_row, pacing_type, key) := branch in
  try! programs := join ", " (dict_get_default hit "programs" (JList [])) in
  let csv_row := append csv_row (JStr programs) in
  try! program_titles := join ", " (dict_get_default hit "program_titles" (JList [])) in
  let csv_row := append csv_row (JStr program_titles) in
  let csv_row := append csv_row pacing_type in
  let csv_row := append csv_row (dict_get hit "level_type") in
  let csv_row := append csv_row (dict_get hit "first_enrollable_paid_seat_price") in
  let csv_row := append csv_row (dict_get hit "language") in
  let csv_row := append csv_row (dict_get hit "marketing_url") in
  let csv_row :=
    append csv_row (JStr (strip_tags (dict_get_default hit "short_description" (JStr "")))) in
  try! subjects := join ", " (dict_get_default hit "subjects" (JList [])) in
  let csv_row := append csv_row (JStr subjects) in
  let csv_row := append csv_row key in
  let csv_row := append csv_row (dict_get hit "aggregation_key") in
  try! entries := iterate (dict_get_default hit "skills" (JList [])) in
  try! skills := comprehension (fun skill => subscript_key skill "name") entries in
  try! joined := join_items ", " skills in
  let csv_row := append csv_row (JStr joined) in
  let advertised_course_run := dict_get_default hit "advertised_course_run" (JDict []) in
  try! min_effort := method_get advertised_course_run "min_effort" in
  let csv_row := append csv_row min_effort in
  try! max_effort := method_get advertised_course_run "max_effort" in
  let csv_row := append csv_row max_effort in
  try! weeks := method_get advertised_course_run "weeks_to_complete" in
  let csv_row := append csv_row weeks in
  let csv_row :=
    append csv_row (JStr (strip_tags (dict_get_default hit "outcome" (JStr "")))) in
  let csv_row :=
    append csv_row (JStr (strip_tags (dict_get_default hit "prerequisites_raw" (JStr "")))) in
  Return csv_row.

Definition course_hit_runs (hit : list (string * json)) : json :=
  dict_get_default hit "course_runs" (JList []).

Definition course_run_to_row (course_key course_title : json)
    (course_run : list (string * json)) : outcome py_exn (list json) :=
  let csv_row := [] in
  let csv_row := append csv_row course_title in
  let csv_row := append csv_row (dict_get course_run "key") in
  let csv_row := append csv_row course_key in
  let csv_row := append csv_row (dict_get course_run "pacing_type") in
  let csv_row := append csv_row (dict_get course_run "availability") in
  try! start_date :=
    (if truthy (dict_get course_run "start") then
       parse_date (dict_get course_run "start")
     else Return JNull) in
  let csv_row := append csv_row start_date in
  try! end_date :=
    (if truthy (dict_get course_run "end") then
       parse_date (dict_get course_run "end")
     else Return JNull) in
  let csv_row := append csv_row end_date in
  try! upgrade_deadline :=
    (if truthy (dict_get course_run "upgrade_deadline") then
       let raw_deadline := dict_get course_run "upgrade_deadline" in
       timestamp_date raw_deadline
     else Return JNull) in
  let csv_row := append csv_row upgrade_deadline in
  let csv_row := append csv_row (dict_get course_run "min_effort") in
  let csv_row := append csv_row (dict_get course_run "max_effort") in
  let csv_row := append csv_row (dict_get course_run "weeks_to_complete") in
  Return csv_row.

Definition hit_to_row (hit : list (string * json)) : outcome py_exn (list json) :=
  course_hit_to_row hit.

(** *** The shape of the hits the index returns

    Every key of a hit is optional.  When a key is present its value has
    the type the projections use it at: [partners] and [skills] are lists
    of objects that carry a textual [name]; [programs], [program_titles]
    and [subjects] are lists of strings; [course_keys] is a list; a date
    is empty or a text [dateutil] parses, a deadline is empty or a
    timestamp in range; [advertised_course_run] is an object which, unless
    it is empty, carries [pacing_type]. *)

Definition optional (shape : json -> bool) (d : list (string * json)) (k : string) : bool :=
  match lookup_entry k d with
  | Some v => shape v
  | None => true
  end.

Definition is_text (v : json) : bool :=
  match v with JStr _ => true | _ => false end.

Definition text_list (v : json) : bool :=
  match v with JList items => forallb is_text items | _ => false end.

Definition has_name (v : json) : bool :=
  match v with
  | JDict d => match lookup_entry "name" d with Some name => is_text name | None => false end
  | _ => false
  end.

Definition named_list (v : json) : bool :=
  match v with JList items => forallb has_name items | _ => false end.

Definition is_list (v : json) : bool :=
  match v with JList _ => true | _ => false end.

Definition date_text (v : json) : bool :=
  negb (truthy v) ||
  match v with
  | JStr text => match parse_strftime text with Return _ => true | Raise _ => false end
  | _ => false
  end.

Definition timestamp (v : json) : bool :=
  negb (truthy v) ||
  match v with
  | JNum z => match fromtimestamp_strftime z with Return _ => true | Raise _ => false end
  | _ => false
  end.

Definition course_run_shape (run : list (string * json)) : bool :=
  optional date_text run "start" && optional date_text run "end" &&
  optional timestamp run "upgrade_deadline".

Definition advertised_shape (v : json) : bool :=
  match v with
  | JDict run =>
      course_run_shape run &&
      (negb (truthy v) ||
       match lookup_entry "pacing_type" run with Some _ => true | None => false end)
  | _ => false
  end.

Definition course_hit_shape (hit : list (string * json)) : bool :=
  optional named_list hit "partners" &&
  optional advertised_shape hit "advertised_course_run" &&
  optional text_list hit "programs" &&
  optional text_list hit "program_titles" &&
  optional text_list hit "subjects" &&
  optional named_list hit "skills".

Definition program_hit_shape (hit : list (string * json)) : bool :=
  optional named_list hit "partners" && optional is_list hit "course_keys".

End Projections.

(** The columns whose cell is the value of one key of the hit, and the
    columns filled from one key of the advertised course run or of a course
    run: (key, column index). *)

Definition COURSE_HIT_COLUMNS : list (string * nat) :=
  [ ("title", 0); ("partners", 1); ("level_type", 8);
    ("first_enrollable_paid_seat_price", 9); ("language", 10);
    ("marketing_url", 11); ("aggregation_key", 15) ]%nat.

Definition ADVERTISED_RUN_COLUMNS : list (string * nat) :=
  [ ("start", 2); ("end", 3); ("upgrade_deadline", 4); ("key", 14);
    ("min_effort", 17); ("max_effort", 18); ("weeks_to_complete", 19) ]%nat.

(** The cells of a course row that come from the advertised course run. *)
Definition ADVERTISED_RUN_CELLS : list nat := [2; 3; 4; 7; 14; 17; 18; 19]%nat.

Definition COURSE_HIT_JOINED_COLUMNS : list (string * nat) :=
  [ ("programs", 5); ("program_titles", 6); ("subjects", 13); ("skills", 16) ]%nat.

Definition COURSE_HIT_STRIPPED_COLUMNS : list (string * nat) :=
  [ ("short_description", 12); ("outcome", 20); ("prerequisites_raw", 21) ]%nat.

Definition PROGRAM_HIT_COLUMNS : list (string * nat) :=
  [ ("title", 0); ("program_type", 1); ("subtitle", 3) ]%nat.

Definition COURSE_RUN_COLUMNS : list (string * nat) :=
  [ ("key", 1); ("pacing_type", 3); ("availability", 4); ("start", 5); ("end", 6);
    ("upgrade_deadline", 7); ("min_effort", 8); ("max_effort", 9);
    ("weeks_to_complete", 10) ]%nat.

(** *** [facets_to_query]

    The parameter bag is what [querydict_to_dict] builds: every key is
    mapped to the list of its values.  [dict.get] followed by a truth test
    holds exactly when the key is bound to a non-empty list; [dict.pop]
    returns the value and removes the binding. *)

Definition truthy_list {A} (o : option (list A)) : bool :=
  match o with
  | Some (_ :: _) => true
  | _ => false
  end.

Definition dict_pop (k : string) (facets : gmap string (list string))
  : outcome py_exn (list string) * gmap string (list string) :=
  match facets !! k with
  | Some v => (Return v, delete k facets)
  | None => (Raise KeyError, facets)
  end.

Definition subscript0 (l : list string) : outcome py_exn string :=
  match l with
  | v :: _ => Return v
  | [] => Raise IndexError
  end.

Definition facets_to_query (facets : gmap string (list string))
  : outcome py_exn string * gmap string (list string) :=
  if truthy_list (facets !! "query") then
    let '(popped, facets') := dict_pop "query" facets in
    (try! l := popped in subscript0 l, facets')
  else if truthy_list (facets !! "q") then
    let '(popped, facets') := dict_pop "q" facets in
    (try! l := popped in subscript0 l, facets')
  else
    (Return "", facets).

(** *** [validate_query_facets]

    [get_valid_facets ()] reads the index settings table, which is not part
    of these sources; its result is the parameter [valid_facets].  The keys
    of a [gmap] are visited in the map's own order, so only membership in
    the returned list is meaningful. *)

Definition validate_query_facets (valid_facets : list string)
    (facets : gmap string (list string)) : list string :=
  filter (fun facet => facet ∉ valid_facets) (fst <$> map_to_list facets).

End ExportUtils.


(** ** The catalog query store

    The model class [CatalogQuery] and the ORM are not part of these
    sources.  The store is the list of rows of the table; the effects of a
    call (writes submitted to the store, log records) are kept in a trace. *)

Module Orm.

(** Modelled from the spec: the model class [CatalogQuery] is missing; a
    row carries an identity, the external uuid, an optional title, the raw
    content filter, its hash and the inclusion flag. *)
Record CatalogQuery : Type := {
  id : nat;
  uuid : string;
  title : option string;
  content_filter : json;
  content_filter_hash : string;
  include_exec_ed_2u_courses : bool
}.

Inductive log_level : Type := DEBUG | INFO | WARNING | ERROR | CRITICAL.

Inductive event : Type :=
| Saved (row : CatalogQuery) (accepted : bool)
| Logged (level : log_level) (message : string) (exc_info : bool).

Record world : Type := {
  rows : list CatalogQuery;
  events : list event
}.

(** [ValidationError(detail = {field: message}, code) from cause] *)
Inductive error : Type :=
| DoesNotExist
| MultipleObjectsReturned
| IntegrityError (text : string)
| ValidationError (field message : string) (code : nat) (cause : error).

Definition natural_key (q : CatalogQuery) : string * bool :=
  (content_filter_hash q, include_exec_ed_2u_courses q).

Definition same_natural_key (hash : string) (flag : bool) (q : CatalogQuery) : bool :=
  String.eqb (content_filter_hash q) hash && Bool.eqb (include_exec_ed_2u_courses q) flag.

Definition fresh_id (table : list CatalogQuery) : nat :=
  S (list_max (List.map id table)).

(** Writing a row: the row of the same identity is replaced, a row of a new
    identity is added at the end. *)
Definition write_row (q : CatalogQuery) (table : list CatalogQuery) : list CatalogQuery :=
  if existsb (fun q' => Nat.eqb (id q') (id q)) table then
    List.map (fun q' => if Nat.eqb (id q') (id q) then q else q') table
  else
    table ++ [q].

Definition other_rows (q : CatalogQuery) (table : list CatalogQuery) : list CatalogQuery :=
  List.filter (fun q' => negb (Nat.eqb (id q') (id q))) table.

(** The row [q] after the defaults of an upsert were assigned to it, and the
    row an insert makes for a table. *)
Definition assign_defaults (q : CatalogQuery) (filter : json) (u : string)
    (t : option string) : CatalogQuery :=
  {| id := id q;
     uuid := u;
     title := t;
     content_filter := filter;
     content_filter_hash := content_filter_hash q;
     include_exec_ed_2u_courses := include_exec_ed_2u_courses q |}.

Definition new_row (table : list CatalogQuery) (hash : string) (flag : bool)
    (filter : json) (u : string) (t : option string) : CatalogQuery :=
  {| id := fresh_id table;
     uuid := u;
     title := t;
     content_filter := filter;
     content_filter_hash := hash;
     include_exec_ed_2u_courses := flag |}.

(** The rows of a table have distinct natural keys. *)
Definition unique_natural_keys (table : list CatalogQuery) : Prop :=
  NoDup (List.map natural_key table).

Section Store.

(** The uniqueness constraints of the table belong to the missing model
    class and to the database: [integrity_check q others] is [Some text]
    when the store refuses to write [q] next to the rows [others], with
    [text] the [str] of the [IntegrityError] the back end raises. *)
Variable integrity_check : CatalogQuery -> list CatalogQuery -> option string.
(** The default of the [uuid] field for a row created without one. *)
Variable uuid4 : list CatalogQuery -> string.

(** [instance.save()] *)
Definition save (q : CatalogQuery) (w : world) : outcome error unit * world :=
  match integrity_check q (other_rows q (rows w)) with
  | Some text =>
      (Raise (IntegrityError text),
       {| rows := rows w; events := events w ++ [Saved q false] |})
  | None =>
      (Return tt,
       {| rows := write_row q (rows w); events := events w ++ [Saved q true] |})
  end.

(** Modelled from the spec: [CatalogQuery.get_by_uuid] is missing; it
    looks up the existing row of that uuid, [None] when there is none. *)
Definition get_by_uuid (u : string) (w : world) : option CatalogQuery :=
  List.find (fun q => String.eqb (uuid q) u) (rows w).

(** [objects.get(content_filter_hash=hash, include_exec_ed_2u_courses=flag)] *)
Definition objects_get (hash : string) (flag : bool) (w : world) : outcome error CatalogQuery :=
  match List.filter (same_natural_key hash flag) (rows w) with
  | [] => Raise DoesNotExist
  | [q] => Return q
  | _ => Raise MultipleObjectsReturned
  end.

(** [objects.create] with the lookup fields and the defaults *)
Definition objects_create (hash : string) (flag : bool) (filter : json)
    (u : option string) (t : option string) (w : world)
  : outcome error CatalogQuery * world :=
  let q := {| id := fresh_id (rows w);
              uuid := match u with Some u => u | None => uuid4 (rows w) end;
              title := t;
              content_filter := filter;
              content_filter_hash := hash;
              include_exec_ed_2u_courses := flag |} in
  match save q w with
  | (Return _, w') => (Return q, w')
  | (Raise e, w') => (Raise e, w')
  end.

(** [objects.get_or_create(hash, flag, defaults={content_filter, uuid?, title})]:
    the object and whether it was created.  When the insert is refused the
    lookup is tried once more before the error is raised again. *)
Definition objects_get_or_create (hash : string) (flag : bool) (filter : json)
    (u : option string) (t : option string) (w : world)
  : outcome error (CatalogQuery * bool) * world :=
  match objects_get hash flag w with
  | Return q => (Return (q, false), w)
  | Raise DoesNotExist =>
      match objects_create hash flag filter u t w with
      | (Return q, w') => (Return (q, true), w')
      | (Raise (IntegrityError text), w') =>
          match objects_get hash flag w' with
          | Return q => (Return (q, false), w')
          | Raise DoesNotExist => (Raise (IntegrityError text), w')
          | Raise e => (Raise e, w')
          end
      | (Raise e, w') => (Raise e, w')
      end
  | Raise e => (Raise e, w)
  end.

(** [objects.update_or_create(hash, flag, defaults={content_filter, uuid, title})]:
    a row that is found gets every default assigned and is saved. *)
Definition objects_update_or_create (hash : string) (flag : bool) (filter : json)
    (u : string) (t : option string) (w : world)
  : outcome error (CatalogQuery * bool) * world :=
  match objects_get_or_create hash flag filter (Some u) t w with
  | (Return (q, true), w') => (Return (q, true), w')
  | (Return (q, false), w') =>
      let q := {| id := id q;
                  uuid := u;
                  title := t;
                  content_filter := filter;
                  content_filter_hash := content_filter_hash q;
                  include_exec_ed_2u_courses := include_exec_ed_2u_courses q |} in
      match save q w' with
      | (Return _, w'') => (Return (q, false), w'')
      | (Raise e, w'') => (Raise e, w'')
      end
  | (Raise e, w') => (Raise e, w')
  end.

End Store.

End Orm.

(** ** [re.search] with the pattern of the resolver, and [str] of its result *)

Module Re.

Record Match : Type := {
  span_start : nat;
  span_end : nat;
  group0 : string
}.

(** [strip_prefix p s]: what follows [p] when [s] starts with [p]. *)
Fixpoint strip_prefix (p s : string) : option string :=
  match p, s with
  | EmptyString, _ => Some s
  | String a p', String b s' => if Ascii.eqb a b then strip_prefix p' s' else None
  | String _ _, EmptyString => None
  end.

(** The text up to the end of the line: [.] does not match a newline. *)
Fixpoint line_of (s : string) : string :=
  match s with
  | EmptyString => EmptyString
  | String c rest => if Ascii.eqb c "010"%char then EmptyString else String c (line_of rest)
  end.

(** The greedy group and the look-ahead, from the start of [line]: the
    longest text that is followed by a single quote. *)
Fixpoint greedy_before_quote (line : string) : option string :=
  match line with
  | EmptyString => None
  | String c rest =>
      match greedy_before_quote rest with
      | Some text => Some (String c text)
      | None => if Ascii.eqb c "'"%char then Some EmptyString else None
      end
  end.

(** [re.search] with the pattern of the resolver (a look-behind for the
    text [for key] and a single quote, a greedy group of any characters, a
    look-ahead for a single quote): the leftmost position that follows the
    look-behind text and from which the rest of the pattern matches. *)
Fixpoint search_from (pos : nat) (s : string) : option Match :=
  let next :=
    match s with
    | EmptyString => None
    | String _ rest => search_from (S pos) rest
    end in
  match strip_prefix "for key '" s with
  | Some rest =>
      match greedy_before_quote (line_of rest) with
      | Some text =>
          Some {| span_start := pos + 9;
                  span_end := pos + 9 + String.length text;
                  group0 := text |}
      | None => next
      end
  | None => next
  end.

Definition search (s : string) : option Match := search_from 0 s.

Definition hex_digit (n : nat) : ascii :=
  match n with
  | 0 => "0" | 1 => "1" | 2 => "2" | 3 => "3" | 4 => "4" | 5 => "5" | 6 => "6"
  | 7 => "7" | 8 => "8" | 9 => "9" | 10 => "a" | 11 => "b" | 12 => "c"
  | 13 => "d" | 14 => "e" | _ => "f"
  end%char.

Definition double_quote : ascii := Ascii.ascii_of_nat 34.

Fixpoint contains (c : ascii) (s : string) : bool :=
  match s with
  | EmptyString => false
  | String c' rest => Ascii.eqb c c' || contains c rest
  end.

(** [repr] of a string: in single quotes unless it holds a single quote and
    no double quote; the quote, the backslash and the control characters are
    escaped. *)
Fixpoint repr_body (quote : ascii) (s : string) : string :=
  match s with
  | EmptyString => EmptyString
  | String c rest =>
      let n := Ascii.nat_of_ascii c in
      let tail := repr_body quote rest in
      if Ascii.eqb c quote || Ascii.eqb c "\"%char then String "\"%char (String c tail)
      else if Nat.eqb n 9 then "\t" ++ tail
      else if Nat.eqb n 10 then "\n" ++ tail
      else if Nat.eqb n 13 then "\r" ++ tail
      else if Nat.ltb n 32 || Nat.eqb n 127 then
        "\x" ++ String (hex_digit (n / 16)) (String (hex_digit (n mod 16)) tail)
      else String c tail
  end.

Definition repr (s : string) : string :=
  let quote :=
    if contains "'"%char s && negb (contains double_quote s)
    then double_quote else "'"%char in
  String quote (repr_body quote s ++ String quote EmptyString).

Definition decimal (n : nat) : string :=
  DecimalString.NilEmpty.string_of_uint (Nat.to_uint n).

(** [str(m)] of a match object: the [repr] of the matched text is cut at 50
    characters. *)
Definition str_match (m : Match) : string :=
  "<re.Match object; span=(" ++ decimal (span_start m) ++ ", "
    ++ decimal (span_end m) ++ "), match="
    ++ substring 0 50 (repr (group0 m)) ++ ">".

(** What an f-string writes for [{column}]. *)
Definition format_column (column : option Match) : string :=
  match column with
  | Some m => str_match m
  | None => "None"
  end.

End Re.

(** ** [serializers.py]: [find_and_modify_catalog_query] *)

Module Serializers.
Import Orm.

Definition HTTP_422_UNPROCESSABLE_ENTITY : nat := 422.

Section Resolver.

Variable integrity_check : CatalogQuery -> list CatalogQuery -> option string.
Variable uuid4 : list CatalogQuery -> string.
(** [get_content_filter_hash] of [catalog/utils.py], not in these sources. *)
Variable get_content_filter_hash : json -> string.

(** [logger.exception(message)] *)
Definition logger_exception (message : string) (w : world) : world :=
  {| rows := rows w; events := events w ++ [Logged ERROR message true] |}.

(** A uuid given as [None] or as the empty string is not a uuid. *)
Definition given (catalog_query_uuid : option string) : option string :=
  match catalog_query_uuid with
  | Some EmptyString => None
  | other => other
  end.

Definition find_and_modify_catalog_query (content_filter : json)
    (catalog_query_uuid : option string) (query_title : option string)
    (include_exec_ed_2u_courses : bool) (w : world)
  : outcome error CatalogQuery * world :=
  let hashed_content_filter := get_content_filter_hash content_filter in
  match given catalog_query_uuid with
  | Some catalog_query_uuid =>
      match get_by_uuid catalog_query_uuid w with
      | Some catalog_query_from_uuid =>
          let catalog_query_from_uuid :=
            {| id := id catalog_query_from_uuid;
               uuid := uuid catalog_query_from_uuid;
               title := query_title;
               content_filter := content_filter;
               content_filter_hash := hashed_content_filter;
               include_exec_ed_2u_courses := include_exec_ed_2u_courses |} in
          match save integrity_check catalog_query_from_uuid w with
          | (Return _, w') => (Return catalog_query_from_uuid, w')
          | (Raise (IntegrityError text), w') =>
              let column := Re.search text in
              let w' :=
                logger_exception
                  ("Error occurred while saving catalog query: " ++ text) w' in
              (Raise (ValidationError "catalog_query"
                        (Re.format_column column ++ " is not unique")
                        HTTP_422_UNPROCESSABLE_ENTITY
                        (IntegrityError text)), w')
          | (Raise e, w') => (Raise e, w')
          end
      | None =>
          match objects_update_or_create integrity_check uuid4
                  hashed_content_filter include_exec_ed_2u_courses
                  content_filter catalog_query_uuid query_title w with
          | (Return (content_filter_from_hash, _), w') =>
              (Return content_filter_from_hash, w')
          | (Raise e, w') => (Raise e, w')
          end
      end
  | None =>
      match objects_get_or_create integrity_check uuid4
              hashed_content_filter include_exec_ed_2u_courses
              content_filter None query_title w with
      | (Return (content_filter_from_hash, _), w') =>
          (Return content_filter_from_hash, w')
      | (Raise e, w') => (Raise e, w')
      end
  end.

End Resolver.

End Serializers.

(** ** Back ends and parameters for concrete runs *)

Module Backends.
Import Orm.

(** Modelled from the spec: the uniqueness constraint of the missing model
    class, "the natural key [(content_filter_hash, include_exec_ed_2u_courses)]
    must be unique across all rows", with the text of the error a MySQL and
    an SQLite back end raise for it. *)
Definition natural_key_taken (q : CatalogQuery) (others : list CatalogQuery) : bool :=
  existsb (same_natural_key (content_filter_hash q) (include_exec_ed_2u_courses q)) others.

Definition mysql_text (q : CatalogQuery) : string :=
  "(1062, " ++ String Re.double_quote
    ("Duplicate entry '" ++ content_filter_hash q
       ++ "-0' for key 'catalog_catalogquery.content_filter_hash'"
       ++ String Re.double_quote ")").

Definition mysql_check (q : CatalogQuery) (others : list CatalogQuery) : option string :=
  if natural_key_taken q others then Some (mysql_text q) else None.

Definition sqlite_text : string :=
  "UNIQUE constraint failed: catalog_catalogquery.content_filter_hash, catalog_catalogquery.include_exec_ed_2u_courses".

Definition sqlite_check (q : CatalogQuery) (others : list CatalogQuery) : option string :=
  if natural_key_taken q others then Some sqlite_text else None.

(** A stand-in for the hash of a content filter: the keys of the filter,
    in order. *)
Definition keys_hash (content_filter : json) : string :=
  match content_filter with
  | JDict entries => String.concat "," (List.map fst entries)
  | _ => ""
  end.

(** A stand-in for [uuid4]: a uuid numbered after the rows of the table. *)
Definition numbered_uuid (table : list CatalogQuery) : string :=
  "00000000-0000-4000-8000-" ++ Re.decimal (fresh_id table).

(** A small table: two catalog queries with different filters. *)
Definition demo_filter : json := JDict [("key", JList [JStr "edX+DemoX"])].
Definition course_filter : json := JDict [("content_type", JStr "course")].

Definition demo_query : CatalogQuery :=
  {| id := 1;
     uuid := "6a1d1f0e-0000-4000-8000-000000000001";
     title := Some "Demo courses";
     content_filter := demo_filter;
     content_filter_hash := keys_hash demo_filter;
     include_exec_ed_2u_courses := false |}.

Definition course_query : CatalogQuery :=
  {| id := 2;
     uuid := "6a1d1f0e-0000-4000-8000-000000000002";
     title := Some "All courses";
     content_filter := course_filter;
     content_filter_hash := keys_hash course_filter;
     include_exec_ed_2u_courses := false |}.

Definition demo_world : world :=
  {| rows := [demo_query; course_query]; events := [] |}.

End Backends.

(** ** Python objects that are shared and mutated

    The metadata blob of a record is a dictionary object; the lists and
    dictionaries nested in it are objects of their own, held by reference.
    A heap maps addresses to objects, and a computation threads the heap and
    may raise. *)

Module Heap.

Inductive value : Type :=
| VNone
| VBool (b : bool)
| VNum (z : Z)
| VStr (s : string)
| VTime (t : Z)
| VRef (a : nat).

Inductive object : Type :=
| ODict (entries : list (string * value))
| OList (items : list value).

Definition M (A : Type) : Type :=
  gmap nat object -> outcome py_exn A * gmap nat object.

Definition ret {A} (a : A) : M A := fun h => (Return a, h).

Definition raise {A} (e : py_exn) : M A := fun h => (Raise e, h).

Definition bind {A B} (m : M A) (k : A -> M B) : M B :=
  fun h =>
    match m h with
    | (Return a, h') => k a h'
    | (Raise e, h') => (Raise e, h')
    end.

Definition lift {A} (r : outcome py_exn A) : M A := fun h => (r, h).

Definition read {A} (f : gmap nat object -> outcome py_exn A) : M A := fun h => (f h, h).

Notation "'do!' x ':=' m 'in' k" := (bind m (fun x => k))
  (at level 10, x name, m at level 100, k at level 200).
Notation "m ';;;' k" := (bind m (fun _ => k))
  (at level 100, k at level 200, right associativity).

Fixpoint entry_lookup (k : string) (entries : list (string * value)) : option value :=
  match entries with
  | [] => None
  | (k', v) :: rest => if String.eqb k k' then Some v else entry_lookup k rest
  end.

(** [d[k] = v] on the entries of a dictionary: a key that is present keeps
    its place, a new key goes to the end. *)
Fixpoint entry_set (k : string) (v : value) (entries : list (string * value))
  : list (string * value) :=
  match entries with
  | [] => [(k, v)]
  | (k', v') :: rest =>
      if String.eqb k k' then (k, v) :: rest else (k', v') :: entry_set k v rest
  end.

(** A new object takes an address the heap does not use. *)
Definition alloc (o : object) : M value :=
  fun h => let a := fresh (dom h) in (Return (VRef a), <[a := o]> h).

(** [v.copy()]: a new object with the same entries or items; what they
    refer to is shared with [v]. *)
Definition copy (v : value) : M value :=
  fun h =>
    match v with
    | VRef a =>
        match h !! a with
        | Some o => alloc o h
        | None => (Raise AttributeError, h)
        end
    | _ => (Raise AttributeError, h)
    end.

(** [v.get(k, default)] *)
Definition get (v : value) (k : string) (default : value) : M value :=
  fun h =>
    match v with
    | VRef a =>
        match h !! a with
        | Some (ODict entries) =>
            (Return (match entry_lookup k entries with Some x => x | None => default end), h)
        | _ => (Raise AttributeError, h)
        end
    | _ => (Raise AttributeError, h)
    end.

(** [v[k]] with a string [k] *)
Definition getitem (v : value) (k : string) : M value :=
  fun h =>
    match v with
    | VRef a =>
        match h !! a with
        | Some (ODict entries) =>
            match entry_lookup k entries with
            | Some x => (Return x, h)
            | None => (Raise KeyError, h)
            end
        | _ => (Raise TypeError, h)
        end
    | _ => (Raise TypeError, h)
    end.

(** [v[k] = x] with a string [k] *)
Definition setitem (v : value) (k : string) (x : value) : M unit :=
  fun h =>
    match v with
    | VRef a =>
        match h !! a with
        | Some (ODict entries) => (Return tt, <[a := ODict (entry_set k x entries)]> h)
        | _ => (Raise TypeError, h)
        end
    | _ => (Raise TypeError, h)
    end.

Fixpoint chars (s : string) : list value :=
  match s with
  | EmptyString => []
  | String c rest => VStr (String c EmptyString) :: chars rest
  end.

(** [iter(v)] *)
Definition iterate (v : value) : M (list value) :=
  fun h =>
    match v with
    | VRef a =>
        match h !! a with
        | Some (OList items) => (Return items, h)
        | Some (ODict entries) => (Return (List.map (fun e => VStr (fst e)) entries), h)
        | None => (Raise TypeError, h)
        end
    | VStr s => (Return (chars s), h)
    | _ => (Raise TypeError, h)
    end.

(** [bool(v)] *)
Definition truthy (v : value) : M bool :=
  fun h =>
    match v with
    | VNone => (Return false, h)
    | VBool b => (Return b, h)
    | VNum z => (Return (negb (z =? 0)%Z), h)
    | VStr s => (Return (negb (String.eqb s "")), h)
    | VTime _ => (Return true, h)
    | VRef a =>
        match h !! a with
        | Some (ODict entries) => (Return (match entries with [] => false | _ => true end), h)
        | Some (OList items) => (Return (match items with [] => false | _ => true end), h)
        | None => (Raise TypeError, h)
        end
    end.

(** [for x in items: body(x)] *)
Fixpoint for_each (items : list value) (body : value -> M unit) : M unit :=
  match items with
  | [] => ret tt
  | x :: rest => body x ;;; for_each rest body
  end.

(** The references an object holds, and heaps without dangling references. *)
Definition references (o : object) : list nat :=
  let of_value v := match v with VRef a => [a] | _ => [] end in
  match o with
  | ODict entries => List.concat (List.map (fun e => of_value (snd e)) entries)
  | OList items => List.concat (List.map of_value items)
  end.

Definition closed (h : gmap nat object) : Prop :=
  forall a o, h !! a = Some o -> forall b, In b (references o) -> is_Some (h !! b).

(** The document a value stands for in a heap, read to a given depth; a
    time is read as its timestamp. *)
Fixpoint snapshot (depth : nat) (h : gmap nat object) (v : value) : json :=
  match v with
  | VNone => JNull
  | VBool b => JBool b
  | VNum z => JNum z
  | VStr s => JStr s
  | VTime t => JNum t
  | VRef a =>
      match depth with
      | O => JNull
      | S depth' =>
          match h !! a with
          | Some (ODict entries) =>
              JDict (List.map (fun e => (fst e, snapshot depth' h (snd e))) entries)
          | Some (OList items) => JList (List.map (snapshot depth' h) items)
          | None => JNull
          end
      end
  end.

(** A computation keeps an invariant of the heap, whether it returns or
    raises; and the invariant that the objects of the heap [h0] are as they
    were. *)
Definition keeps (I : gmap nat object -> Prop) {A} (m : M A) : Prop :=
  forall h r h', I h -> m h = (r, h') -> I h'.

Definition unchanged (h0 h : gmap nat object) : Prop :=
  forall a, is_Some (h0 !! a) -> h !! a = h0 !! a.

End Heap.

(** ** [serializers.py]: [ContentMetadataSerializer] *)

Module Enrichment.
Import Heap.

(** Modelled from the spec: the model class [ContentMetadata] is missing; a
    record has a content type, a content key, a metadata blob, a
    modification time, and tells whether it is an exec-ed-2u course. *)
Record ContentMetadata : Type := {
  content_type : string;
  content_key : string;
  json_metadata : value;
  modified : Z;
  is_exec_ed_2u_course : bool
}.

Record EnterpriseCustomer : Type := {
  last_modified_date : Z
}.

(** The catalog of the serializer context; its own modification time is
    [catalog_modified]. *)
Record EnterpriseCatalog : Type := {
  catalog_modified : Z;
  enterprise_name : string;
  enterprise_customer : EnterpriseCustomer
}.

(** Modelled from the spec: [get_most_recent_modified_time] of
    [api/v1/utils.py] is missing; it is "the maximum of the metadata's own
    modification time, the owning catalog's modification time, and the
    owning enterprise customer's modification time". *)
Definition get_most_recent_modified_time (content_modified catalog_modified
    customer_modified : Z) : Z :=
  Z.max content_modified (Z.max catalog_modified customer_modified).

Section Serializer.

(** The content type constants of [catalog/constants.py]. *)
Variables COURSE COURSE_RUN PROGRAM : string.
(** The collaborators of the catalog context and of [api/v1/utils.py]. *)
Variable get_content_enrollment_url : EnterpriseCatalog -> ContentMetadata -> value.
Variable get_xapi_activity_id : EnterpriseCatalog -> string -> value -> value.
Variable get_enterprise_utm_context : string -> list (string * string).
Variable update_query_parameters :
  value -> list (string * string) -> outcome py_exn value.
Variable is_any_course_run_active : gmap nat object -> value -> outcome py_exn bool.
(** [ContentMetadata.get_child_records] *)
Variable get_child_records : ContentMetadata -> list ContentMetadata.

(** [urls_by_course_run_key.get(key)]: a list or a dictionary cannot be
    looked up, it is not hashable. *)
Definition urls_get (urls : gmap string value) (key : value) : M value :=
  match key with
  | VRef _ => raise TypeError
  | VStr s => ret (match urls !! s with Some url => url | None => VNone end)
  | _ => ret VNone
  end.

Definition _add_course_run_enrollment_urls (enterprise_catalog : EnterpriseCatalog)
    (course_instance : ContentMetadata) (serialized_course_runs : value) : M unit :=
  let urls_by_course_run_key :=
    List.fold_left
      (fun (urls : gmap string value) course_run =>
         <[content_key course_run :=
             get_content_enrollment_url enterprise_catalog course_run]> urls)
      (get_child_records course_instance) ∅ in
  do! runs := iterate serialized_course_runs in
  for_each runs (fun serialized_run =>
    do! key := getitem serialized_run "key" in
    do! url := urls_get urls_by_course_run_key key in
    setitem serialized_run "enrollment_url" url).

Definition to_representation (enterprise_catalog : EnterpriseCatalog)
    (instance : ContentMetadata) : M value :=
  let content_type := content_type instance in
  do! json_metadata := copy (json_metadata instance) in
  do! marketing_url := get json_metadata "marketing_url" VNone in
  do! content_key := get json_metadata "key" VNone in
  let modified_time :=
    get_most_recent_modified_time
      (modified instance)
      (catalog_modified enterprise_catalog)
      (last_modified_date (enterprise_customer enterprise_catalog)) in
  setitem json_metadata "content_last_modified" (VTime modified_time) ;;;
  do! has_marketing_url := truthy marketing_url in
  (if has_marketing_url then
     do! marketing_url :=
       lift (update_query_parameters marketing_url
               (get_enterprise_utm_context (enterprise_name enterprise_catalog))) in
     setitem json_metadata "marketing_url" marketing_url
   else ret tt) ;;;
  (if String.eqb content_type COURSE || String.eqb content_type COURSE_RUN then
     setitem json_metadata "enrollment_url"
       (get_content_enrollment_url enterprise_catalog instance) ;;;
     setitem json_metadata "xapi_activity_id"
       (get_xapi_activity_id enterprise_catalog content_type content_key) ;;;
     if String.eqb content_type COURSE then
       do! empty := alloc (OList []) in
       do! serialized_course_runs := get json_metadata "course_runs" empty in
       do! active := read (fun h => is_any_course_run_active h serialized_course_runs) in
       setitem json_metadata "active" (VBool active) ;;;
       if negb (is_exec_ed_2u_course instance) then
         _add_course_run_enrollment_urls enterprise_catalog instance serialized_course_runs
       else ret tt
     else ret tt
   else if String.eqb content_type PROGRAM then
     setitem json_metadata "enrollment_url" VNone
   else ret tt) ;;;
  ret json_metadata.

End Serializer.

(** A course with one course run, and collaborators for concrete runs. *)
Definition demo_heap : gmap nat object :=
  {[ 0%nat := ODict [("key", VStr "edX+DemoX"); ("title", VStr "Demo");
                     ("course_runs", VRef 1)];
     1%nat := OList [VRef 2];
     2%nat := ODict [("key", VStr "course-v1:edX+DemoX+1T2023")] ]}.

Definition demo_course : ContentMetadata :=
  {| content_type := "course";
     content_key := "edX+DemoX";
     json_metadata := VRef 0;
     modified := 1685577600;
     is_exec_ed_2u_course := false |}.

Definition demo_course_run : ContentMetadata :=
  {| content_type := "courserun";
     content_key := "course-v1:edX+DemoX+1T2023";
     json_metadata := VRef 2;
     modified := 1685577600;
     is_exec_ed_2u_course := false |}.

Definition demo_program : ContentMetadata :=
  {| content_type := "program";
     content_key := "7f4a2e6c";
     json_metadata := VRef 2;
     modified := 1685577600;
     is_exec_ed_2u_course := false |}.

Definition demo_catalog : EnterpriseCatalog :=
  {| catalog_modified := 1693526400;
     enterprise_name := "Acme";
     enterprise_customer := {| last_modified_date := 1672531200 |} |}.

Definition demo_enrollment_url (_ : EnterpriseCatalog) (record : ContentMetadata) : value :=
  VStr ("https://enterprise.example.com/acme/course/" ++ content_key record).

Definition demo_xapi_activity_id (_ : EnterpriseCatalog) (content_resource : string)
    (key : value) : value :=
  match key with
  | VStr k => VStr ("https://example.com/xapi/activities/" ++ content_resource ++ "/" ++ k)
  | _ => VNone
  end.

Definition demo_to_representation : EnterpriseCatalog -> ContentMetadata -> M value :=
  to_representation "course" "courserun" "program"
    demo_enrollment_url demo_xapi_activity_id
    (fun name => [("utm_medium", "enterprise"); ("utm_source", name)])
    (fun url _ => Return url)
    (fun _ _ => Return true)
    (fun course => [demo_course_run]).

End Enrichment.

(** ** More of [export_utils.py]: the query dict, the valid facets, the header row *)

Module Facets.

(** A [QueryDict] maps each key to the list of its values. *)

(** [query_dict.getlist(key)] *)
Definition getlist (query_dict : gmap string (list string)) (key : string) : list string :=
  match query_dict !! key with
  | Some values => values
  | None => []
  end.

(** [query_dict.keys()] *)
Definition keys (query_dict : gmap string (list string)) : list string :=
  fst <$> map_to_list query_dict.

Definition querydict_to_dict (query_dict : gmap string (list string))
  : gmap string (list string) :=
  List.fold_left
    (fun (data : gmap string (list string)) key =>
       let v := getlist query_dict key in
       <[key := v]> data)
    (keys query_dict) ∅.

(** [s.replace(old, '')] for a non-empty [old]: the occurrences of [old] are
    removed from left to right, none overlapping another.  [skip] counts the
    characters of an occurrence still to be dropped. *)
Fixpoint remove_from (old : string) (skip : nat) (s : string) : string :=
  match s with
  | EmptyString => EmptyString
  | String c rest =>
      match skip with
      | S skip' => remove_from old skip' rest
      | O =>
          if String.prefix old s
          then remove_from old (String.length old - 1) rest
          else String c (remove_from old 0 rest)
      end
  end.

Definition remove_all (old s : string) : string := remove_from old 0 s.

(** [s.rstrip(c)] for one character [c] *)
Fixpoint rstrip (c : ascii) (s : string) : string :=
  match s with
  | EmptyString => EmptyString
  | String a rest =>
      match rstrip c rest with
      | EmptyString => if Ascii.eqb a c then EmptyString else String a EmptyString
      | kept => String a kept
      end
  end.

(** [facet.replace('searchable(', '').rstrip(')')] *)
Definition strip_wrapper (facet : string) : string :=
  rstrip ")"%char (remove_all "searchable(" facet).

(** [attributesForFaceting] is the entry of [ALGOLIA_INDEX_SETTINGS], a
    table of [catalog/algolia_utils.py] that is not in these sources. *)
Definition get_valid_facets (attributesForFaceting : list string) : list string :=
  List.fold_left
    (fun (valid_facets : list string) facet => (valid_facets ++ [strip_wrapper facet])%list)
    attributesForFaceting [].

(** An attribute name without parentheses. *)
Definition plain_name (s : string) : bool :=
  forallb (fun c => negb (Ascii.eqb c "("%char) && negb (Ascii.eqb c ")"%char))
    (list_ascii_of_string s).

End Facets.

Module Sheets.

Section Worksheet.

(** The worksheet and the cell format are objects of [xlsxwriter], which is
    not part of these sources.  The worksheet is changed in place by the two
    methods the export calls; what they return is not used. *)
Variables worksheet format : Type.
(** [worksheet.set_column(first_col, last_col, width)] *)
Variable set_column : nat -> nat -> Z -> worksheet -> worksheet.
(** [worksheet.write(row, col, data, cell_format)] *)
Variable write : nat -> nat -> string -> format -> worksheet -> worksheet.

(** [for col_num, cell_data in enumerate(headers)], from [col_num] on *)
Fixpoint write_headers_from (col_num : nat) (headers : list string)
    (cell_format : format) (sheet : worksheet) : worksheet :=
  match headers with
  | [] => sheet
  | cell_data :: rest =>
      let sheet := set_column 0 col_num 30 sheet in
      let sheet := write 0 col_num cell_data cell_format sheet in
      write_headers_from (S col_num) rest cell_format sheet
  end.

Definition write_headers_to_sheet (sheet : worksheet) (headers : list string)
    (cell_format : format) : worksheet :=
  write_headers_from 0 headers cell_format sheet.

End Worksheet.

(** A worksheet that records what is written to it: the width set for a
    column and the text and format written to a cell. *)
Record recorded (format : Type) : Type := {
  widths : gmap nat Z;
  cells : gmap (nat * nat) (string * format)
}.
Arguments widths {format} _.
Arguments cells {format} _.

Definition record_set_column {format} (first_col last_col : nat) (width : Z)
    (sheet : recorded format) : recorded format :=
  {| widths :=
       List.fold_left (fun w col => <[col := width]> w)
         (seq first_col (S last_col - first_col)) (widths sheet);
     cells := cells sheet |}.

Definition record_write {format} (row col : nat) (data : string) (cell_format : format)
    (sheet : recorded format) : recorded format :=
  {| widths := widths sheet;
     cells := <[(row, col) := (data, cell_format)]> (cells sheet) |}.

Definition blank {format} : recorded format := {| widths := ∅; cells := ∅ |}.

End Sheets.

(** ** What a call leaves of the objects it was given *)

Module Changes.
Import Heap Enrichment.

(** Two states of an object that differ at most in the entry [key] of a
    dictionary. *)
Definition same_except (key : string) (o o' : object) : Prop :=
  match o, o' with
  | ODict entries, ODict entries' =>
      forall k, k <> key -> entry_lookup k entries' = entry_lookup k entries
  | OList items, OList items' => items' = items
  | _, _ => False
  end.

(** The objects of the heap [h0] are still there in [h] and differ from what
    they were at most in the entry [key]. *)
Definition only_entry (key : string) (h0 h : gmap nat object) : Prop :=
  forall a o, h0 !! a = Some o -> exists o', h !! a = Some o' /\ same_except key o o'.

(** The keys of the representation that [to_representation] assigns. *)
Definition ASSIGNED_KEYS : list string :=
  [ "content_last_modified"; "marketing_url"; "enrollment_url"; "xapi_activity_id";
    "active" ].

End Changes.
(** ** Properties of [facets_to_query] *)

Section FacetsToQuery.
Import ExportUtils.

Implicit Types facets : gmap string (list string).

Lemma facets_to_query_query facets v vs :
  facets !! "query" = Some (v :: vs) ->
  facets_to_query facets = (Return v, delete "query" facets).
Proof.
  intros Hq. unfold facets_to_query, dict_pop. rewrite Hq. reflexivity.
Qed.

Lemma facets_to_query_q facets v vs :
  truthy_list (facets !! "query") = false ->
  facets !! "q" = Some (v :: vs) ->
  facets_to_query facets = (Return v, delete "q" facets).
Proof.
  intros Hq Hq'. unfold facets_to_query, dict_pop. rewrite Hq, Hq'. reflexivity.
Qed.

Lemma facets_to_query_neither facets :
  truthy_list (facets !! "query") = false ->
  truthy_list (facets !! "q") = false ->
  facets_to_query facets = (Return "", facets).
Proof.
  intros Hq Hq'. unfold facets_to_query. rewrite Hq, Hq'. reflexivity.
Qed.

(** C9. [facets_to_query] takes the free-text query from the key [query]
    when it holds a value, else from [q] when that holds a value, else it
    is the empty string; the key that was used is removed from the bag and
    no other binding changes.  In particular [{'query': ['abc']}] gives
    ['abc'] and leaves the empty bag, and [{}] gives [''].  No call raises. *)
Theorem facets_to_query_spec :
  (forall facets v vs,
      facets !! "query" = Some (v :: vs) ->
      facets_to_query facets = (Return v, delete "query" facets)) /\
  (forall facets v vs,
      truthy_list (facets !! "query") = false ->
      facets !! "q" = Some (v :: vs) ->
      facets_to_query facets = (Return v, delete "q" facets)) /\
  (forall facets,
      truthy_list (facets !! "query") = false ->
      truthy_list (facets !! "q") = false ->
      facets_to_query facets = (Return "", facets)) /\
  (forall facets, exists s, (facets_to_query facets).1 = Return s) /\
  facets_to_query {[ "query" := ["abc"] ]} = (Return "abc", ∅) /\
  facets_to_query ∅ = (Return "", ∅).
Proof.
  split; [exact facets_to_query_query|].
  split; [exact facets_to_query_q|].
  split; [exact facets_to_query_neither|].
  split.
  - intros facets. unfold facets_to_query, dict_pop.
    destruct (facets !! "query") as [[|v vs]|] eqn:Hq; simpl;
      destruct (facets !! "q") as [[|w ws]|] eqn:Hq'; simpl; eauto.
  - split.
    + rewrite (facets_to_query_query _ "abc" []);
        [rewrite delete_singleton_eq; reflexivity | apply lookup_singleton_eq].
    + apply facets_to_query_neither; rewrite lookup_empty; reflexivity.
Qed.

Lemma facets_to_query_spec_witness :
  facets_to_query {[ "q" := ["xyz"; "w"] ]} = (Return "xyz", delete "q" {[ "q" := ["xyz"; "w"] ]}).
Proof.
  apply (proj1 (proj2 facets_to_query_spec) _ "xyz" ["w"]).
  - rewrite lookup_singleton_ne by discriminate. reflexivity.
  - apply lookup_singleton_eq.
Defined.

Lemma validate_query_facets_elem valid facets k :
  k ∈ validate_query_facets valid facets <-> is_Some (facets !! k) /\ k ∉ valid.
Proof.
  unfold validate_query_facets.
  rewrite list_elem_of_filter, list_elem_of_fmap. split.
  - intros [Hv [[k' v] [Hk Hin]]]. simpl in Hk. subst k'.
    apply elem_of_map_to_list in Hin. eauto.
  - intros [[v Hv] Hn]. split; [exact Hn|].
    exists (k, v). split; [reflexivity|].
    apply elem_of_map_to_list. exact Hv.
Qed.

(** C10. A key [query] bound to an empty (falsy) value is not removed:
    the call falls through to [q] exactly as if [query] were absent, the
    binding of [query] is still in the bag afterwards, and the later facet
    validation reports it unless it is an allowed facet.  The same holds
    for a falsy [q]: the result is [''] and the bag is returned as it was.
    Conversely a key is removed only when its value is truthy. *)
Theorem facets_to_query_falsy_key_kept :
  (forall facets,
      facets !! "query" = Some [] ->
      (facets_to_query facets).1 = (facets_to_query (delete "query" facets)).1 /\
      (facets_to_query facets).2 !! "query" = Some [] /\
      (forall valid, "query" ∉ valid ->
         "query" ∈ validate_query_facets valid (facets_to_query facets).2)) /\
  (forall facets,
      truthy_list (facets !! "query") = false ->
      facets !! "q" = Some [] ->
      facets_to_query facets = (Return "", facets)) /\
  (forall facets k,
      is_Some (facets !! k) ->
      (facets_to_query facets).2 !! k = None ->
      truthy_list (facets !! k) = true).
Proof.
  split; [|split].
  - intros facets Hq.
    assert (Hfall : facets_to_query facets =
                    ((facets_to_query (delete "query" facets)).1,
                     match (facets_to_query (delete "query" facets)).1,
                           truthy_list (facets !! "q") with
                     | _, true => delete "q" facets
                     | _, false => facets
                     end)).
    { unfold facets_to_query, dict_pop.
      rewrite Hq, lookup_delete_eq. simpl.
      rewrite lookup_delete_ne by discriminate.
      destruct (facets !! "q") as [[|w ws]|]; reflexivity. }
    rewrite Hfall. simpl.
    assert (Hkept : match (facets_to_query (delete "query" facets)).1,
                          truthy_list (facets !! "q") with
                    | _, true => delete "q" facets
                    | _, false => facets
                    end !! "query" = Some []).
    { destruct (facets_to_query (delete "query" facets)).1,
        (truthy_list (facets !! "q"));
        try exact Hq; rewrite lookup_delete_ne by discriminate; exact Hq. }
    split; [reflexivity|]. split; [exact Hkept|].
    intros valid Hn. apply validate_query_facets_elem.
    split; [rewrite Hkept; eauto | exact Hn].
  - intros facets Hq Hq'. apply facets_to_query_neither; [exact Hq|].
    rewrite Hq'. reflexivity.
  - intros facets k [l Hl] Hgone. unfold facets_to_query, dict_pop in Hgone.
    destruct (facets !! "query") as [[|v vs]|] eqn:Hq; simpl in Hgone;
      try (destruct (decide (k = "query")) as [->|Hne];
           [rewrite Hq; reflexivity
           |rewrite lookup_delete_ne in Hgone by congruence; congruence]);
      destruct (facets !! "q") as [[|w ws]|] eqn:Hq'; simpl in Hgone;
      try congruence;
      (destruct (decide (k = "q")) as [->|Hne];
       [rewrite Hq'; reflexivity
       |rewrite lookup_delete_ne in Hgone by congruence; congruence]).
Qed.

Lemma facets_to_query_falsy_key_kept_witness :
  (facets_to_query {[ "query" := []; "q" := ["abc"] ]}).1 = Return "abc" /\
  (facets_to_query {[ "query" := []; "q" := ["abc"] ]}).2 !! "query" = Some [].
Proof.
  destruct (proj1 facets_to_query_falsy_key_kept
              {[ "query" := []; "q" := ["abc"] ]}) as [H1 [H2 _]].
  - reflexivity.
  - split; [rewrite H1; reflexivity | exact H2].
Defined.

End FacetsToQuery.

(** ** Properties of the CSV row projections *)

Section RowProjections.
Import Py ExportUtils.

Variable parse_strftime : string -> outcome py_exn string.
Variable fromtimestamp_strftime : Z -> outcome py_exn string.
Variable strip_tags : json -> string.

Abbreviation course_hit_to_row := (course_hit_to_row parse_strftime fromtimestamp_strftime strip_tags).
Abbreviation course_run_to_row := (course_run_to_row parse_strftime fromtimestamp_strftime).
Abbreviation course_hit_shape := (course_hit_shape parse_strftime fromtimestamp_strftime).
Abbreviation course_run_shape := (course_run_shape parse_strftime fromtimestamp_strftime).
Abbreviation advertised_shape := (advertised_shape parse_strftime fromtimestamp_strftime).
Abbreviation parse_date := (parse_date parse_strftime).
Abbreviation timestamp_date := (timestamp_date fromtimestamp_strftime).
Abbreviation date_text := (date_text parse_strftime).
Abbreviation timestamp := (timestamp fromtimestamp_strftime).

Implicit Types (hit run : list (string * json)) (v : json).

(** Every path through a projection appends the same number of cells. *)

Ltac step_outcome :=
  match goal with
  | H : Return _ = Return _ |- _ => injection H as H; subst
  | H : Raise _ = Return _ |- _ => discriminate H
  | H : context [obind ?m _] |- _ =>
      let E := fresh "E" in destruct m eqn:E; simpl in H
  | H : context [if ?b then _ else _] |- _ => destruct b; simpl in H
  | H : context [let '(_, _) := ?p in _] |- _ => destruct p; simpl in H
  end.

Lemma program_hit_to_row_length hit row :
  program_hit_to_row hit = Return row -> length row = 5%nat.
Proof.
  unfold program_hit_to_row. intros H. simpl in H.
  repeat step_outcome. reflexivity.
Qed.

Lemma course_run_to_row_length ck ct run row :
  course_run_to_row ck ct run = Return row -> length row = 11%nat.
Proof.
  unfold course_run_to_row. intros H. simpl in H.
  repeat step_outcome; reflexivity.
Qed.



Lemma obind_Return {E A B} (m : outcome E A) (k : A -> outcome E B) r :
  obind m k = Return r -> exists a, m = Return a /\ k a = Return r.
Proof. destruct m; simpl; [eauto|discriminate]. Qed.

Lemma length_append (csv_row : list json) cell :
  length (append csv_row cell) = S (length csv_row).
Proof. unfold append. rewrite length_app. simpl. lia. Qed.

Lemma course_hit_to_row_length hit row :
  course_hit_to_row hit = Return row -> length row = 22%nat.
Proof.
  unfold ExportUtils.course_hit_to_row. cbv zeta. intros H.
  apply obind_Return in H as (row1 & H1 & H).
  assert (L1 : length row1 = 2%nat).
  { destruct (truthy _); [|injection H1 as <-; reflexivity].
    repeat (apply obind_Return in H1 as (? & _ & H1)).
    injection H1 as <-. reflexivity. }
  clear H1.
  apply obind_Return in H as ([[row2 pacing_type] key] & H2 & H).
  assert (L2 : length row2 = 5%nat).
  { destruct (truthy _).
    - repeat (apply obind_Return in H2 as (? & _ & H2)).
      injection H2 as <- _ _. rewrite !length_append. lia.
    - injection H2 as <- _ _. rewrite !length_append. lia. }
  clear H2.
  repeat (apply obind_Return in H as (? & _ & H)).
  injection H as <-. rewrite !length_append. lia.
Qed.

(** Joining and collecting names succeed on well-shaped lists. *)

Lemma join_items_text sep items :
  forallb is_text items = true -> exists s, join_items sep items = Return s.
Proof.
  induction items as [|x rest IH]; simpl; [eauto|].
  intros [Hx Hrest]%andb_prop. destruct x; try discriminate.
  destruct (IH Hrest) as [tail ->]. simpl. eauto.
Qed.

Lemma join_text sep v :
  text_list v = true -> exists s, join sep v = Return s.
Proof.
  destruct v; try discriminate. simpl. apply join_items_text.
Qed.

Lemma join_absent sep hit k :
  lookup_entry k hit = None ->
  join sep (dict_get_default hit k (JList [])) = Return "".
Proof. intros H. unfold dict_get_default. rewrite H. reflexivity. Qed.

Lemma names_of_named items :
  forallb has_name items = true ->
  exists names,
    comprehension (fun entry => subscript_key entry "name") items = Return names /\
    forallb is_text names = true.
Proof.
  induction items as [|x rest IH]; simpl; [eauto|].
  intros [Hx Hrest]%andb_prop. destruct x as [| | | | |d]; try discriminate.
  simpl in Hx. cbn [subscript_key]. unfold dict_item.
  destruct (lookup_entry "name" d) as [name|]; [|discriminate]. simpl.
  destruct (IH Hrest) as (names & -> & Hnames). simpl.
  exists (name :: names). split; [reflexivity|]. simpl. rewrite Hx. exact Hnames.
Qed.

Lemma joined_names hit k :
  optional named_list hit k = true ->
  exists joined,
    (try! entries := iterate (dict_get_default hit k (JList [])) in
     try! names := comprehension (fun entry => subscript_key entry "name") entries in
     join_items ", " names) = Return joined /\
    (lookup_entry k hit = None -> joined = "").
Proof.
  unfold optional, dict_get_default.
  destruct (lookup_entry k hit) as [v|]; [|intros _; simpl; eauto].
  intros Hv. destruct v; try discriminate. simpl in *.
  destruct (names_of_named _ Hv) as (names & -> & Hnames). simpl.
  destruct (join_items_text ", " _ Hnames) as [joined ->].
  exists joined. split; [reflexivity|discriminate].
Qed.

Lemma joined_texts hit k :
  optional text_list hit k = true ->
  exists joined,
    join ", " (dict_get_default hit k (JList [])) = Return joined /\
    (lookup_entry k hit = None -> joined = "").
Proof.
  unfold optional. intros Hk.
  destruct (lookup_entry k hit) as [v|] eqn:E.
  - unfold dict_get_default. rewrite E.
    destruct (join_text ", " _ Hk) as [joined ->].
    exists joined. split; [reflexivity|discriminate].
  - rewrite join_absent by exact E. eauto.
Qed.

(** A date cell: the empty cell when the field is absent or empty. *)

Lemma date_cell run k :
  optional date_text run k = true ->
  exists cell,
    (if truthy (dict_get run k) then parse_date (dict_get run k) else Return JNull)
    = Return cell /\
    (lookup_entry k run = None -> cell = JNull).
Proof.
  unfold optional, dict_get.
  destruct (lookup_entry k run) as [v|]; [|simpl; eauto].
  unfold date_text. destruct (truthy v); simpl; [|eauto].
  destruct v; try discriminate. simpl.
  destruct (parse_strftime s); [|discriminate]. intros _. eexists. split; [reflexivity|discriminate].
Qed.

Lemma deadline_cell run k :
  optional timestamp run k = true ->
  exists cell,
    (if truthy (dict_get run k) then timestamp_date (dict_get run k) else Return JNull)
    = Return cell /\
    (lookup_entry k run = None -> cell = JNull).
Proof.
  unfold optional, dict_get.
  destruct (lookup_entry k run) as [v|]; [|simpl; eauto].
  unfold timestamp. destruct (truthy v); simpl; [|eauto].
  destruct v; try discriminate. unfold timestamp_date.
  destruct (fromtimestamp_strftime z); [|discriminate]. intros _. eexists. split; [reflexivity|discriminate].
Qed.

Lemma truthy_present run k :
  truthy (dict_get run k) = true -> dict_item run k = Return (dict_get run k).
Proof.
  unfold dict_get, dict_item. destruct (lookup_entry k run); [reflexivity|discriminate].
Qed.


Lemma advertised_date_cell run k :
  optional date_text run k = true ->
  exists cell,
    (if truthy (dict_get run k) then
       try! raw := subscript_key (JDict run) k in parse_date raw
     else Return JNull) = Return cell /\
    (lookup_entry k run = None -> cell = JNull).
Proof.
  intros H. destruct (date_cell run k H) as (cell & E & F).
  exists cell. split; [|exact F].
  destruct (truthy (dict_get run k)) eqn:T; [|exact E].
  cbn [subscript_key]. rewrite (truthy_present _ _ T). exact E.
Qed.

Lemma advertised_deadline_cell run k :
  optional timestamp run k = true ->
  exists cell,
    (if truthy (dict_get run k) then
       try! raw_deadline := subscript_key (JDict run) k in timestamp_date raw_deadline
     else Return JNull) = Return cell /\
    (lookup_entry k run = None -> cell = JNull).
Proof.
  intros H. destruct (deadline_cell run k H) as (cell & E & F).
  exists cell. split; [|exact F].
  destruct (truthy (dict_get run k)) eqn:T; [|exact E].
  cbn [subscript_key]. rewrite (truthy_present _ _ T). exact E.
Qed.

Lemma partner_cell hit csv_row :
  optional named_list hit "partners" = true ->
  exists cell,
    (if truthy (dict_get hit "partners") then
       try! partners := dict_item hit "partners" in
       try! partner := subscript_zero partners in
       try! name := subscript_key partner "name" in
       Return (append csv_row name)
     else Return (append csv_row JNull)) = Return (append csv_row cell) /\
    (lookup_entry "partners" hit = None -> cell = JNull).
Proof.
  unfold optional, dict_get, dict_item.
  destruct (lookup_entry "partners" hit) as [v|]; [|simpl; eauto].
  intros Hv. destruct v as [| | | |items|]; try discriminate.
  destruct items as [|first rest]; [simpl; exists JNull; split; [reflexivity|discriminate]|].
  simpl in Hv. apply andb_prop in Hv as [Hfirst _].
  destruct first as [| | | | |d]; try discriminate. simpl in *. unfold dict_item.
  destruct (lookup_entry "name" d) as [name|]; [|discriminate]. simpl.
  exists name. split; [reflexivity|discriminate].
Qed.

(** The row of a course run, cell by cell. *)
Lemma course_run_to_row_cells ck ct run :
  course_run_shape run = true ->
  exists start_date end_date upgrade_deadline,
    course_run_to_row ck ct run =
      Return [ ct; dict_get run "key"; ck; dict_get run "pacing_type";
               dict_get run "availability"; start_date; end_date; upgrade_deadline;
               dict_get run "min_effort"; dict_get run "max_effort";
               dict_get run "weeks_to_complete" ] /\
    (lookup_entry "start" run = None -> start_date = JNull) /\
    (lookup_entry "end" run = None -> end_date = JNull) /\
    (lookup_entry "upgrade_deadline" run = None -> upgrade_deadline = JNull).
Proof.
  unfold ExportUtils.course_run_shape.
  intros [[Hs He]%andb_prop Hu]%andb_prop.
  destruct (date_cell run "start" Hs) as (s & Es & Fs).
  destruct (date_cell run "end" He) as (e & Ee & Fe).
  destruct (deadline_cell run "upgrade_deadline" Hu) as (u & Eu & Fu).
  exists s, e, u. unfold ExportUtils.course_run_to_row. cbv zeta.
  rewrite Es, Ee, Eu. simpl. auto.
Qed.

(** The cells taken from the advertised course run of a course hit. *)
Lemma advertised_cells hit csv_row :
  optional advertised_shape hit "advertised_course_run" = true ->
  exists start_date end_date upgrade_deadline pacing_type key,
    (if truthy (dict_get hit "advertised_course_run") then
       try! run := dict_item hit "advertised_course_run" in
       try! start := method_get run "start" in
       try! start_date :=
         (if truthy start then
            try! raw := subscript_key run "start" in parse_date raw
          else Return JNull) in
       let csv_row := append csv_row start_date in
       try! end_ := method_get run "end" in
       try! end_date :=
         (if truthy end_ then
            try! raw := subscript_key run "end" in parse_date raw
          else Return JNull) in
       let csv_row := append csv_row end_date in
       try! deadline := method_get run "upgrade_deadline" in
       try! upgrade_deadline :=
         (if truthy deadline then
            try! raw_deadline := subscript_key run "upgrade_deadline" in
            timestamp_date raw_deadline
          else Return JNull) in
       let csv_row := append csv_row upgrade_deadline in
       try! pacing_type := subscript_key run "pacing_type" in
       try! key := method_get run "key" in
       Return (csv_row, pacing_type, key)
     else
       let csv_row := append csv_row JNull in
       let csv_row := append csv_row JNull in
       let csv_row := append csv_row JNull in
       Return (csv_row, JNull, JNull))
    = Return (append (append (append csv_row start_date) end_date) upgrade_deadline,
              pacing_type, key) /\
    (lookup_entry "advertised_course_run" hit = None ->
       start_date = JNull /\ end_date = JNull /\ upgrade_deadline = JNull /\
       pacing_type = JNull /\ key = JNull) /\
    (forall run,
       lookup_entry "advertised_course_run" hit = Some (JDict run) ->
       (lookup_entry "start" run = None -> start_date = JNull) /\
       (lookup_entry "end" run = None -> end_date = JNull) /\
       (lookup_entry "upgrade_deadline" run = None -> upgrade_deadline = JNull) /\
       (lookup_entry "key" run = None -> key = JNull)) /\
    exists run,
      dict_get_default hit "advertised_course_run" (JDict []) = JDict run.
Proof.
  unfold optional, dict_get, dict_item, dict_get_default.
  destruct (lookup_entry "advertised_course_run" hit) as [v|].
  2:{ intros _. exists JNull, JNull, JNull, JNull, JNull. simpl.
      split; [reflexivity|]. split; [auto|]. split; [discriminate|eauto]. }
  intros Hv. destruct v as [| | | | |run]; try discriminate.
  unfold ExportUtils.advertised_shape in Hv.
  apply andb_prop in Hv as [Hrun Hpacing].
  destruct (truthy (JDict run)) eqn:Htruthy.
  2:{ exists JNull, JNull, JNull, JNull, JNull.
      split; [reflexivity|]. split; [discriminate|]. split; [|eauto].
      intros run0 [= <-]. destruct run; [|discriminate]. auto. }
  cbn [negb orb] in Hpacing.
  unfold ExportUtils.course_run_shape in Hrun.
  apply andb_prop in Hrun as [[Hs He]%andb_prop Hu].
  destruct (advertised_date_cell run "start" Hs) as (s & Es & Fs).
  destruct (advertised_date_cell run "end" He) as (e & Ee & Fe).
  destruct (advertised_deadline_cell run "upgrade_deadline" Hu) as (u & Eu & Fu).
  destruct (lookup_entry "pacing_type" run) as [pacing|] eqn:Ep; [|discriminate].
  exists s, e, u, pacing, (dict_get run "key").
  split.
  - cbn [obind method_get]. rewrite Es. cbn [obind]. rewrite Ee. cbn [obind].
    rewrite Eu. cbn [obind subscript_key]. unfold dict_item. rewrite Ep. reflexivity.
  - split; [discriminate|]. split; [|eauto].
    intros run0 [= <-]. repeat split; auto.
    intros Hk. unfold dict_get. rewrite Hk. reflexivity.
Qed.


(** The row of a course hit, cell by cell. *)
Lemma course_hit_to_row_cells hit :
  course_hit_shape hit = true ->
  exists partner start_date end_date upgrade_deadline pacing_type key
         programs program_titles subjects skills run,
    course_hit_to_row hit =
      Return [ dict_get hit "title"; partner; start_date; end_date; upgrade_deadline;
               JStr programs; JStr program_titles; pacing_type;
               dict_get hit "level_type";
               dict_get hit "first_enrollable_paid_seat_price";
               dict_get hit "language"; dict_get hit "marketing_url";
               JStr (strip_tags (dict_get_default hit "short_description" (JStr "")));
               JStr subjects; key; dict_get hit "aggregation_key"; JStr skills;
               dict_get run "min_effort"; dict_get run "max_effort";
               dict_get run "weeks_to_complete";
               JStr (strip_tags (dict_get_default hit "outcome" (JStr "")));
               JStr (strip_tags (dict_get_default hit "prerequisites_raw" (JStr ""))) ] /\
    dict_get_default hit "advertised_course_run" (JDict []) = JDict run /\
    (lookup_entry "partners" hit = None -> partner = JNull) /\
    (lookup_entry "advertised_course_run" hit = None ->
       start_date = JNull /\ end_date = JNull /\ upgrade_deadline = JNull /\
       pacing_type = JNull /\ key = JNull) /\
    (forall run0,
       lookup_entry "advertised_course_run" hit = Some (JDict run0) ->
       (lookup_entry "start" run0 = None -> start_date = JNull) /\
       (lookup_entry "end" run0 = None -> end_date = JNull) /\
       (lookup_entry "upgrade_deadline" run0 = None -> upgrade_deadline = JNull) /\
       (lookup_entry "key" run0 = None -> key = JNull)) /\
    (lookup_entry "programs" hit = None -> programs = "") /\
    (lookup_entry "program_titles" hit = None -> program_titles = "") /\
    (lookup_entry "subjects" hit = None -> subjects = "") /\
    (lookup_entry "skills" hit = None -> skills = "").
Proof.
  unfold ExportUtils.course_hit_shape. intros H.
  repeat (apply andb_prop in H as [H ?]).
  destruct (partner_cell hit (append [] (dict_get hit "title")) H)
    as (partner & Epartner & Fpartner).
  match goal with
  | Ha : optional advertised_shape _ _ = true |- _ =>
      destruct (advertised_cells hit (append (append [] (dict_get hit "title")) partner) Ha)
        as (s & e & u & pacing & key & Erun & Fabsent & Frun & run & Edefault)
  end.
  destruct (joined_texts hit "programs") as (programs & Eprograms & Fprograms); [assumption|].
  destruct (joined_texts hit "program_titles") as (titles & Etitles & Ftitles); [assumption|].
  destruct (joined_texts hit "subjects") as (subjects & Esubjects & Fsubjects); [assumption|].
  destruct (joined_names hit "skills") as (skills & Eskills & Fskills); [assumption|].
  exists partner, s, e, u, pacing, key, programs, titles, subjects, skills, run.
  split; [|auto 10].
  unfold ExportUtils.course_hit_to_row. cbv zeta.
  cbv zeta in Erun. rewrite Epartner. cbn [obind]. rewrite Erun. cbn [obind].
  rewrite Eprograms. cbn [obind]. rewrite Etitles. cbn [obind].
  rewrite Esubjects. cbn [obind].
  unfold obind in Eskills.
  destruct (iterate (dict_get_default hit "skills" (JList []))) as [entries|]; [|discriminate].
  cbn [obind].
  destruct (comprehension _ entries) as [names|]; [|discriminate].
  cbn [obind]. rewrite Eskills. cbn [obind].
  rewrite Edefault. reflexivity.
Qed.

(** The row of a program hit, cell by cell. *)
Lemma program_hit_to_row_cells hit :
  program_hit_shape hit = true ->
  exists partners courses,
    program_hit_to_row hit =
      Return [ dict_get hit "title"; dict_get hit "program_type"; JStr partners;
               dict_get hit "subtitle"; JNum courses ] /\
    (lookup_entry "partners" hit = None -> partners = "") /\
    (lookup_entry "course_keys" hit = None -> courses = 0%Z).
Proof.
  unfold program_hit_shape. intros [Hp Hc]%andb_prop.
  destruct (joined_names hit "partners" Hp) as (partners & Epartners & Fpartners).
  assert (Hlen : exists n, len (dict_get_default hit "course_keys" (JList [])) = Return n /\
                           (lookup_entry "course_keys" hit = None -> n = 0%Z)).
  { unfold optional, dict_get_default in *.
    destruct (lookup_entry "course_keys" hit) as [v|]; [|simpl; eauto].
    destruct v; try discriminate. simpl. eexists. split; [reflexivity|discriminate]. }
  destruct Hlen as (n & En & Fn).
  exists partners, n. split; [|auto].
  unfold program_hit_to_row. cbv zeta.
  unfold obind in Epartners.
  destruct (iterate (dict_get_default hit "partners" (JList []))) as [entries|]; [|discriminate].
  cbn [obind].
  destruct (comprehension _ entries) as [names|]; [|discriminate].
  cbn [obind]. rewrite Epartners. cbn [obind]. rewrite En. reflexivity.
Qed.


Ltac absent_cell Habs :=
  repeat match goal with
         | F : lookup_entry _ _ = None -> _ = _ |- _ =>
             try rewrite (F Habs); clear F
         end;
  unfold dict_get, dict_get_default; try rewrite Habs; reflexivity.

(** C7, as the code has it.  For a hit of the index's shape every key is
    optional except [name] in the entries of [partners] and [skills] and
    [pacing_type] in a non-empty [advertised_course_run]: the projection
    returns a row, and the cell of an absent key is [None]; it is the
    empty string where the cell joins a list and [strip_tags('')] where it
    strips markup, and the course count of a program is 0.  A course run
    may lack any key. *)
Theorem absent_keys_give_empty_cells :
  (forall ck ct run,
      course_run_shape run = true ->
      exists row,
        course_run_to_row ck ct run = Return row /\
        forall k c, In (k, c) COURSE_RUN_COLUMNS ->
                    lookup_entry k run = None -> row !! c = Some JNull) /\
  (forall hit,
      program_hit_shape hit = true ->
      exists row,
        program_hit_to_row hit = Return row /\
        (forall k c, In (k, c) PROGRAM_HIT_COLUMNS ->
                     lookup_entry k hit = None -> row !! c = Some JNull) /\
        (lookup_entry "partners" hit = None -> row !! 2%nat = Some (JStr "")) /\
        (lookup_entry "course_keys" hit = None -> row !! 4%nat = Some (JNum 0))) /\
  (forall hit,
      course_hit_shape hit = true ->
      exists row,
        course_hit_to_row hit = Return row /\
        (forall k c, In (k, c) COURSE_HIT_COLUMNS ->
                     lookup_entry k hit = None -> row !! c = Some JNull) /\
        (forall k c, In (k, c) COURSE_HIT_JOINED_COLUMNS ->
                     lookup_entry k hit = None -> row !! c = Some (JStr "")) /\
        (forall k c, In (k, c) COURSE_HIT_STRIPPED_COLUMNS ->
                     lookup_entry k hit = None ->
                     row !! c = Some (JStr (strip_tags (JStr "")))) /\
        (forall c, In c ADVERTISED_RUN_CELLS ->
                   lookup_entry "advertised_course_run" hit = None ->
                   row !! c = Some JNull) /\
        (forall run k c,
            lookup_entry "advertised_course_run" hit = Some (JDict run) ->
            In (k, c) ADVERTISED_RUN_COLUMNS ->
            lookup_entry k run = None -> row !! c = Some JNull)).
Proof.
  split; [|split].
  - intros ck ct run Hshape.
    destruct (course_run_to_row_cells ck ct run Hshape) as (s & e & u & E & Fs & Fe & Fu).
    eexists. split; [exact E|].
    intros k c Hin Habs. simpl in Hin.
    repeat (destruct Hin as [[= <- <-]|Hin]; [absent_cell Habs|]). contradiction.
  - intros hit Hshape.
    destruct (program_hit_to_row_cells hit Hshape) as (partners & n & E & Fp & Fn).
    eexists. split; [exact E|]. split; [|split].
    + intros k c Hin Habs. simpl in Hin.
      repeat (destruct Hin as [[= <- <-]|Hin]; [absent_cell Habs|]). contradiction.
    + intros Habs. absent_cell Habs.
    + intros Habs. absent_cell Habs.
  - intros hit Hshape.
    destruct (course_hit_to_row_cells hit Hshape)
      as (partner & s & e & u & pacing & key & programs & titles & subjects & skills & run
          & E & Edefault & Fpartner & Fabsent & Frun & Fprograms & Ftitles & Fsubjects
          & Fskills).
    eexists. split; [exact E|]. split; [|split; [|split; [|split]]].
    + intros k c Hin Habs. simpl in Hin.
      repeat (destruct Hin as [[= <- <-]|Hin]; [absent_cell Habs|]). contradiction.
    + intros k c Hin Habs. simpl in Hin.
      repeat (destruct Hin as [[= <- <-]|Hin]; [absent_cell Habs|]). contradiction.
    + intros k c Hin Habs. simpl in Hin.
      repeat (destruct Hin as [[= <- <-]|Hin]; [absent_cell Habs|]). contradiction.
    + intros c Hin Habs.
      destruct (Fabsent Habs) as (-> & -> & -> & -> & ->).
      unfold dict_get_default in Edefault. rewrite Habs in Edefault.
      injection Edefault as <-. simpl in Hin.
      repeat (destruct Hin as [<-|Hin]; [reflexivity|]). contradiction.
    + intros run0 k c Hrun Hin Habs.
      destruct (Frun run0 Hrun) as (Fs & Fe & Fu & Fk).
      unfold dict_get_default in Edefault. rewrite Hrun in Edefault.
      injection Edefault as <-. simpl in Hin.
      repeat (destruct Hin as [[= <- <-]|Hin]; [absent_cell Habs|]). contradiction.
Qed.

(** C8, as the code has it.  Every row [course_hit_to_row] returns has 22
    cells, every row [program_hit_to_row] returns has 5 and every row
    [course_run_to_row] returns has 11, as many as the header lists,
    whichever optional fields are absent; and a row is returned for every
    hit and course run of the index's shape, in which the entries of
    [partners] and [skills] carry [name] and a non-empty
    [advertised_course_run] carries [pacing_type]. *)
Theorem csv_row_lengths :
  (forall hit row,
      course_hit_to_row hit = Return row ->
      length row = 22%nat /\ length row = length CSV_COURSE_HEADERS) /\
  (forall hit row,
      program_hit_to_row hit = Return row ->
      length row = 5%nat /\ length row = length CSV_PROGRAM_HEADERS) /\
  (forall ck ct run row,
      course_run_to_row ck ct run = Return row ->
      length row = 11%nat /\ length row = length CSV_COURSE_RUN_HEADERS) /\
  (forall hit, course_hit_shape hit = true ->
               exists row, course_hit_to_row hit = Return row) /\
  (forall hit, program_hit_shape hit = true ->
               exists row, program_hit_to_row hit = Return row) /\
  (forall ck ct run, course_run_shape run = true ->
                     exists row, course_run_to_row ck ct run = Return row).
Proof.
  split; [|split; [|split; [|split; [|split]]]].
  - intros hit row E. rewrite (course_hit_to_row_length hit row E). split; reflexivity.
  - intros hit row E. rewrite (program_hit_to_row_length hit row E). split; reflexivity.
  - intros ck ct run row E.
    rewrite (course_run_to_row_length ck ct run row E). split; reflexivity.
  - intros hit Hshape.
    destruct (course_hit_to_row_cells hit Hshape) as (?&?&?&?&?&?&?&?&?&?&?&E&_); eauto.
  - intros hit Hshape.
    destruct (program_hit_to_row_cells hit Hshape) as (?&?&E&_); eauto.
  - intros ck ct run Hshape.
    destruct (course_run_to_row_cells ck ct run Hshape) as (?&?&?&E&_); eauto.
Qed.

End RowProjections.

(** C7 fails as stated: a non-empty [advertised_course_run] without
    [pacing_type], a [partners] entry without [name] and a [skills] entry
    without [name] each raise [KeyError]. *)
Lemma absent_key_raises_KeyError :
  ExportUtils.course_hit_to_row (fun _ => Raise ValueError) (fun _ => Raise OverflowError) (fun _ => "")
    [("title", JStr "Demo"); ("advertised_course_run", JDict [("key", JStr "course-v1:edX+DemoX+1T2023")])]
  = Raise KeyError /\
  ExportUtils.program_hit_to_row [("title", JStr "Demo"); ("partners", JList [JDict [("logo_image_url", JStr "x.png")]])]
  = Raise KeyError /\
  ExportUtils.course_hit_to_row (fun _ => Raise ValueError) (fun _ => Raise OverflowError) (fun _ => "")
    [("title", JStr "Demo"); ("skills", JList [JDict [("description", JStr "d")]])]
  = Raise KeyError.
Proof. repeat split; reflexivity. Qed.

(** C8 fails as stated: not every hit gives a row.  A course hit whose
    [advertised_course_run] has a start date but no [pacing_type], and a
    program hit with a partner that carries no [name], give no row of any
    length: the call raises [KeyError]. *)
Lemma hit_without_a_row :
  (ExportUtils.course_hit_to_row (fun _ => Return "2023-06-01") (fun _ => Raise OverflowError)
     (fun _ => "")
     [("title", JStr "Demo");
      ("advertised_course_run", JDict [("start", JStr "2023-06-01T00:00:00Z")])]
   = Raise KeyError /\
   ~ exists row,
       ExportUtils.course_hit_to_row (fun _ => Return "2023-06-01")
         (fun _ => Raise OverflowError) (fun _ => "")
         [("title", JStr "Demo");
          ("advertised_course_run", JDict [("start", JStr "2023-06-01T00:00:00Z")])]
       = Return row /\ length row = 22%nat) /\
  (ExportUtils.program_hit_to_row
     [("title", JStr "Data Science");
      ("partners", JList [JDict [("uuid", JStr "0f1a")]])]
   = Raise KeyError /\
   ~ exists row,
       ExportUtils.program_hit_to_row
         [("title", JStr "Data Science");
          ("partners", JList [JDict [("uuid", JStr "0f1a")]])]
       = Return row /\ length row = 5%nat).
Proof.
  split; (split; [reflexivity|]); intros (row & E & _); discriminate E.
Qed.

Lemma absent_keys_give_empty_cells_witness :
  (exists row,
      ExportUtils.course_run_to_row (fun _ => Return "2023-06-01") (fun _ => Raise OverflowError)
        (JStr "edX+DemoX") (JStr "Demo")
        [("key", JStr "course-v1:edX+DemoX+1T2023"); ("start", JStr "2023-06-01T00:00:00Z")]
      = Return row /\ row !! 3%nat = Some JNull) /\
  (exists row,
      ExportUtils.course_hit_to_row (fun _ => Return "2023-06-01") (fun _ => Raise OverflowError) (fun _ => "")
        [("title", JStr "Demo");
         ("advertised_course_run", JDict [("pacing_type", JStr "self_paced")])]
      = Return row /\ row !! 14%nat = Some JNull).
Proof.
  split.
  - destruct (proj1 (absent_keys_give_empty_cells
                       (fun _ => Return "2023-06-01") (fun _ => Raise OverflowError) (fun _ => ""))
                (JStr "edX+DemoX") (JStr "Demo")
                [("key", JStr "course-v1:edX+DemoX+1T2023");
                 ("start", JStr "2023-06-01T00:00:00Z")] eq_refl)
      as (row & E & Hcells).
    exists row. split; [exact E|].
    apply (Hcells "pacing_type" 3%nat); [simpl; auto|reflexivity].
  - destruct (proj2 (proj2 (absent_keys_give_empty_cells
                       (fun _ => Return "2023-06-01") (fun _ => Raise OverflowError) (fun _ => "")))
                [("title", JStr "Demo");
                 ("advertised_course_run", JDict [("pacing_type", JStr "self_paced")])]
                eq_refl)
      as (row & E & _ & _ & _ & _ & Hrun).
    exists row. split; [exact E|].
    apply (Hrun [("pacing_type", JStr "self_paced")] "key" 14%nat);
      [reflexivity|simpl; auto|reflexivity].
Defined.

Lemma csv_row_lengths_witness :
  (exists row,
      ExportUtils.course_hit_to_row (fun _ => Return "2023-06-01") (fun _ => Raise OverflowError) (fun _ => "")
        [("title", JStr "Demo")] = Return row /\ length row = 22%nat) /\
  (exists row,
      ExportUtils.program_hit_to_row [("title", JStr "Demo")] = Return row /\
      length row = 5%nat).
Proof.
  pose proof (csv_row_lengths (fun _ => Return "2023-06-01") (fun _ => Raise OverflowError) (fun _ => ""))
    as (Hc & Hp & _ & Tc & Tp & _).
  split.
  - destruct (Tc [("title", JStr "Demo")] eq_refl) as [row E].
    exists row. split; [exact E|]. exact (proj1 (Hc _ _ E)).
  - destruct (Tp [("title", JStr "Demo")] eq_refl) as [row E].
    exists row. split; [exact E|]. exact (proj1 (Hp _ _ E)).
Defined.

(** ** Properties of the catalog query resolver *)

Section ResolverProperties.
Import Orm Serializers.

Variable integrity_check : CatalogQuery -> list CatalogQuery -> option string.
Variable uuid4 : list CatalogQuery -> string.
Variable get_content_filter_hash : json -> string.

Abbreviation find_and_modify_catalog_query :=
  (Serializers.find_and_modify_catalog_query integrity_check uuid4 get_content_filter_hash).
Abbreviation save := (Orm.save integrity_check).

Implicit Types (w : world) (q : CatalogQuery) (table : list CatalogQuery).

Lemma same_natural_key_spec hash flag q :
  same_natural_key hash flag q = true <-> natural_key q = (hash, flag).
Proof.
  unfold same_natural_key, natural_key.
  rewrite andb_true_iff, String.eqb_eq, Bool.eqb_true_iff.
  split; [intros [-> ->]; reflexivity | intros [= -> ->]; auto].
Qed.

Lemma filter_no_match hash flag table :
  (hash, flag) ∉ List.map natural_key table ->
  List.filter (same_natural_key hash flag) table = [].
Proof.
  induction table as [|q table IH]; simpl; [reflexivity|].
  intros [Hq Hn]%not_elem_of_cons. destruct (same_natural_key hash flag q) eqn:E.
  - apply same_natural_key_spec in E. congruence.
  - apply IH. exact Hn.
Qed.

Lemma filter_at_most_one hash flag table :
  unique_natural_keys table ->
  List.filter (same_natural_key hash flag) table = [] \/
  exists q, List.filter (same_natural_key hash flag) table = [q].
Proof.
  unfold unique_natural_keys.
  induction table as [|q table IH]; simpl; [auto|].
  intros Hnd. inversion Hnd as [|? ? Hq Hnd']; subst.
  destruct (same_natural_key hash flag q) eqn:E.
  - right. exists q. f_equal. apply filter_no_match.
    apply same_natural_key_spec in E. rewrite <- E. exact Hq.
  - auto.
Qed.

Lemma objects_get_unique hash flag w :
  unique_natural_keys (rows w) ->
  objects_get hash flag w = Raise DoesNotExist \/
  exists q, objects_get hash flag w = Return q.
Proof.
  intros Hu. unfold objects_get.
  destruct (filter_at_most_one hash flag (rows w) Hu) as [->|[q ->]]; eauto.
Qed.

Lemma objects_get_Return hash flag w q :
  objects_get hash flag w = Return q ->
  List.filter (same_natural_key hash flag) (rows w) = [q].
Proof.
  unfold objects_get.
  destruct (List.filter _ _) as [|q' [|q'' rest]]; try discriminate.
  intros [= ->]. reflexivity.
Qed.


Lemma objects_get_found hash flag w q :
  objects_get hash flag w = Return q ->
  In q (rows w) /\ content_filter_hash q = hash /\ include_exec_ed_2u_courses q = flag.
Proof.
  intros H%objects_get_Return.
  assert (Hin : In q (List.filter (same_natural_key hash flag) (rows w)))
    by (rewrite H; left; reflexivity).
  apply filter_In in Hin as [Hin Hkey]. split; [exact Hin|].
  apply same_natural_key_spec in Hkey. injection Hkey as -> ->. auto.
Qed.

(** A new row takes an identity no row of the table has. *)
Lemma fresh_id_above table q : In q table -> id q < fresh_id table.
Proof.
  intros Hin. unfold fresh_id.
  assert (H : Forall (fun k => k <= list_max (List.map id table)) (List.map id table))
    by (apply list_max_le; lia).
  rewrite Forall_forall in H. specialize (H (id q)).
  assert (id q <= list_max (List.map id table)); [|lia].
  apply H. apply list_elem_of_In, in_map, Hin.
Qed.

Lemma write_row_new q table :
  id q = fresh_id table -> write_row q table = (table ++ [q])%list.
Proof.
  intros Hid. unfold write_row.
  destruct (existsb _ table) eqn:E; [|reflexivity].
  apply existsb_exists in E as (q' & Hin & Heq).
  apply Nat.eqb_eq in Heq. apply fresh_id_above in Hin. lia.
Qed.

Lemma other_rows_new q table :
  id q = fresh_id table -> other_rows q table = table.
Proof.
  intros Hid. unfold other_rows. apply forallb_filter_id.
  apply forallb_forall. intros q' Hin. apply negb_true_iff, Nat.eqb_neq.
  apply fresh_id_above in Hin. lia.
Qed.

Lemma given_uuid u : u <> "" -> given (Some u) = Some u.
Proof. destruct u; [congruence|reflexivity]. Qed.

Lemma write_row_present q table :
  (exists q', In q' table /\ id q' = id q) -> In q (write_row q table).
Proof.
  intros (q' & Hin & Hid). unfold write_row.
  assert (E : existsb (fun q' => Nat.eqb (id q') (id q)) table = true).
  { apply existsb_exists. exists q'. split; [exact Hin|]. apply Nat.eqb_eq, Hid. }
  rewrite E. apply in_map_iff. exists q'. split; [|exact Hin].
  rewrite Hid, Nat.eqb_refl. reflexivity.
Qed.

(** C1, as the code has it.  With a uuid that no row carries,
    [update_or_create] by the natural key assigns the defaults
    [content_filter], [uuid] and [title] in both cases: the row matched by
    the natural key is overwritten with them and saved, keeping its identity
    and its natural key, and a row that did not exist is created with them. *)
Theorem upsert_assigns_defaults_on_reuse_and_creation :
  forall content_filter u query_title flag w,
    u <> "" ->
    get_by_uuid u w = None ->
    (forall q,
        objects_get (get_content_filter_hash content_filter) flag w = Return q ->
        let q' := assign_defaults q content_filter u query_title in
        integrity_check q' (other_rows q' (rows w)) = None ->
        find_and_modify_catalog_query content_filter (Some u) query_title flag w =
          (Return q',
           {| rows := write_row q' (rows w); events := events w ++ [Saved q' true] |}) /\
        In q' (write_row q' (rows w)) /\
        id q' = id q /\ natural_key q' = natural_key q /\
        Orm.content_filter q' = content_filter /\ uuid q' = u /\ title q' = query_title) /\
    (objects_get (get_content_filter_hash content_filter) flag w = Raise DoesNotExist ->
     let q' := new_row (rows w) (get_content_filter_hash content_filter) flag
                 content_filter u query_title in
     integrity_check q' (rows w) = None ->
     find_and_modify_catalog_query content_filter (Some u) query_title flag w =
       (Return q',
        {| rows := rows w ++ [q']; events := events w ++ [Saved q' true] |})).
Proof.
  intros content_filter u query_title flag w Hu Hnone. split.
  - intros q Hget q' Hok.
    split; [|split; [|repeat split]].
    + unfold Serializers.find_and_modify_catalog_query.
      rewrite (given_uuid u Hu), Hnone.
      unfold objects_update_or_create, objects_get_or_create. rewrite Hget.
      fold (assign_defaults q content_filter u query_title). fold q'.
      unfold Orm.save. cbn [rows events]. rewrite Hok. reflexivity.
    + apply write_row_present. exists q. split; [|reflexivity].
      apply (objects_get_found _ _ _ _ Hget).
  - intros Hget q' Hok.
    unfold Serializers.find_and_modify_catalog_query.
    rewrite (given_uuid u Hu), Hnone.
    unfold objects_update_or_create, objects_get_or_create, objects_create. rewrite Hget.
    fold (new_row (rows w) (get_content_filter_hash content_filter) flag
            content_filter u query_title). fold q'.
    unfold Orm.save. rewrite (other_rows_new q' (rows w) eq_refl), Hok.
    rewrite (write_row_new q' (rows w) eq_refl). reflexivity.
Qed.


(** What the resolver does when the save of the row found by uuid is
    refused: one write is submitted, the error is logged at error severity,
    the store keeps its rows, and the failure is a [ValidationError] for
    [catalog_query] made from the result of the pattern search, wrapping the
    integrity error. *)
Lemma update_refused content_filter u query_title flag w q text :
  u <> "" ->
  get_by_uuid u w = Some q ->
  let q' := {| id := id q; uuid := uuid q; title := query_title;
               Orm.content_filter := content_filter;
               content_filter_hash := get_content_filter_hash content_filter;
               include_exec_ed_2u_courses := flag |} in
  integrity_check q' (other_rows q' (rows w)) = Some text ->
  find_and_modify_catalog_query content_filter (Some u) query_title flag w =
    (Raise (ValidationError "catalog_query"
              (Re.format_column (Re.search text) ++ " is not unique")
              HTTP_422_UNPROCESSABLE_ENTITY (IntegrityError text)),
     {| rows := rows w;
        events := events w ++
                  [Saved q' false;
                   Logged ERROR ("Error occurred while saving catalog query: " ++ text) true] |}).
Proof.
  intros Hu Hfound q' Hrefused.
  unfold Serializers.find_and_modify_catalog_query.
  rewrite (given_uuid u Hu), Hfound. fold q'.
  unfold Orm.save. rewrite Hrefused. unfold logger_exception. cbn [rows events].
  rewrite <- app_assoc. reflexivity.
Qed.

End ResolverProperties.

(** C1 fails as stated: the row matched by the natural key is not returned
    as it was.  A call with the filter of the stored demo query, a uuid no
    row carries and a new title returns that row with the uuid and the title
    of the call, and the stored row is replaced by it. *)
Lemma upsert_overwrites_matched_row :
  Orm.objects_get (Backends.keys_hash Backends.demo_filter) false Backends.demo_world
  = Return Backends.demo_query /\
  Orm.get_by_uuid "0b7c9a52-0000-4000-8000-00000000000f" Backends.demo_world = None /\
  Serializers.find_and_modify_catalog_query Backends.sqlite_check Backends.numbered_uuid
    Backends.keys_hash Backends.demo_filter
    (Some "0b7c9a52-0000-4000-8000-00000000000f") (Some "Renamed") false
    Backends.demo_world
  = (Return (Orm.assign_defaults Backends.demo_query Backends.demo_filter
               "0b7c9a52-0000-4000-8000-00000000000f" (Some "Renamed")),
     {| Orm.rows := [Orm.assign_defaults Backends.demo_query Backends.demo_filter
                       "0b7c9a52-0000-4000-8000-00000000000f" (Some "Renamed");
                     Backends.course_query];
        Orm.events := [Orm.Saved (Orm.assign_defaults Backends.demo_query Backends.demo_filter
                                    "0b7c9a52-0000-4000-8000-00000000000f" (Some "Renamed"))
                         true] |}) /\
  Orm.assign_defaults Backends.demo_query Backends.demo_filter
    "0b7c9a52-0000-4000-8000-00000000000f" (Some "Renamed") <> Backends.demo_query.
Proof.
  split; [reflexivity|]. split; [reflexivity|]. split; [reflexivity|].
  discriminate.
Qed.

Lemma upsert_assigns_defaults_on_reuse_and_creation_witness :
  Serializers.find_and_modify_catalog_query Backends.sqlite_check Backends.numbered_uuid
    Backends.keys_hash Backends.demo_filter
    (Some "0b7c9a52-0000-4000-8000-00000000000f") (Some "Renamed") false
    Backends.demo_world
  = (Return (Orm.assign_defaults Backends.demo_query Backends.demo_filter
               "0b7c9a52-0000-4000-8000-00000000000f" (Some "Renamed")),
     {| Orm.rows :=
          Orm.write_row (Orm.assign_defaults Backends.demo_query Backends.demo_filter
                           "0b7c9a52-0000-4000-8000-00000000000f" (Some "Renamed"))
            (Orm.rows Backends.demo_world);
        Orm.events :=
          Orm.events Backends.demo_world ++
          [Orm.Saved (Orm.assign_defaults Backends.demo_query Backends.demo_filter
                        "0b7c9a52-0000-4000-8000-00000000000f" (Some "Renamed")) true] |}).
Proof.
  apply (proj1 (upsert_assigns_defaults_on_reuse_and_creation
                  Backends.sqlite_check Backends.numbered_uuid Backends.keys_hash
                  Backends.demo_filter "0b7c9a52-0000-4000-8000-00000000000f"
                  (Some "Renamed") false Backends.demo_world
                  ltac:(discriminate) eq_refl)
           Backends.demo_query eq_refl eq_refl).
Defined.

Lemma demo_world_unique : Orm.unique_natural_keys (Orm.rows Backends.demo_world).
Proof.
  unfold Orm.unique_natural_keys. simpl.
  repeat (apply NoDup_cons; split); try apply NoDup_nil_2.
  - rewrite list_elem_of_singleton. discriminate.
  - apply not_elem_of_nil.
Defined.


(** C3, at a refused save on an SQLite back end.  The course filter is sent
    with the uuid of the demo query, so the update collides with the natural
    key of the course query.  The failure is a [ValidationError] wrapping
    the integrity error, the store keeps its rows, one write was submitted
    and one record logged at error severity; but the message is
    [None is not unique]: it names no column. *)
Theorem update_refused_names_no_column :
  Serializers.find_and_modify_catalog_query Backends.sqlite_check Backends.numbered_uuid
    Backends.keys_hash Backends.course_filter
    (Some (Orm.uuid Backends.demo_query)) (Some "All courses, again") false
    Backends.demo_world
  = (Raise (Orm.ValidationError "catalog_query" "None is not unique" 422
              (Orm.IntegrityError Backends.sqlite_text)),
     {| Orm.rows := Orm.rows Backends.demo_world;
        Orm.events :=
          [Orm.Saved {| Orm.id := 1;
                        Orm.uuid := Orm.uuid Backends.demo_query;
                        Orm.title := Some "All courses, again";
                        Orm.content_filter := Backends.course_filter;
                        Orm.content_filter_hash := Backends.keys_hash Backends.course_filter;
                        Orm.include_exec_ed_2u_courses := false |} false;
           Orm.Logged Orm.ERROR
             ("Error occurred while saving catalog query: " ++ Backends.sqlite_text) true] |}).
Proof. reflexivity. Qed.

(** On a MySQL back end the same call puts the text of the match object,
    not the matched key, into the message. *)
Example update_refused_on_mysql :
  fst (Serializers.find_and_modify_catalog_query Backends.mysql_check Backends.numbered_uuid
         Backends.keys_hash Backends.course_filter
         (Some (Orm.uuid Backends.demo_query)) (Some "All courses, again") false
         Backends.demo_world)
  = Raise (Orm.ValidationError "catalog_query"
             "<re.Match object; span=(50, 90), match='catalog_catalogquery.content_filter_hash'> is not unique"
             422
             (Orm.IntegrityError
                (Backends.mysql_text
                   {| Orm.id := 1;
                      Orm.uuid := Orm.uuid Backends.demo_query;
                      Orm.title := Some "All courses, again";
                      Orm.content_filter := Backends.course_filter;
                      Orm.content_filter_hash := Backends.keys_hash Backends.course_filter;
                      Orm.include_exec_ed_2u_courses := false |}))).
Proof. reflexivity. Qed.

(** The text of a match object shows at most 50 characters of the matched
    key: the name of a long index is cut. *)
Example match_text_is_cut :
  Re.format_column
    (Re.search
       "Duplicate entry 'x-0' for key 'catalog_catalogquery.catalog_catalogquery_content_filter_hash_include_exec_ed_2u_courses_uniq'")
  = "<re.Match object; span=(31, 124), match='catalog_catalogquery.catalog_catalogquery_content>".
Proof. reflexivity. Qed.

(** ** Properties of the metadata enrichment *)

Section HeapFacts.
Import Heap.

Implicit Types (h : gmap nat object) (v : value) (entries : list (string * value)).

Lemma entry_lookup_set k k' x entries :
  entry_lookup k (entry_set k' x entries) =
  if String.eqb k k' then Some x else entry_lookup k entries.
Proof.
  induction entries as [|[k0 v0] rest IH]; simpl.
  - destruct (String.eqb k k'); reflexivity.
  - destruct (String.eqb k' k0) eqn:E0; simpl.
    + apply String.eqb_eq in E0. subst k0.
      destruct (String.eqb k k'); reflexivity.
    + rewrite IH. destruct (String.eqb k k0) eqn:E1; [|reflexivity].
      apply String.eqb_eq in E1. subst k0.
      destruct (String.eqb k k') eqn:E2; [|reflexivity].
      apply String.eqb_eq in E2. subst k'. rewrite String.eqb_refl in E0. discriminate.
Qed.

Lemma bind_Return {A B} (m : M A) (k : A -> M B) h b h' :
  bind m k h = (Return b, h') ->
  exists a h1, m h = (Return a, h1) /\ k a h1 = (Return b, h').
Proof.
  unfold bind. destruct (m h) as [[a|e] h1]; [eauto|discriminate].
Qed.

(** A reference held by an entry or an item of an object is one of its
    references. *)
Lemma references_entry k a entries :
  entry_lookup k entries = Some (VRef a) -> In a (references (ODict entries)).
Proof.
  simpl. induction entries as [|[k0 v0] rest IH]; simpl; [discriminate|].
  destruct (String.eqb k k0).
  - intros [= ->]. simpl. auto.
  - intros H. apply in_or_app. right. exact (IH H).
Qed.

Lemma references_item a items :
  In (VRef a) items -> In a (references (OList items)).
Proof.
  simpl. induction items as [|v rest IH]; simpl; [tauto|].
  intros [->|H]; [simpl; auto|]. apply in_or_app. right. exact (IH H).
Qed.

Lemma chars_not_ref s a : ~ In (VRef a) (chars s).
Proof. induction s; simpl; [tauto|]. intros [H|H]; [discriminate|tauto]. Qed.

(** Assigning an item of one object leaves every other object as it was. *)
Lemma setitem_frame v k x h r h' c :
  setitem v k x h = (r, h') -> v <> VRef c -> h' !! c = h !! c.
Proof.
  unfold setitem. intros H Hne.
  destruct v as [| | | | |a]; try (injection H as _ <-; reflexivity).
  destruct (h !! a) as [[entries|items]|] eqn:E; injection H as _ <-; try reflexivity.
  apply lookup_insert_ne. congruence.
Qed.

Lemma setitem_Return c k x h h' :
  setitem (VRef c) k x h = (Return tt, h') ->
  exists entries,
    h !! c = Some (ODict entries) /\ h' = <[c := ODict (entry_set k x entries)]> h.
Proof.
  unfold setitem. destruct (h !! c) as [[entries|items]|]; try discriminate.
  intros [= <-]. eauto.
Qed.

Lemma bind_intro {A B} (m : M A) (k : A -> M B) h a h1 r :
  m h = (Return a, h1) -> k a h1 = r -> bind m k h = r.
Proof. intros Hm Hk. unfold bind. rewrite Hm. exact Hk. Qed.

Lemma getitem_heap v k h r h' : getitem v k h = (r, h') -> h' = h.
Proof.
  unfold getitem. destruct v as [| | | | |a]; try (intros [= _ <-]; reflexivity).
  destruct (h !! a) as [[entries|items]|]; try (intros [= _ <-]; reflexivity).
  destruct (entry_lookup k entries); intros [= _ <-]; reflexivity.
Qed.

Lemma truthy_heap v h r h' : truthy v h = (r, h') -> h' = h.
Proof.
  unfold truthy. destruct v as [| | | | |a]; try (intros [= _ <-]; reflexivity).
  destruct (h !! a) as [[entries|items]|]; intros [= _ <-]; reflexivity.
Qed.

Lemma iterate_heap v h r h' : iterate v h = (r, h') -> h' = h.
Proof.
  unfold iterate. destruct v as [| | | | |a]; try (intros [= _ <-]; reflexivity).
  destruct (h !! a) as [[entries|items]|]; intros [= _ <-]; reflexivity.
Qed.

Lemma for_each_frame (body : value -> M unit) c :
  (forall x h r h', body x h = (r, h') -> x <> VRef c -> h' !! c = h !! c) ->
  forall items h r h',
    ~ In (VRef c) items ->
    for_each items body h = (r, h') -> h' !! c = h !! c.
Proof.
  intros Hbody. induction items as [|x rest IH]; simpl; intros h r h' Hnot H.
  - injection H as _ <-. reflexivity.
  - unfold bind in H. destruct (body x h) as [[[]|e] h1] eqn:Ex.
    + rewrite (IH _ _ _ (fun Hin => Hnot (or_intror Hin)) H).
      apply (Hbody _ _ _ _ Ex). intros ->. apply Hnot. left. reflexivity.
    + injection H as _ <-.
      apply (Hbody _ _ _ _ Ex). intros ->. apply Hnot. left. reflexivity.
Qed.

End HeapFacts.

Section EnrichmentProperties.
Import Heap Enrichment.

Variables COURSE COURSE_RUN PROGRAM : string.
Variable get_content_enrollment_url : EnterpriseCatalog -> ContentMetadata -> value.
Variable get_xapi_activity_id : EnterpriseCatalog -> string -> value -> value.
Variable get_enterprise_utm_context : string -> list (string * string).
Variable update_query_parameters :
  value -> list (string * string) -> outcome py_exn value.
Variable is_any_course_run_active : gmap nat object -> value -> outcome py_exn bool.
Variable get_child_records : ContentMetadata -> list ContentMetadata.

Abbreviation to_representation :=
  (Enrichment.to_representation COURSE COURSE_RUN PROGRAM get_content_enrollment_url
     get_xapi_activity_id get_enterprise_utm_context update_query_parameters
     is_any_course_run_active get_child_records).
Abbreviation add_urls :=
  (Enrichment._add_course_run_enrollment_urls get_content_enrollment_url get_child_records).

Implicit Types (h : gmap nat object) (v : value) (entries : list (string * value)).

(** The loop over the serialized runs assigns items of the runs only. *)
Lemma add_urls_frame catalog course runs c h r h' :
  (forall items, iterate runs h = (Return items, h) -> ~ In (VRef c) items) ->
  add_urls catalog course runs h = (r, h') ->
  h' !! c = h !! c.
Proof.
  intros Hitems. unfold Enrichment._add_course_run_enrollment_urls.
  unfold bind at 1. destruct (iterate runs h) as [[items|e] h1] eqn:Eit.
  2:{ intros [= _ <-]. apply iterate_heap in Eit. subst. reflexivity. }
  pose proof (iterate_heap _ _ _ _ Eit) as ->.
  apply for_each_frame; [|exact (Hitems items eq_refl)].
  intros x h0 r0 h0' Hbody Hx. unfold bind in Hbody.
  destruct (getitem x "key" h0) as [[key|e] h2] eqn:Eget.
  2:{ injection Hbody as _ <-. apply getitem_heap in Eget. subst. reflexivity. }
  apply getitem_heap in Eget. subst h2.
  destruct (urls_get _ key h0) as [[url|e] h2] eqn:Eurl.
  - assert (h2 = h0) as -> by (destruct key; simpl in Eurl; injection Eurl as _ <-; reflexivity).
    exact (setitem_frame _ _ _ _ _ _ _ Hbody Hx).
  - assert (h2 = h0) as -> by (destruct key; simpl in Eurl; injection Eurl as _ <-; reflexivity).
    injection Hbody as _ <-. reflexivity.
Qed.


(** The items the loop visits are objects of the heap the call started
    from, never the copy the call made. *)
Lemma runs_not_copy h c c2 d d5 runs hk :
  closed h ->
  h !! c = None ->
  c2 <> c ->
  h !! c2 = None ->
  (forall a, a <> c -> a <> c2 -> hk !! a = h !! a) ->
  hk !! c2 = Some (OList []) ->
  entry_lookup "course_runs" d5 = entry_lookup "course_runs" d ->
  (exists a0, h !! a0 = Some (ODict d)) ->
  runs = match entry_lookup "course_runs" d5 with Some x => x | None => VRef c2 end ->
  forall items, iterate runs hk = (Return items, hk) -> ~ In (VRef c) items.
Proof.
  intros Hclosed Hc Hne Hc2 Hframe Hempty Hsame [a0 Ha0] -> items Hit Hin.
  rewrite Hsame in Hit.
  destruct (entry_lookup "course_runs" d) as [x|] eqn:Ex.
  - destruct x as [| | |s| |a]; try discriminate.
    + injection Hit as <-. exact (chars_not_ref _ _ Hin).
    + destruct (Hclosed a0 _ Ha0 a (references_entry _ _ _ Ex)) as [oa Hoa].
      assert (a <> c) by congruence. assert (a <> c2) by congruence.
      unfold iterate in Hit. rewrite (Hframe a) in Hit by assumption. rewrite Hoa in Hit.
      destruct oa as [entries|run_items]; injection Hit as <-.
      * apply in_map_iff in Hin as (e & He & _). discriminate.
      * destruct (Hclosed a _ Hoa c (references_item _ _ Hin)) as [oc Hoc]. congruence.
  - unfold iterate in Hit. rewrite Hempty in Hit. injection Hit as <-. exact Hin.
Qed.

Lemma to_representation_copy catalog instance h rep h' :
  closed h ->
  to_representation catalog instance h = (Return rep, h') ->
  exists a0 d d',
    json_metadata instance = VRef a0 /\ h !! a0 = Some (ODict d) /\
    rep = VRef (fresh (dom h)) /\ h' !! fresh (dom h) = Some (ODict d') /\
    entry_lookup "content_last_modified" d' =
      Some (VTime (get_most_recent_modified_time (modified instance)
                     (catalog_modified catalog)
                     (last_modified_date (enterprise_customer catalog)))) /\
    (String.eqb (content_type instance) COURSE
     || String.eqb (content_type instance) COURSE_RUN = true ->
     entry_lookup "enrollment_url" d' = Some (get_content_enrollment_url catalog instance) /\
     entry_lookup "xapi_activity_id" d' =
       Some (get_xapi_activity_id catalog (content_type instance)
               (match entry_lookup "key" d with Some x => x | None => VNone end))) /\
    (String.eqb (content_type instance) COURSE
     || String.eqb (content_type instance) COURSE_RUN = false ->
     String.eqb (content_type instance) PROGRAM = true ->
     entry_lookup "enrollment_url" d' = Some VNone).
Proof.
  intros Hclosed H. unfold Enrichment.to_representation in H.
  apply bind_Return in H as (jm & h1 & Hcopy & H).
  unfold copy in Hcopy.
  destruct (json_metadata instance) as [| | | | |a0] eqn:Ejm; try discriminate.
  destruct (h !! a0) as [o|] eqn:Ea0; [|discriminate].
  unfold alloc in Hcopy. injection Hcopy as <- <-.
  set (c := fresh (dom h)) in *.
  assert (Hc : h !! c = None) by (apply not_elem_of_dom, is_fresh).
  apply bind_Return in H as (marketing_url & h2 & Hget & H).
  unfold get in Hget. rewrite lookup_insert_eq in Hget.
  destruct o as [d|items]; [|discriminate]. injection Hget as <- <-.
  apply bind_Return in H as (key & h2 & Hget & H).
  unfold get in Hget. rewrite lookup_insert_eq in Hget. injection Hget as <- <-.
  apply bind_Return in H as ([] & h2 & Hset & H).
  apply setitem_Return in Hset as (e & He & ->).
  rewrite lookup_insert_eq in He. injection He as <-. rewrite insert_insert_eq in H.
  set (m := get_most_recent_modified_time _ _ _) in *.
  apply bind_Return in H as (has & h2 & Htruthy & H).
  apply truthy_heap in Htruthy. subst h2.
  apply bind_Return in H as ([] & h3 & Hmarketing & H).
  assert (Hd2 : exists d2,
             h3 = <[c := ODict d2]> h /\
             forall k, String.eqb k "marketing_url" = false ->
                       entry_lookup k d2 =
                       entry_lookup k (entry_set "content_last_modified" (VTime m) d)).
  { destruct has.
    - apply bind_Return in Hmarketing as (url & h2 & Hlift & Hset).
      unfold lift in Hlift. injection Hlift as _ <-.
      apply setitem_Return in Hset as (e & He & ->).
      rewrite lookup_insert_eq in He. injection He as <-. rewrite insert_insert_eq.
      eexists. split; [reflexivity|].
      intros k Hk. rewrite entry_lookup_set, Hk. reflexivity.
    - injection Hmarketing as <-. eauto. }
  clear Hmarketing. destruct Hd2 as (d2 & -> & Hd2).
  apply bind_Return in H as ([] & h4 & Hbranch & H).
  injection H as <- <-.
  exists a0, d.
  assert (Hclm : entry_lookup "content_last_modified" d2 = Some (VTime m)).
  { rewrite Hd2 by reflexivity. rewrite entry_lookup_set. reflexivity. }
  assert (Hruns : entry_lookup "course_runs" d2 = entry_lookup "course_runs" d).
  { rewrite Hd2 by reflexivity. rewrite entry_lookup_set. reflexivity. }
  clear Hd2.
  destruct (String.eqb (content_type instance) COURSE
            || String.eqb (content_type instance) COURSE_RUN) eqn:Ecr.
  - apply bind_Return in Hbranch as ([] & h5 & Hset & Hbranch).
    apply setitem_Return in Hset as (e & He & ->).
    rewrite lookup_insert_eq in He. injection He as <-.
    rewrite insert_insert_eq in Hbranch.
    apply bind_Return in Hbranch as ([] & h5 & Hset & Hbranch).
    apply setitem_Return in Hset as (e & He & ->).
    rewrite lookup_insert_eq in He. injection He as <-.
    rewrite insert_insert_eq in Hbranch.
    set (url := get_content_enrollment_url catalog instance) in *.
    set (xapi := get_xapi_activity_id catalog _ _) in *.
    set (d4 := entry_set "xapi_activity_id" xapi (entry_set "enrollment_url" url d2)) in *.
    destruct (String.eqb (content_type instance) COURSE).
    + apply bind_Return in Hbranch as (empty & h5 & Halloc & Hbranch).
      unfold alloc in Halloc. injection Halloc as <- <-.
      set (c2 := fresh (dom (<[c:=ODict d4]> h))) in *.
      assert (Hc2 : <[c:=ODict d4]> h !! c2 = None) by (apply not_elem_of_dom, is_fresh).
      assert (Hne : c2 <> c) by (intros E; rewrite E, lookup_insert_eq in Hc2; discriminate).
      assert (Hc2' : h !! c2 = None) by (rewrite lookup_insert_ne in Hc2 by congruence; exact Hc2).
      apply bind_Return in Hbranch as (runs & h5 & Hget & Hbranch).
      unfold get in Hget.
      rewrite lookup_insert_ne, lookup_insert_eq in Hget by exact Hne.
      injection Hget as Hruns' <-.
      apply bind_Return in Hbranch as (active & h5 & Hread & Hbranch).
      unfold read in Hread. injection Hread as _ <-.
      apply bind_Return in Hbranch as ([] & h5 & Hset & Hbranch).
      apply setitem_Return in Hset as (e & He & ->).
      rewrite lookup_insert_ne, lookup_insert_eq in He by exact Hne.
      injection He as <-.
      set (d5 := entry_set "active" (VBool active) d4) in *.
      set (hk := <[c:=ODict d5]> (<[c2:=OList []]> (<[c:=ODict d4]> h))) in *.
      assert (Hk : hk !! c = Some (ODict d5)) by apply lookup_insert_eq.
      assert (H4 : h4 !! c = Some (ODict d5)).
      { destruct (negb (is_exec_ed_2u_course instance)).
        - rewrite (add_urls_frame _ _ _ c _ _ _ (runs_not_copy h c c2 d d4 runs hk
                     Hclosed Hc Hne Hc2' ltac:(intros a ? ?; unfold hk;
                       rewrite !lookup_insert_ne by congruence; reflexivity)
                     ltac:(unfold hk; rewrite lookup_insert_ne, lookup_insert_eq by congruence;
                           reflexivity)
                     ltac:(unfold d4; rewrite !entry_lookup_set; exact Hruns)
                     (ex_intro _ a0 Ea0) (eq_sym Hruns')) Hbranch).
          exact Hk.
        - injection Hbranch as <-. exact Hk. }
      exists d5. repeat split; try assumption.
      * unfold d5, d4. rewrite !entry_lookup_set. exact Hclm.
      * unfold d5, d4. rewrite !entry_lookup_set. reflexivity.
      * unfold d5, d4. rewrite !entry_lookup_set. reflexivity.
      * discriminate.
    + injection Hbranch as <-. exists d4.
      rewrite lookup_insert_eq. repeat split; try assumption.
      * unfold d4. rewrite !entry_lookup_set. exact Hclm.
      * unfold d4. rewrite !entry_lookup_set. reflexivity.
      * unfold d4. rewrite !entry_lookup_set. reflexivity.
      * discriminate.
  - destruct (String.eqb (content_type instance) PROGRAM).
    + apply setitem_Return in Hbranch as (e & He & ->).
      rewrite lookup_insert_eq in He. injection He as <-.
      rewrite insert_insert_eq, lookup_insert_eq.
      exists (entry_set "enrollment_url" VNone d2). repeat split; try assumption.
      * rewrite entry_lookup_set. exact Hclm.
      * discriminate.
      * discriminate.
      * intros _ _. rewrite entry_lookup_set. reflexivity.
    + injection Hbranch as <-. rewrite lookup_insert_eq.
      exists d2. repeat split; try assumption; discriminate.
Qed.

Lemma truthy_returns h v hk :
  closed h ->
  (exists a0 d k, h !! a0 = Some (ODict d) /\ entry_lookup k d = Some v) ->
  (forall a, is_Some (h !! a) -> hk !! a = h !! a) ->
  exists b, truthy v hk = (Return b, hk).
Proof.
  intros Hclosed (a0 & d & k & Ha0 & Hv) Hframe.
  destruct v as [| | | | |a]; simpl; eauto.
  destruct (Hclosed a0 _ Ha0 a (references_entry _ _ _ Hv)) as [oa Hoa].
  rewrite (Hframe a) by eauto. rewrite Hoa. destruct oa; eauto.
Qed.

(** Records other than courses: the call returns whenever the metadata blob
    is a dictionary and the marketing url, if any, can be rewritten. *)
Lemma to_representation_returns catalog instance h a0 d :
  closed h ->
  json_metadata instance = VRef a0 ->
  h !! a0 = Some (ODict d) ->
  String.eqb (content_type instance) COURSE = false ->
  (forall v, entry_lookup "marketing_url" d = Some v ->
             exists v', update_query_parameters v
                          (get_enterprise_utm_context (enterprise_name catalog)) = Return v') ->
  exists rep h', to_representation catalog instance h = (Return rep, h').
Proof.
  intros Hclosed Ejm Ea0 Ecourse Hurl.
  set (c := fresh (dom h)).
  assert (Hc : h !! c = None) by (apply not_elem_of_dom, is_fresh).
  set (url := match entry_lookup "marketing_url" d with Some x => x | None => VNone end).
  set (d1 := entry_set "content_last_modified"
               (VTime (get_most_recent_modified_time (modified instance)
                         (catalog_modified catalog)
                         (last_modified_date (enterprise_customer catalog)))) d).
  assert (Htruthy : exists b,
             truthy url (<[c:=ODict d1]> (<[c:=ODict d]> h))
             = (Return b, <[c:=ODict d1]> (<[c:=ODict d]> h)) /\
             (b = true -> exists url',
                 update_query_parameters url
                   (get_enterprise_utm_context (enterprise_name catalog)) = Return url')).
  { unfold url. destruct (entry_lookup "marketing_url" d) as [v|] eqn:Ev.
    - destruct (truthy_returns h v (<[c:=ODict d1]> (<[c:=ODict d]> h)) Hclosed) as [b Hb].
      + eauto 6.
      + intros a [oa Hoa]. rewrite !lookup_insert_ne by congruence. reflexivity.
      + exists b. split; [exact Hb|]. intros _. exact (Hurl v eq_refl).
    - exists false. split; [reflexivity|discriminate]. }
  destruct Htruthy as (b & Htruthy & Hrewrite).
  unfold Enrichment.to_representation. rewrite Ecourse. cbn [orb].
  fold c. fold url.
  assert (Hmarketing : exists h2 d2,
             (if b then
                do! marketing_url :=
                  lift (update_query_parameters url
                          (get_enterprise_utm_context (enterprise_name catalog))) in
                setitem (VRef c) "marketing_url" marketing_url
              else ret tt) (<[c:=ODict d1]> (<[c:=ODict d]> h)) = (Return tt, h2) /\
             h2 !! c = Some (ODict d2)).
  { destruct b.
    - destruct (Hrewrite eq_refl) as [url' Hurl'].
      do 2 eexists. split.
      + eapply bind_intro; [unfold lift; rewrite Hurl'; reflexivity|].
        unfold setitem. rewrite lookup_insert_eq. reflexivity.
      + apply lookup_insert_eq.
    - do 2 eexists. split; [reflexivity|apply lookup_insert_eq]. }
  destruct Hmarketing as (h2 & d2 & Hmarketing & Hh2).
  assert (Hbranch : exists h3,
             (if String.eqb (content_type instance) COURSE_RUN then
                setitem (VRef c) "enrollment_url"
                  (get_content_enrollment_url catalog instance) ;;;
                setitem (VRef c) "xapi_activity_id"
                  (get_xapi_activity_id catalog (content_type instance)
                     match entry_lookup "key" d with Some x => x | None => VNone end) ;;;
                ret tt
              else if String.eqb (content_type instance) PROGRAM then
                setitem (VRef c) "enrollment_url" VNone
              else ret tt) h2 = (Return tt, h3)).
  { destruct (String.eqb (content_type instance) COURSE_RUN).
    - eexists.
      eapply bind_intro; [unfold setitem; rewrite Hh2; reflexivity|].
      eapply bind_intro; [unfold setitem; rewrite lookup_insert_eq; reflexivity|].
      reflexivity.
    - destruct (String.eqb (content_type instance) PROGRAM).
      + eexists. unfold setitem. rewrite Hh2. reflexivity.
      + eexists. reflexivity. }
  destruct Hbranch as (h3 & Hbranch).
  exists (VRef c), h3.
  eapply bind_intro; [unfold copy, alloc; rewrite Ejm, Ea0; reflexivity|].
  eapply bind_intro; [unfold get; fold c; rewrite lookup_insert_eq; reflexivity|].
  eapply bind_intro; [unfold get; fold c; rewrite lookup_insert_eq; reflexivity|].
  eapply bind_intro; [unfold setitem; fold c; rewrite lookup_insert_eq; reflexivity|].
  eapply bind_intro; [exact Htruthy|].
  eapply bind_intro; [exact Hmarketing|].
  eapply bind_intro; [exact Hbranch|].
  reflexivity.
Qed.


Lemma keeps_bind I {A B} (m : M A) (k : A -> M B) :
  keeps I m -> (forall a, keeps I (k a)) -> keeps I (bind m k).
Proof.
  intros Hm Hk h r h' Hh H. unfold bind in H.
  destruct (m h) as [[a|e] h1] eqn:Em.
  - exact (Hk a _ _ _ (Hm _ _ _ Hh Em) H).
  - injection H as _ <-. exact (Hm _ _ _ Hh Em).
Qed.

Lemma keeps_pure I {A} (m : M A) :
  (forall h, snd (m h) = h) -> keeps I m.
Proof. intros Hm h r h' Hh H. specialize (Hm h). rewrite H in Hm. simpl in Hm. congruence. Qed.

Lemma keeps_setitem h0 c k x :
  h0 !! c = None -> keeps (unchanged h0) (setitem (VRef c) k x).
Proof.
  intros Hc h r h' Hh H a Ha. rewrite <- (Hh a Ha).
  apply (setitem_frame _ _ _ _ _ _ a H). intros [= ->]. destruct Ha. congruence.
Qed.

Lemma keeps_alloc h0 o : keeps (unchanged h0) (alloc o).
Proof.
  intros h r h' Hh H a Ha. unfold alloc in H. injection H as _ <-.
  rewrite lookup_insert_ne; [exact (Hh a Ha)|].
  intros <-. rewrite <- (Hh _ Ha) in Ha.
  apply elem_of_dom in Ha. exact (is_fresh _ Ha).
Qed.

Lemma get_pure v k default h : snd (get v k default h) = h.
Proof. unfold get. destruct v; try reflexivity. destruct (h !! a) as [[]|]; reflexivity. Qed.

Lemma truthy_pure v h : snd (truthy v h) = h.
Proof. unfold truthy. destruct v; try reflexivity. destruct (h !! a) as [[]|]; reflexivity. Qed.

(** Outside the loop over the course runs, [to_representation] writes to
    the copy only: for a record that is not a course, and for an exec-ed-2u
    course, every object the heap held before the call is unchanged after
    it, also when the call raises. *)
Lemma to_representation_frame catalog instance h r h' :
  String.eqb (content_type instance) COURSE && negb (is_exec_ed_2u_course instance) = false ->
  to_representation catalog instance h = (r, h') ->
  unchanged h h'.
Proof.
  intros Hloop H. unfold Enrichment.to_representation, bind at 1 in H.
  destruct (copy (json_metadata instance) h) as [[jm|e] h1] eqn:Ecopy.
  2:{ injection H as _ <-. unfold copy in Ecopy.
      destruct (json_metadata instance); try (injection Ecopy as _ <-; intros a _; reflexivity).
      destruct (h !! a); [discriminate|]. injection Ecopy as _ <-. intros ? _. reflexivity. }
  unfold copy in Ecopy.
  destruct (json_metadata instance) as [| | | | |a0]; try discriminate.
  destruct (h !! a0) as [o|]; [|discriminate].
  unfold alloc in Ecopy. injection Ecopy as <- <-.
  set (c := fresh (dom h)) in *.
  assert (Hc : h !! c = None) by (apply not_elem_of_dom, is_fresh).
  assert (H1 : unchanged h (<[c:=o]> h)).
  { intros a Ha. apply lookup_insert_ne. intros <-. destruct Ha. congruence. }
  revert H. generalize (<[c:=o]> h) H1. intros h1 Hh1 H. revert h1 r h' Hh1 H.
  repeat first
    [ apply keeps_bind; [|intros ?]
    | apply keeps_setitem; exact Hc
    | apply keeps_alloc
    | apply keeps_pure; intros ?; first [apply get_pure | apply truthy_pure | reflexivity]
    | match goal with
      | |- keeps _ (if negb (is_exec_ed_2u_course instance) then _ else _) => idtac
      | |- keeps _ (if ?b then _ else _) => destruct b eqn:?
      end ].
  simpl in Hloop. rewrite Hloop. apply keeps_pure. reflexivity.
Qed.
Lemma getitem_copy c entries k x h :
  h !! c = Some (ODict entries) ->
  entry_lookup k entries = Some x ->
  getitem (VRef c) k h = (Return x, h).
Proof. intros Hc Hk. unfold getitem. rewrite Hc, Hk. reflexivity. Qed.

(** C5. Whenever [to_representation] returns a representation, its
    [content_last_modified] is a time [t] that is the greatest of the
    record's modification time, the catalog's and the customer's: it is one
    of the three and none of them is later, whatever their order. *)
Theorem content_last_modified_is_most_recent :
  forall catalog instance h rep h',
    closed h ->
    to_representation catalog instance h = (Return rep, h') ->
    exists t,
      getitem rep "content_last_modified" h' = (Return (VTime t), h') /\
      t = Z.max (modified instance)
            (Z.max (catalog_modified catalog)
                   (last_modified_date (enterprise_customer catalog))) /\
      (modified instance <= t)%Z /\
      (catalog_modified catalog <= t)%Z /\
      (last_modified_date (enterprise_customer catalog) <= t)%Z /\
      (t = modified instance \/ t = catalog_modified catalog \/
       t = last_modified_date (enterprise_customer catalog)).
Proof.
  intros catalog instance h rep h' Hclosed H.
  destruct (to_representation_copy _ _ _ _ _ Hclosed H)
    as (a0 & d & d' & _ & _ & -> & Hcopy & Htime & _).
  eexists. split; [exact (getitem_copy _ _ _ _ _ Hcopy Htime)|].
  unfold get_most_recent_modified_time. split; [reflexivity|]. lia.
Qed.

(** C6. In the representation [to_representation] returns, a program has
    [enrollment_url] set to [None]; a course and a course run have
    [enrollment_url] set to what the catalog context computes for the record
    and [xapi_activity_id] set to what it computes for the content type and
    the key of the blob.  For a program and for a course run whose blob is a
    dictionary the call does return, provided the marketing url, if any, can
    be rewritten. *)
Theorem enrollment_url_by_content_type :
  PROGRAM <> COURSE -> PROGRAM <> COURSE_RUN -> COURSE_RUN <> COURSE ->
  (forall catalog instance h rep h',
      closed h ->
      content_type instance = PROGRAM ->
      to_representation catalog instance h = (Return rep, h') ->
      getitem rep "enrollment_url" h' = (Return VNone, h')) /\
  (forall catalog instance h rep h',
      closed h ->
      content_type instance = COURSE \/ content_type instance = COURSE_RUN ->
      to_representation catalog instance h = (Return rep, h') ->
      getitem rep "enrollment_url" h' =
        (Return (get_content_enrollment_url catalog instance), h') /\
      exists key,
        get (json_metadata instance) "key" VNone h = (Return key, h) /\
        getitem rep "xapi_activity_id" h' =
          (Return (get_xapi_activity_id catalog (content_type instance) key), h')) /\
  (forall catalog instance h a0 d,
      closed h ->
      content_type instance = PROGRAM \/ content_type instance = COURSE_RUN ->
      json_metadata instance = VRef a0 ->
      h !! a0 = Some (ODict d) ->
      (forall v, entry_lookup "marketing_url" d = Some v ->
                 exists v', update_query_parameters v
                              (get_enterprise_utm_context (enterprise_name catalog))
                            = Return v') ->
      exists rep h', to_representation catalog instance h = (Return rep, h')).
Proof.
  intros Hpc Hpr Hrc. split; [|split].
  - intros catalog instance h rep h' Hclosed Htype H.
    destruct (to_representation_copy _ _ _ _ _ Hclosed H)
      as (a0 & d & d' & _ & _ & -> & Hcopy & _ & _ & Hprogram).
    apply (getitem_copy _ _ _ _ _ Hcopy). apply Hprogram.
    + rewrite Htype. apply orb_false_iff.
      split; apply String.eqb_neq; assumption.
    + rewrite Htype. apply String.eqb_refl.
  - intros catalog instance h rep h' Hclosed Htype H.
    destruct (to_representation_copy _ _ _ _ _ Hclosed H)
      as (a0 & d & d' & Ejm & Ea0 & -> & Hcopy & _ & Hcourse & _).
    destruct Hcourse as [Hurl Hxapi].
    { apply orb_true_iff. destruct Htype as [-> | ->]; [left|right]; apply String.eqb_refl. }
    split; [exact (getitem_copy _ _ _ _ _ Hcopy Hurl)|].
    eexists. split; [|exact (getitem_copy _ _ _ _ _ Hcopy Hxapi)].
    unfold get. rewrite Ejm, Ea0. reflexivity.
  - intros catalog instance h a0 d Hclosed Htype Ejm Ea0 Hurl.
    apply (to_representation_returns catalog instance h a0 d Hclosed Ejm Ea0); [|exact Hurl].
    apply String.eqb_neq. destruct Htype as [-> | ->]; assumption.
Qed.

End EnrichmentProperties.

Lemma demo_heap_closed : Heap.closed Enrichment.demo_heap.
Proof.
  intros a o Ha b Hb. unfold Enrichment.demo_heap in *.
  destruct (decide (a = 0%nat)) as [->|H0].
  { rewrite lookup_insert_eq in Ha. injection Ha as <-. simpl in Hb.
    destruct Hb as [<-|[]]. rewrite lookup_insert_ne, lookup_insert_eq by lia. eauto. }
  rewrite lookup_insert_ne in Ha by congruence.
  destruct (decide (a = 1%nat)) as [->|H1].
  { rewrite lookup_insert_eq in Ha. injection Ha as <-. simpl in Hb.
    destruct Hb as [<-|[]].
    rewrite !lookup_insert_ne, lookup_singleton_eq by lia. eauto. }
  rewrite lookup_insert_ne in Ha by congruence.
  apply lookup_singleton_Some in Ha as [_ <-]. destruct Hb.
Defined.

(** C4, at a course that has one course run and is not an exec-ed-2u
    course.  The call returns the copy, a new dictionary; but the entry of
    the course run, which the copy shares with the record, has gained
    [enrollment_url]: the blob read back from the record is no longer what
    it was before the call. *)
Theorem to_representation_mutates_nested_runs :
  fst (Enrichment.demo_to_representation Enrichment.demo_catalog Enrichment.demo_course
         Enrichment.demo_heap) = Return (Heap.VRef 3) /\
  Heap.snapshot 3 Enrichment.demo_heap (Enrichment.json_metadata Enrichment.demo_course)
  = JDict [("key", JStr "edX+DemoX"); ("title", JStr "Demo");
           ("course_runs",
            JList [JDict [("key", JStr "course-v1:edX+DemoX+1T2023")]])] /\
  Heap.snapshot 3
    (snd (Enrichment.demo_to_representation Enrichment.demo_catalog Enrichment.demo_course
            Enrichment.demo_heap))
    (Enrichment.json_metadata Enrichment.demo_course)
  = JDict [("key", JStr "edX+DemoX"); ("title", JStr "Demo");
           ("course_runs",
            JList [JDict [("key", JStr "course-v1:edX+DemoX+1T2023");
                          ("enrollment_url",
                           JStr "https://enterprise.example.com/acme/course/course-v1:edX+DemoX+1T2023")]])].
Proof. vm_compute. repeat split. Qed.

Lemma content_last_modified_is_most_recent_witness :
  exists t,
    Heap.getitem (Heap.VRef 3) "content_last_modified"
      (snd (Enrichment.demo_to_representation Enrichment.demo_catalog
              Enrichment.demo_course Enrichment.demo_heap))
    = (Return (Heap.VTime t),
       snd (Enrichment.demo_to_representation Enrichment.demo_catalog
              Enrichment.demo_course Enrichment.demo_heap)) /\
    t = 1693526400%Z.
Proof.
  destruct (content_last_modified_is_most_recent
              "course" "courserun" "program"
              Enrichment.demo_enrollment_url Enrichment.demo_xapi_activity_id
              (fun name => [("utm_medium", "enterprise"); ("utm_source", name)])
              (fun url _ => Return url) (fun _ _ => Return true)
              (fun _ => [Enrichment.demo_course_run])
              Enrichment.demo_catalog Enrichment.demo_course Enrichment.demo_heap
              (Heap.VRef 3)
              (snd (Enrichment.demo_to_representation Enrichment.demo_catalog
                      Enrichment.demo_course Enrichment.demo_heap))
              demo_heap_closed ltac:(vm_compute; reflexivity))
    as (t & Hget & Ht & _).
  exists t. split; [exact Hget|]. rewrite Ht. reflexivity.
Defined.

Lemma enrollment_url_by_content_type_witness :
  (exists rep h',
      Enrichment.demo_to_representation Enrichment.demo_catalog Enrichment.demo_program
        Enrichment.demo_heap = (Return rep, h') /\
      Heap.getitem rep "enrollment_url" h' = (Return Heap.VNone, h')) /\
  Heap.getitem (Heap.VRef 3) "enrollment_url"
    (snd (Enrichment.demo_to_representation Enrichment.demo_catalog
            Enrichment.demo_course Enrichment.demo_heap))
  = (Return (Enrichment.demo_enrollment_url Enrichment.demo_catalog Enrichment.demo_course),
     snd (Enrichment.demo_to_representation Enrichment.demo_catalog
            Enrichment.demo_course Enrichment.demo_heap)).
Proof.
  pose proof (enrollment_url_by_content_type
                "course" "courserun" "program"
                Enrichment.demo_enrollment_url Enrichment.demo_xapi_activity_id
                (fun name => [("utm_medium", "enterprise"); ("utm_source", name)])
                (fun url _ => Return url) (fun _ _ => Return true)
                (fun _ => [Enrichment.demo_course_run])
                ltac:(discriminate) ltac:(discriminate) ltac:(discriminate))
    as (Hprogram & Hcourse & Hreturns).
  split.
  - destruct (Hreturns Enrichment.demo_catalog Enrichment.demo_program Enrichment.demo_heap
                2%nat [("key", Heap.VStr "course-v1:edX+DemoX+1T2023")]
                demo_heap_closed (or_introl eq_refl) eq_refl eq_refl
                ltac:(intros v Hv; discriminate Hv))
      as (rep & h' & Hrun).
    exists rep, h'. split; [exact Hrun|].
    exact (Hprogram Enrichment.demo_catalog Enrichment.demo_program _ _ _
             demo_heap_closed eq_refl Hrun).
  - exact (proj1 (Hcourse Enrichment.demo_catalog Enrichment.demo_course
                    Enrichment.demo_heap (Heap.VRef 3) _
                    demo_heap_closed (or_introl eq_refl)
                    ltac:(vm_compute; reflexivity))).
Defined.

(** ** Properties of the query dict and of the facet validation *)

Section FacetPipeline.
Import ExportUtils Facets.

Implicit Types (facets query_dict : gmap string (list string)) (valid : list string).

Lemma fold_insert_lookup (f : string -> list string) (l : list string)
    (data : gmap string (list string)) k :
  List.fold_left (fun (data : gmap string (list string)) key => <[key := f key]> data) l data !! k
  = if decide (k ∈ l) then Some (f k) else data !! k.
Proof.
  revert data. induction l as [|key l IH]; intros data; simpl.
  - destruct (decide (k ∈ [])) as [H|_]; [|reflexivity]. inversion H.
  - rewrite IH. destruct (decide (k ∈ l)) as [Hl|Hl].
    + rewrite decide_True by (right; exact Hl). reflexivity.
    + destruct (decide (k = key)) as [->|Hne].
      * rewrite decide_True by left. apply lookup_insert_eq.
      * rewrite decide_False by (intros [?|?]%elem_of_cons; tauto).
        apply lookup_insert_ne. congruence.
Qed.

Lemma querydict_to_dict_same query_dict : querydict_to_dict query_dict = query_dict.
Proof.
  apply map_eq. intros k. unfold querydict_to_dict. rewrite fold_insert_lookup.
  unfold keys, getlist. destruct (decide (k ∈ (map_to_list query_dict).*1)) as [Hin|Hout].
  - apply list_elem_of_fmap in Hin as ([k' vs] & -> & Hin). simpl.
    apply elem_of_map_to_list in Hin. rewrite Hin. reflexivity.
  - rewrite lookup_empty. symmetry. apply eq_None_not_Some. intros [vs Hvs].
    apply Hout, list_elem_of_fmap. exists (k, vs). split; [reflexivity|].
    apply elem_of_map_to_list. exact Hvs.
Qed.

(** X1. [querydict_to_dict] binds exactly the keys of the query dict, each
    to the whole list of its values: a lookup in the result is the lookup in
    the query dict. *)
Theorem querydict_to_dict_keeps_every_value :
  forall query_dict k, querydict_to_dict query_dict !! k = query_dict !! k.
Proof.
  intros query_dict k. unfold querydict_to_dict. rewrite fold_insert_lookup.
  unfold keys, getlist. destruct (decide (k ∈ (map_to_list query_dict).*1)) as [Hin|Hout].
  - apply list_elem_of_fmap in Hin as ([k' vs] & -> & Hin). simpl.
    apply elem_of_map_to_list in Hin. rewrite Hin. reflexivity.
  - rewrite lookup_empty. symmetry. apply eq_None_not_Some. intros [vs Hvs].
    apply Hout, list_elem_of_fmap. exists (k, vs). split; [reflexivity|].
    apply elem_of_map_to_list. exact Hvs.
Qed.

(** X2. On the dictionary [querydict_to_dict] makes of a query dict in
    which every key has a value, as the parameters of a request have, the
    search query is found by presence alone: the first value of [query] when
    the key is there, else the first value of [q] when that key is there,
    else the empty string; and the bag left over is the query dict without
    that key. *)
Theorem facets_of_a_query_dict :
  forall query_dict,
    (forall k, query_dict !! k <> Some []) ->
    (forall values,
        query_dict !! "query" = Some values ->
        exists v rest, values = v :: rest /\
          facets_to_query (querydict_to_dict query_dict)
          = (Return v, delete "query" query_dict)) /\
    (forall values,
        query_dict !! "query" = None ->
        query_dict !! "q" = Some values ->
        exists v rest, values = v :: rest /\
          facets_to_query (querydict_to_dict query_dict)
          = (Return v, delete "q" query_dict)) /\
    (query_dict !! "query" = None ->
     query_dict !! "q" = None ->
     facets_to_query (querydict_to_dict query_dict) = (Return "", query_dict)).
Proof.
  intros query_dict Hvalues. rewrite querydict_to_dict_same.
  unfold facets_to_query, dict_pop. split; [|split].
  - intros values Hq. destruct values as [|v rest]; [destruct (Hvalues _ Hq)|].
    exists v, rest. rewrite Hq. split; reflexivity.
  - intros values Hq Hq'. destruct values as [|v rest]; [destruct (Hvalues _ Hq')|].
    exists v, rest. rewrite Hq, Hq'. split; reflexivity.
  - intros Hq Hq'. rewrite Hq, Hq'. reflexivity.
Qed.

(** X3. [validate_query_facets] reports exactly the keys of the bag that
    are not valid facets, each once; it reports nothing exactly when every
    key of the bag is a valid facet. *)
Theorem validate_query_facets_reports_invalid_keys :
  forall valid facets,
    (forall k, k ∈ validate_query_facets valid facets <->
               is_Some (facets !! k) /\ k ∉ valid) /\
    NoDup (validate_query_facets valid facets) /\
    (validate_query_facets valid facets = [] <->
     forall k, is_Some (facets !! k) -> k ∈ valid).
Proof.
  intros valid facets. split; [intros k; apply validate_query_facets_elem|]. split.
  - unfold validate_query_facets. apply NoDup_filter, NoDup_fst_map_to_list.
  - split.
    + intros Hnil k Hk. destruct (decide (k ∈ valid)) as [H|H]; [exact H|].
      assert (Hin : k ∈ validate_query_facets valid facets) by (apply validate_query_facets_elem; auto).
      rewrite Hnil in Hin. inversion Hin.
    + intros Hall. destruct (validate_query_facets valid facets) as [|k l] eqn:E; [reflexivity|].
      assert (Hin : k ∈ validate_query_facets valid facets) by (rewrite E; left).
      apply validate_query_facets_elem in Hin as [Hk Hn]. destruct (Hn (Hall k Hk)).
Qed.

(** X4. After [facets_to_query] took the search query out of the bag, the
    key it used is not reported as an invalid facet, and every other key is
    reported exactly as it would have been before. *)
Theorem used_query_key_is_not_validated :
  forall valid facets,
    (truthy_list (facets !! "query") = true ->
     forall k, k ∈ validate_query_facets valid (facets_to_query facets).2 <->
               k ∈ validate_query_facets valid facets /\ k <> "query") /\
    (truthy_list (facets !! "query") = false ->
     truthy_list (facets !! "q") = true ->
     forall k, k ∈ validate_query_facets valid (facets_to_query facets).2 <->
               k ∈ validate_query_facets valid facets /\ k <> "q") /\
    (truthy_list (facets !! "query") = false ->
     truthy_list (facets !! "q") = false ->
     validate_query_facets valid (facets_to_query facets).2
     = validate_query_facets valid facets).
Proof.
  intros valid facets. unfold facets_to_query, dict_pop. split; [|split].
  - intros Hq k. rewrite Hq.
    destruct (facets !! "query") as [vs|] eqn:E; [|discriminate]. simpl.
    rewrite !validate_query_facets_elem. destruct (decide (k = "query")) as [->|Hne].
    + rewrite lookup_delete_eq. split; [intros [[? ?] _]; discriminate|tauto].
    + rewrite lookup_delete_ne by congruence. tauto.
  - intros Hq Hq' k. rewrite Hq, Hq'.
    destruct (facets !! "q") as [vs|] eqn:E; [|discriminate]. simpl.
    rewrite !validate_query_facets_elem. destruct (decide (k = "q")) as [->|Hne].
    + rewrite lookup_delete_eq. split; [intros [[? ?] _]; discriminate|tauto].
    + rewrite lookup_delete_ne by congruence. tauto.
  - intros Hq Hq'. rewrite Hq, Hq'. reflexivity.
Qed.

End FacetPipeline.

Lemma facets_of_a_query_dict_witness :
  exists v rest,
    ["xyz"; "w"] = v :: rest /\
    ExportUtils.facets_to_query (Facets.querydict_to_dict {[ "q" := ["xyz"; "w"] ]})
    = (Return v, delete "q" {[ "q" := ["xyz"; "w"] ]}).
Proof.
  assert (H : forall k : string,
             ({[ "q" := ["xyz"; "w"] ]} : gmap string (list string)) !! k <> Some []).
  { intros k. destruct (decide (k = "q")) as [->|Hne].
    - rewrite lookup_singleton_eq. discriminate.
    - rewrite lookup_singleton_ne by congruence. discriminate. }
  apply (proj1 (proj2 (facets_of_a_query_dict {[ "q" := ["xyz"; "w"] ]} H))).
  - rewrite lookup_singleton_ne by discriminate. reflexivity.
  - apply lookup_singleton_eq.
Defined.

Lemma used_query_key_is_not_validated_witness :
  "query" ∈ ExportUtils.validate_query_facets ["level_type"]
              (ExportUtils.facets_to_query {[ "query" := ["abc"] ]}).2 <->
  "query" ∈ ExportUtils.validate_query_facets ["level_type"] {[ "query" := ["abc"] ]} /\
  "query" <> "query".
Proof.
  apply (proj1 (used_query_key_is_not_validated ["level_type"] {[ "query" := ["abc"] ]})).
  rewrite lookup_singleton_eq. reflexivity.
Defined.

Section ValidFacets.
Import Facets.

Lemma get_valid_facets_map attributes :
  get_valid_facets attributes = List.map strip_wrapper attributes.
Proof.
  unfold get_valid_facets.
  assert (H : forall (acc : list string),
             List.fold_left
               (fun (valid_facets : list string) facet =>
                  (valid_facets ++ [strip_wrapper facet])%list) attributes acc
             = (acc ++ List.map strip_wrapper attributes)%list).
  { induction attributes as [|a l IH]; intros acc; simpl.
    - rewrite app_nil_r. reflexivity.
    - rewrite IH, <- app_assoc. reflexivity. }
  apply (H []).
Qed.

Abbreviation has_char := Re.contains.

Lemma prefix_has_char c p s :
  String.prefix p s = true -> has_char c p = true -> has_char c s = true.
Proof.
  revert s. induction p as [|a p IH]; intros s; simpl; [discriminate|].
  destruct s as [|b s]; [discriminate|]. simpl.
  destruct (Ascii.ascii_dec a b) as [->|Hne]; [|discriminate].
  intros Hp [Ha|Hr]%orb_prop; [rewrite Ha; reflexivity|].
  rewrite (IH s Hp Hr). apply orb_true_r.
Qed.

(** A text without an opening parenthesis holds no wrapper to remove. *)
Lemma remove_all_none s :
  has_char "("%char s = false -> remove_all "searchable(" s = s.
Proof.
  unfold remove_all. induction s as [|a s IH]; [reflexivity|].
  intros Hs. cbn [remove_from].
  destruct (String.prefix "searchable(" (String a s)) eqn:Hp.
  - rewrite (prefix_has_char "("%char _ _ Hp eq_refl) in Hs. discriminate.
  - simpl in Hs. apply orb_false_elim in Hs as [_ Hs]. rewrite (IH Hs). reflexivity.
Qed.

Lemma prefix_app p t : String.prefix p (p ++ t) = true.
Proof.
  induction p as [|a p IH]; simpl; [destruct t; reflexivity|].
  destruct (Ascii.ascii_dec a a); [exact IH|congruence].
Qed.

Lemma remove_from_skip old r t :
  remove_from old (String.length r) (r ++ t) = remove_from old 0 t.
Proof. induction r as [|a r IH]; [reflexivity|exact IH]. Qed.

(** An occurrence at the start of the text is removed whole. *)
Lemma remove_all_prefix old t :
  old <> "" -> remove_all old (old ++ t) = remove_all old t.
Proof.
  unfold remove_all. destruct old as [|a old]; [congruence|]. intros _.
  change (String a old ++ t) with (String a (old ++ t)). cbn [remove_from].
  change (String a (old ++ t)) with (String a old ++ t). rewrite prefix_app.
  cbn [String.length]. replace (S (String.length old) - 1) with (String.length old) by lia.
  apply remove_from_skip.
Qed.

Lemma has_char_app c s t : has_char c (s ++ t) = has_char c s || has_char c t.
Proof. induction s as [|a s IH]; simpl; [reflexivity|]. rewrite IH, orb_assoc. reflexivity. Qed.

Lemma rstrip_none c s : has_char c s = false -> rstrip c s = s.
Proof.
  induction s as [|a s IH]; [reflexivity|]. simpl.
  intros [Ha Hs]%orb_false_elim. rewrite (IH Hs).
  destruct s; [rewrite Ascii.eqb_sym, Ha|]; reflexivity.
Qed.

Lemma rstrip_last c s : rstrip c (s ++ String c EmptyString) = rstrip c s.
Proof.
  induction s as [|a s IH]; simpl.
  - rewrite Ascii.eqb_refl. reflexivity.
  - rewrite IH. reflexivity.
Qed.

Lemma rstrip_not_last c s t : rstrip c s <> t ++ String c EmptyString.
Proof.
  revert t. induction s as [|a s IH]; intros t; simpl.
  - destruct t; discriminate.
  - destruct (rstrip c s) as [|b kept] eqn:E.
    + destruct (Ascii.eqb a c) eqn:Ea; [destruct t; discriminate|].
      destruct t as [|x [|y t]]; simpl; try discriminate.
      intros [= ->]. rewrite Ascii.eqb_refl in Ea. discriminate.
    + destruct t as [|x t]; simpl; [discriminate|].
      intros [= -> Ht]. exact (IH t Ht).
Qed.

Lemma plain_name_chars s :
  plain_name s = true -> has_char "("%char s = false /\ has_char ")"%char s = false.
Proof.
  unfold plain_name. induction s as [|a s IH]; [auto|].
  cbn [list_ascii_of_string forallb Re.contains].
  intros [[Ho Hc]%andb_prop Hs]%andb_prop. destruct (IH Hs) as [-> ->].
  apply negb_true_iff in Ho, Hc.
  rewrite (Ascii.eqb_sym "("%char a), (Ascii.eqb_sym ")"%char a), Ho, Hc. auto.
Qed.

Lemma strip_wrapper_plain name :
  plain_name name = true -> strip_wrapper name = name.
Proof.
  intros [Ho Hc]%plain_name_chars. unfold strip_wrapper.
  rewrite (remove_all_none _ Ho). apply rstrip_none, Hc.
Qed.

Lemma strip_wrapper_searchable name :
  plain_name name = true -> strip_wrapper ("searchable(" ++ name ++ ")") = name.
Proof.
  intros [Ho Hc]%plain_name_chars. unfold strip_wrapper.
  rewrite remove_all_prefix by discriminate.
  rewrite remove_all_none by (rewrite has_char_app, Ho; reflexivity).
  rewrite rstrip_last. apply rstrip_none, Hc.
Qed.

(** X5. [get_valid_facets] gives one facet for each attribute of the index
    settings, in their order, and no facet ends with a closing parenthesis.
    For attributes that are plain names or plain names wrapped in
    [searchable(...)] the facets are the names. *)
Theorem get_valid_facets_strips_searchable :
  (forall attributes,
      length (get_valid_facets attributes) = length attributes /\
      forall facet, In facet (get_valid_facets attributes) ->
                    forall s, facet <> s ++ ")") /\
  (forall attributes names,
      Forall2 (fun attribute name =>
                 plain_name name = true /\
                 (attribute = name \/ attribute = "searchable(" ++ name ++ ")"))
        attributes names ->
      get_valid_facets attributes = names).
Proof.
  split.
  - intros attributes. rewrite get_valid_facets_map. split; [apply length_map|].
    intros facet (a & <- & _)%in_map_iff s. apply rstrip_not_last.
  - intros attributes names H. rewrite get_valid_facets_map.
    induction H as [|a n attributes names [Hn Ha] _ IH]; simpl; [reflexivity|].
    rewrite IH. f_equal.
    destruct Ha as [-> | ->];
      [apply strip_wrapper_plain | apply strip_wrapper_searchable]; exact Hn.
Qed.

(** X6. An attribute of the index settings that is a plain name, written
    bare or wrapped in [searchable(...)], is a valid facet, and
    [validate_query_facets] never reports it, whatever the bag holds. *)
Theorem settings_attribute_is_a_valid_facet :
  forall attributes (facets : gmap string (list string)) name,
    plain_name name = true ->
    (name ∈ attributes \/ ("searchable(" ++ name ++ ")") ∈ attributes) ->
    name ∈ get_valid_facets attributes /\
    name ∉ ExportUtils.validate_query_facets (get_valid_facets attributes) facets.
Proof.
  intros attributes facets name Hn Hin.
  assert (Hv : name ∈ get_valid_facets attributes).
  { rewrite get_valid_facets_map. apply list_elem_of_In, in_map_iff.
    destruct Hin as [Hin|Hin]; apply list_elem_of_In in Hin.
    - exists name. split; [apply strip_wrapper_plain, Hn | exact Hin].
    - exists ("searchable(" ++ name ++ ")").
      split; [apply strip_wrapper_searchable, Hn | exact Hin]. }
  split; [exact Hv|].
  intros [_ Hout]%validate_query_facets_elem. exact (Hout Hv).
Qed.

End ValidFacets.

Lemma get_valid_facets_strips_searchable_witness :
  Facets.get_valid_facets ["searchable(skill_names)"; "partners.name"; "level_type"]
  = ["skill_names"; "partners.name"; "level_type"].
Proof.
  apply (proj2 get_valid_facets_strips_searchable).
  repeat (constructor; [split; [reflexivity|]|]);
    [right; reflexivity | left; reflexivity | left; reflexivity | constructor].
Defined.

Lemma settings_attribute_is_a_valid_facet_witness :
  "skill_names" ∈ Facets.get_valid_facets ["level_type"; "searchable(skill_names)"] /\
  "skill_names" ∉ ExportUtils.validate_query_facets
                    (Facets.get_valid_facets ["level_type"; "searchable(skill_names)"])
                    {[ "skill_names" := ["Python"] ]}.
Proof.
  apply (settings_attribute_is_a_valid_facet
           ["level_type"; "searchable(skill_names)"] {[ "skill_names" := ["Python"] ]}
           "skill_names").
  - reflexivity.
  - right. right. left.
Defined.

(** ** More on [find_and_modify_catalog_query]: every outcome of a call *)

Section ResolverOutcomes.
Import Orm Serializers.

Variable integrity_check : CatalogQuery -> list CatalogQuery -> option string.
Variable uuid4 : list CatalogQuery -> string.
Variable get_content_filter_hash : json -> string.

Abbreviation find_and_modify_catalog_query :=
  (Serializers.find_and_modify_catalog_query integrity_check uuid4 get_content_filter_hash).

Implicit Types (w : world) (q : CatalogQuery) (table : list CatalogQuery).

(** The row the branch of a known uuid saves. *)
Abbreviation overwritten q F t flag :=
  {| id := id q; uuid := uuid q; title := t; content_filter := F;
     content_filter_hash := get_content_filter_hash F;
     include_exec_ed_2u_courses := flag |}.

Abbreviation accepted q w :=
  {| rows := write_row q (rows w); events := events w ++ [Saved q true] |}.
Abbreviation refused q w :=
  {| rows := rows w; events := events w ++ [Saved q false] |}.

Lemma objects_get_cases hash flag w :
  (exists q, objects_get hash flag w = Return q) \/
  objects_get hash flag w = Raise DoesNotExist \/
  objects_get hash flag w = Raise MultipleObjectsReturned.
Proof.
  unfold objects_get. destruct (List.filter _ _) as [|q [|q' rest]]; eauto.
Qed.

(** A call ends in one of eight ways. *)
Lemma resolver_outcomes F cu t flag w r w' :
  find_and_modify_catalog_query F cu t flag w = (r, w') ->
  (exists u q,
      given cu = Some u /\ get_by_uuid u w = Some q /\
      ((integrity_check (overwritten q F t flag) (other_rows (overwritten q F t flag) (rows w))
        = None /\
        r = Return (overwritten q F t flag) /\ w' = accepted (overwritten q F t flag) w) \/
       (exists text,
           integrity_check (overwritten q F t flag)
             (other_rows (overwritten q F t flag) (rows w)) = Some text /\
           r = Raise (ValidationError "catalog_query"
                        (Re.format_column (Re.search text) ++ " is not unique")
                        HTTP_422_UNPROCESSABLE_ENTITY (IntegrityError text)) /\
           w' = logger_exception ("Error occurred while saving catalog query: " ++ text)
                  (refused (overwritten q F t flag) w)))) \/
  ((given cu = None \/ exists u, given cu = Some u /\ get_by_uuid u w = None) /\
   ((objects_get (get_content_filter_hash F) flag w = Raise MultipleObjectsReturned /\
     r = Raise MultipleObjectsReturned /\ w' = w) \/
    (objects_get (get_content_filter_hash F) flag w = Raise DoesNotExist /\
     exists q,
       q = new_row (rows w) (get_content_filter_hash F) flag F
             (match given cu with Some u => u | None => uuid4 (rows w) end) t /\
       ((integrity_check q (other_rows q (rows w)) = None /\
         r = Return q /\ w' = accepted q w) \/
        (exists text,
            integrity_check q (other_rows q (rows w)) = Some text /\
            r = Raise (IntegrityError text) /\ w' = refused q w))) \/
    (exists q,
        objects_get (get_content_filter_hash F) flag w = Return q /\
        ((given cu = None /\ r = Return q /\ w' = w) \/
         (exists u,
             given cu = Some u /\
             ((integrity_check (assign_defaults q F u t)
                 (other_rows (assign_defaults q F u t) (rows w)) = None /\
               r = Return (assign_defaults q F u t) /\
               w' = accepted (assign_defaults q F u t) w) \/
              (exists text,
                  integrity_check (assign_defaults q F u t)
                    (other_rows (assign_defaults q F u t) (rows w)) = Some text /\
                  r = Raise (IntegrityError text) /\
                  w' = refused (assign_defaults q F u t) w))))))).
Proof.
  unfold Serializers.find_and_modify_catalog_query.
  destruct (given cu) as [u|] eqn:Hu.
  - destruct (get_by_uuid u w) as [q|] eqn:Hq.
    + intros H. left. exists u, q. split; [reflexivity|]. split; [exact Hq|].
      unfold save in H.
      destruct (integrity_check _ _) as [text|] eqn:Hc.
      * right. exists text. injection H as <- <-. auto.
      * left. injection H as <- <-. auto.
    + intros H. right. split; [right; exists u; auto|].
      unfold objects_update_or_create, objects_get_or_create, objects_create, save in H.
      destruct (objects_get_cases (get_content_filter_hash F) flag w) as [[q E]|[E|E]];
        rewrite E in H.
      * right. right. exists q. split; [exact E|]. right. exists u.
        split; [reflexivity|]. fold (assign_defaults q F u t) in H.
        destruct (integrity_check _ _) as [text|] eqn:Hc; injection H as <- <-; eauto 6.
      * right. left. split; [exact E|]. eexists. split; [reflexivity|].
        fold (new_row (rows w) (get_content_filter_hash F) flag F u t) in H.
        destruct (integrity_check _ _) as [text|] eqn:Hc.
        -- cbn [rows] in H. unfold objects_get in *. cbn [rows] in H.
           destruct (List.filter _ _) as [|? [|? ?]]; try discriminate.
           injection H as <- <-. eauto 6.
        -- injection H as <- <-. auto.
      * left. injection H as <- <-. auto.
  - intros H. right. split; [left; reflexivity|].
    unfold objects_get_or_create, objects_create, save in H.
    destruct (objects_get_cases (get_content_filter_hash F) flag w) as [[q E]|[E|E]];
      rewrite E in H.
    + right. right. exists q. split; [exact E|]. left. injection H as <- <-. auto.
    + right. left. split; [exact E|]. eexists. split; [reflexivity|].
      fold (new_row (rows w) (get_content_filter_hash F) flag F (uuid4 (rows w)) t) in H.
      destruct (integrity_check _ _) as [text|] eqn:Hc.
      * cbn [rows] in H. unfold objects_get in *. cbn [rows] in H.
        destruct (List.filter _ _) as [|? [|? ?]]; try discriminate.
        injection H as <- <-. eauto 6.
      * injection H as <- <-. auto.
    + left. injection H as <- <-. auto.
Qed.


(** *** Writing a row *)

Abbreviation replaced q := (fun q' : CatalogQuery => if Nat.eqb (id q') (id q) then q else q').

Lemma write_row_ids q table :
  List.map id (write_row q table)
  = (List.map id table
       ++ (if existsb (fun q' => Nat.eqb (id q') (id q)) table then [] else [id q]))%list.
Proof.
  unfold write_row. destruct (existsb _ table) eqn:E.
  - rewrite app_nil_r, List.map_map. apply map_ext. intros r.
    destruct (Nat.eqb (id r) (id q)) eqn:Er; [|reflexivity].
    apply Nat.eqb_eq in Er. congruence.
  - rewrite List.map_app. reflexivity.
Qed.

Lemma write_row_stored q table : In q (write_row q table).
Proof.
  unfold write_row. destruct (existsb _ table) eqn:E.
  - apply existsb_exists in E as (r & Hin & Er). apply in_map_iff.
    exists r. rewrite Er. auto.
  - apply in_or_app. right. left. reflexivity.
Qed.

Lemma write_row_others q table r :
  id r <> id q -> In r (write_row q table) <-> In r table.
Proof.
  intros Hne. unfold write_row. destruct (existsb _ table) eqn:E.
  - rewrite in_map_iff. split.
    + intros (r' & Hr & Hin). destruct (Nat.eqb (id r') (id q)); congruence.
    + intros Hin. exists r. split; [|exact Hin].
      apply Nat.eqb_neq in Hne. rewrite Hne. reflexivity.
  - rewrite in_app_iff. simpl. split; [intros [H|[H|[]]]; congruence|auto].
Qed.

Lemma no_such_id q table :
  existsb (fun q' => Nat.eqb (id q') (id q)) table = false ->
  List.map (replaced q) table = table /\ other_rows q table = table.
Proof.
  unfold other_rows. induction table as [|r table IH]; simpl; [auto|].
  intros [Hr Ht]%orb_false_elim. rewrite Hr. simpl.
  destruct (IH Ht) as [-> ->]. auto.
Qed.

Lemma other_rows_write_row q table :
  other_rows q (write_row q table) = other_rows q table.
Proof.
  unfold write_row. destruct (existsb _ table) eqn:E.
  - clear E. unfold other_rows. induction table as [|r table IH]; simpl; [reflexivity|].
    destruct (Nat.eqb (id r) (id q)) eqn:Er; simpl.
    + rewrite Nat.eqb_refl. simpl. exact IH.
    + rewrite Er. simpl. rewrite IH. reflexivity.
  - unfold other_rows. rewrite List.filter_app. simpl.
    rewrite Nat.eqb_refl. simpl. apply app_nil_r.
Qed.

Lemma write_row_again q table : write_row q (write_row q table) = write_row q table.
Proof.
  assert (Hex : existsb (fun q' => Nat.eqb (id q') (id q)) (write_row q table) = true).
  { apply existsb_exists. exists q. split; [apply write_row_stored|apply Nat.eqb_refl]. }
  unfold write_row at 1. rewrite Hex. unfold write_row.
  destruct (existsb _ table) eqn:E.
  - rewrite List.map_map. apply map_ext. intros r.
    destruct (Nat.eqb (id r) (id q)) eqn:Er; [rewrite Nat.eqb_refl|rewrite Er]; reflexivity.
  - rewrite List.map_app. simpl. rewrite Nat.eqb_refl.
    destruct (no_such_id q table E) as [-> _]. reflexivity.
Qed.

(** The first row a test finds after a write is the written row, when the
    written row passes the test and the row found before, if any, is the one
    that was replaced. *)
Lemma find_write_row (p : CatalogQuery -> bool) q table :
  p q = true ->
  (List.find p table = None \/ exists q0, List.find p table = Some q0 /\ id q0 = id q) ->
  List.find p (write_row q table) = Some q.
Proof.
  intros Hp Hfound. unfold write_row. destruct (existsb _ table) eqn:E.
  - induction table as [|r table IH]; [discriminate|]. simpl in *.
    destruct (Nat.eqb (id r) (id q)) eqn:Er; simpl; [rewrite Hp; reflexivity|].
    apply Nat.eqb_neq in Er.
    destruct (p r) eqn:Hr.
    + destruct Hfound as [?|(q0 & [= <-] & ?)]; [discriminate|contradiction].
    + apply IH; assumption.
  - assert (Hnone : List.find p table = None).
    { destruct Hfound as [?|(q0 & Hq0 & Hid)]; [assumption|].
      apply find_some in Hq0 as [Hin _].
      assert (existsb (fun q' => Nat.eqb (id q') (id q)) table = true); [|congruence].
      apply existsb_exists. exists q0. split; [exact Hin|apply Nat.eqb_eq, Hid]. }
    clear Hfound E. induction table as [|r table IH]; simpl in *; [rewrite Hp; reflexivity|].
    destruct (p r); [discriminate|]. apply IH, Hnone.
Qed.

Lemma get_by_uuid_found u w q : get_by_uuid u w = Some q -> In q (rows w) /\ uuid q = u.
Proof.
  unfold get_by_uuid. intros [Hin Hu]%find_some. apply String.eqb_eq in Hu. auto.
Qed.

(** X7. A call that fails changes no row of the table.  The error is never
    [DoesNotExist]: it is the [ValidationError] of a refused update of the
    row the uuid names, which is logged, or the [IntegrityError] of a
    refused write by natural key, or [MultipleObjectsReturned] when several
    rows carry the natural key, which a table of distinct natural keys
    excludes. *)
Theorem failed_call_changes_no_row :
  forall F cu t flag w e w',
    find_and_modify_catalog_query F cu t flag w = (Raise e, w') ->
    rows w' = rows w /\
    e <> DoesNotExist /\
    ((exists text q,
         e = ValidationError "catalog_query"
               (Re.format_column (Re.search text) ++ " is not unique")
               HTTP_422_UNPROCESSABLE_ENTITY (IntegrityError text) /\
         (exists u q0, given cu = Some u /\ get_by_uuid u w = Some q0) /\
         events w' = (events w
                        ++ [Saved q false;
                            Logged ERROR ("Error occurred while saving catalog query: " ++ text)
                              true])%list) \/
     (exists text q,
         e = IntegrityError text /\ events w' = (events w ++ [Saved q false])%list) \/
     (e = MultipleObjectsReturned /\ w' = w /\ ~ unique_natural_keys (rows w))).
Proof.
  intros F cu t flag w e w' H. apply resolver_outcomes in H.
  destruct H as [(u & q & Hu & Hq & [(_ & [=] & _)|(text & Hc & [= ->] & ->)])
                |(_ & [(E & [= ->] & ->)
                      |[(E & q & _ & [(_ & [=] & _)|(text & Hc & [= ->] & ->)])
                       |(q & E & [(_ & [=] & _)
                                 |(u & _ & [(_ & [=] & _)|(text & Hc & [= ->] & ->)])])]])].
  - split; [reflexivity|]. split; [discriminate|]. left.
    exists text, (overwritten q F t flag). split; [reflexivity|]. split; [eauto|].
    unfold logger_exception. cbn [events]. rewrite <- app_assoc. reflexivity.
  - split; [reflexivity|]. split; [discriminate|]. right. right.
    split; [reflexivity|]. split; [reflexivity|]. intros Hu.
    destruct (objects_get_unique (get_content_filter_hash F) flag w Hu) as [E'|[q E']]; rewrite E in E'; discriminate.
  - split; [reflexivity|]. split; [discriminate|]. right. left. eauto.
  - split; [reflexivity|]. split; [discriminate|]. right. left. eauto.
Qed.

(** X8. A call that succeeds returns a row of the table, whose natural key
    is the hash of the content filter with the flag of the call; when a
    uuid was given the row also carries that uuid, the content filter and
    the title of the call.  No row is deleted: the rows of every other
    identity are those of before, the identities of before are kept in
    their order and at most one is added. *)
Theorem successful_call_stores_the_returned_row :
  forall F cu t flag w q w',
    find_and_modify_catalog_query F cu t flag w = (Return q, w') ->
    In q (rows w') /\
    natural_key q = (get_content_filter_hash F, flag) /\
    (forall u, given cu = Some u -> uuid q = u /\ content_filter q = F /\ title q = t) /\
    (forall r, id r <> id q -> In r (rows w') <-> In r (rows w)) /\
    exists added,
      List.map id (rows w') = (List.map id (rows w) ++ added)%list /\ length added <= 1.
Proof.
  intros F cu t flag w q w' H. apply resolver_outcomes in H.
  assert (Hids : forall q0, exists added,
             List.map id (write_row q0 (rows w)) = (List.map id (rows w) ++ added)%list /\
             length added <= 1).
  { intros q0. rewrite write_row_ids. eexists. split; [reflexivity|].
    destruct (existsb _ _); simpl; lia. }
  destruct H as [(u & q0 & Hu & Hq & [(_ & [= ->] & ->)|(text & _ & [=] & _)])
                |(Hcu & [(_ & [=] & _)
                      |[(E & q0 & -> & [(_ & [= ->] & ->)|(text & _ & [=] & _)])
                       |(q0 & E & [(Hnone & [= ->] & ->)
                                 |(u & Hu & [(_ & [= ->] & ->)|(text & _ & [=] & _)])])]])].
  - cbn [rows]. split; [apply write_row_stored|]. split; [reflexivity|].
    split; [|split; [intros r; apply write_row_others|apply Hids]].
    intros u' Hu'. rewrite Hu in Hu'. injection Hu' as <-.
    apply get_by_uuid_found in Hq as [_ Hq]. auto.
  - cbn [rows]. split; [apply write_row_stored|]. split; [reflexivity|].
    split; [|split; [intros r; apply write_row_others|apply Hids]].
    intros u' Hu'. rewrite Hu'. auto.
  - apply objects_get_found in E as (Hin & Hh & Hf).
    split; [exact Hin|]. split; [unfold natural_key; congruence|].
    split; [intros u Hu; congruence|]. split; [tauto|].
    exists []. rewrite app_nil_r. simpl. auto.
  - apply objects_get_found in E as (Hin & Hh & Hf). cbn [rows].
    split; [apply write_row_stored|]. split; [unfold natural_key; simpl; congruence|].
    split; [|split; [intros r; apply write_row_others|apply Hids]].
    intros u' Hu'. rewrite Hu in Hu'. injection Hu' as <-. auto.
Qed.

(** X9. When the uuid names a stored row and the store accepts the write,
    that row is overwritten in place: it keeps its identity and its uuid and
    takes the content filter, the title, the hash and the flag of the call,
    so its natural key changes with the filter; no row is added and one
    write is submitted. *)
Theorem known_uuid_overwrites_in_place :
  forall F u t flag w q0 q w',
    u <> "" ->
    get_by_uuid u w = Some q0 ->
    find_and_modify_catalog_query F (Some u) t flag w = (Return q, w') ->
    q = overwritten q0 F t flag /\
    uuid q = u /\
    List.map id (rows w') = List.map id (rows w) /\
    length (rows w') = length (rows w) /\
    events w' = (events w ++ [Saved q true])%list.
Proof.
  intros F u t flag w q0 q w' Hne Hq0 H. apply resolver_outcomes in H.
  rewrite (given_uuid u Hne) in H.
  destruct H as [(u' & q1 & [= <-] & Hq & [(_ & [= ->] & ->)|(text & _ & [=] & _)])
                |([[=]|(u' & [= <-] & Hnone)] & _)]; [|congruence].
  rewrite Hq0 in Hq. injection Hq as <-.
  assert (Hids : List.map id (write_row (overwritten q0 F t flag) (rows w))
                 = List.map id (rows w)).
  { rewrite write_row_ids.
    replace (existsb _ (rows w)) with true; [apply app_nil_r|].
    symmetry. apply existsb_exists. exists q0.
    split; [apply (get_by_uuid_found _ _ _ Hq0)|apply Nat.eqb_refl]. }
  split; [reflexivity|]. split; [apply (get_by_uuid_found _ _ _ Hq0)|].
  split; [exact Hids|]. split; [|reflexivity].
  cbn [rows]. rewrite <- (length_map id), Hids. apply length_map.
Qed.

(** X10. A call with a uuid is idempotent: after a successful call, the
    same call again returns the same row and leaves every row of the table
    as it is; the only effect is one more accepted write of that row. *)
Theorem call_with_uuid_is_idempotent :
  forall F u t flag w q w1,
    u <> "" ->
    find_and_modify_catalog_query F (Some u) t flag w = (Return q, w1) ->
    find_and_modify_catalog_query F (Some u) t flag w1
    = (Return q, {| rows := rows w1; events := events w1 ++ [Saved q true] |}).
Proof.
  intros F u t flag w q w1 Hne H. apply resolver_outcomes in H.
  rewrite (given_uuid u Hne) in H.
  assert (Hnext : forall q0,
             uuid q0 = u ->
             overwritten q0 F t flag = q0 ->
             integrity_check q0 (other_rows q0 (rows w)) = None ->
             (List.find (fun r => String.eqb (uuid r) u) (rows w) = None \/
              exists r, List.find (fun r => String.eqb (uuid r) u) (rows w) = Some r /\
                        id r = id q0) ->
             find_and_modify_catalog_query F (Some u) t flag (accepted q0 w)
             = (Return q0, {| rows := rows (accepted q0 w);
                              events := events (accepted q0 w) ++ [Saved q0 true] |})).
  { intros q0 Hu Hsame Hc Hfound.
    unfold Serializers.find_and_modify_catalog_query. rewrite (given_uuid u Hne).
    unfold get_by_uuid. cbn [rows].
    rewrite (find_write_row _ q0 (rows w)); [|apply String.eqb_eq, Hu|exact Hfound].
    rewrite Hsame. unfold save. cbn [rows events].
    rewrite other_rows_write_row, Hc, write_row_again. reflexivity. }
  destruct H as [(u' & q0 & [= <-] & Hq & [(Hc & [= ->] & ->)|(text & _ & [=] & _)])
                |([[=]|(u' & [= <-] & Hnone)] &
                  [(_ & [=] & _)
                  |[(E & q0 & -> & [(Hc & [= ->] & ->)|(text & _ & [=] & _)])
                   |(q0 & E & [([=] & _)
                             |(u'' & [= <-] & [(Hc & [= ->] & ->)|(text & _ & [=] & _)])])]])].
  - destruct (get_by_uuid_found _ _ _ Hq) as [_ Hu].
    apply Hnext; [exact Hu|reflexivity|exact Hc|]. right. exists q0. auto.
  - apply Hnext; [reflexivity|reflexivity|exact Hc|]. left. exact Hnone.
  - apply objects_get_found in E as (_ & Hh & Hf).
    apply Hnext; [reflexivity| |exact Hc|left; exact Hnone].
    unfold assign_defaults. simpl. rewrite Hh, Hf. reflexivity.
Qed.


Lemma replaced_keys q table :
  NoDup (List.map id table) ->
  NoDup (List.map natural_key table) ->
  natural_key q ∉ List.map natural_key (other_rows q table) ->
  NoDup (List.map natural_key (List.map (replaced q) table)).
Proof.
  unfold other_rows. induction table as [|r table IH]; simpl; [constructor|].
  intros [Hid Hids]%NoDup_cons [Hkey Hkeys]%NoDup_cons Hq.
  destruct (Nat.eqb (id r) (id q)) eqn:Er; simpl in Hq.
  - apply Nat.eqb_eq in Er.
    assert (E : existsb (fun q' => Nat.eqb (id q') (id q)) table = false).
    { apply not_true_is_false. intros (r' & Hin & Hr')%existsb_exists.
      apply Nat.eqb_eq in Hr'. apply Hid, list_elem_of_In, in_map_iff.
      exists r'. split; [congruence|exact Hin]. }
    destruct (no_such_id q table E) as [Hmap Hother]. unfold other_rows in Hother.
    rewrite Hmap. rewrite Hother in Hq. apply NoDup_cons. auto.
  - apply not_elem_of_cons in Hq as [Hne Hq]. apply NoDup_cons. split; [|auto].
    intros (r' & Hr' & Hin)%list_elem_of_In%in_map_iff.
    apply in_map_iff in Hin as (x & <- & Hin).
    destruct (Nat.eqb (id x) (id q)); [congruence|].
    apply Hkey, list_elem_of_In, in_map_iff. eauto.
Qed.

Lemma write_row_invariant q table :
  NoDup (List.map id table) ->
  NoDup (List.map natural_key table) ->
  natural_key q ∉ List.map natural_key (other_rows q table) ->
  NoDup (List.map id (write_row q table)) /\
  NoDup (List.map natural_key (write_row q table)).
Proof.
  intros Hids Hkeys Hq. rewrite write_row_ids. unfold write_row.
  destruct (existsb _ table) eqn:E.
  - rewrite app_nil_r. split; [exact Hids|]. apply replaced_keys; assumption.
  - destruct (no_such_id q table E) as [_ Hother]. rewrite Hother in Hq.
    rewrite List.map_app. simpl. split; apply NoDup_app.
    + split; [exact Hids|]. split; [|apply NoDup_singleton].
      intros x Hx ->%list_elem_of_singleton.
      apply list_elem_of_In, in_map_iff in Hx as (r & Hr & Hin).
      assert (existsb (fun q' => Nat.eqb (id q') (id q)) table = true); [|congruence].
      apply existsb_exists. exists r. split; [exact Hin|apply Nat.eqb_eq, Hr].
    + split; [exact Hkeys|]. split; [|apply NoDup_singleton].
      intros x Hx ->%list_elem_of_singleton. exact (Hq Hx).
Qed.

(** X11. On a store that refuses a row whose natural key another row has,
    a table whose rows have distinct identities and distinct natural keys
    still has them after a call, whatever the call's outcome. *)
Theorem resolver_keeps_the_table_invariant :
  (forall q others,
      integrity_check q others = None ->
      natural_key q ∉ List.map natural_key others) ->
  forall F cu t flag w r w',
    NoDup (List.map id (rows w)) ->
    unique_natural_keys (rows w) ->
    find_and_modify_catalog_query F cu t flag w = (r, w') ->
    NoDup (List.map id (rows w')) /\ unique_natural_keys (rows w').
Proof.
  intros Hstore F cu t flag w r w' Hids Hkeys H. unfold unique_natural_keys in *.
  apply resolver_outcomes in H.
  destruct H as [(u & q & _ & _ & [(Hc & _ & ->)|(text & _ & _ & ->)])
                |(_ & [(_ & _ & ->)
                      |[(_ & q & _ & [(Hc & _ & ->)|(text & _ & _ & ->)])
                       |(q & _ & [(_ & _ & ->)
                                 |(u & _ & [(Hc & _ & ->)|(text & _ & _ & ->)])])]])];
    cbn [rows logger_exception]; auto;
    apply write_row_invariant; auto.
Qed.

(** X20. Without a uuid no stored row is changed: a call that succeeds
    either returns a row of the table as it is stored, with the title and
    the content filter it had, and leaves the table as it was, or it adds
    one new row, which carries the content filter and the title of the call
    and a uuid of its own, after the rows of before. *)
Theorem call_without_uuid_changes_no_stored_row :
  forall F cu t flag w q w',
    given cu = None ->
    find_and_modify_catalog_query F cu t flag w = (Return q, w') ->
    (In q (rows w) /\ w' = w) \/
    (~ In q (rows w) /\
     rows w' = (rows w ++ [q])%list /\
     q = new_row (rows w) (get_content_filter_hash F) flag F (uuid4 (rows w)) t).
Proof.
  intros F cu t flag w q w' Hcu H. apply resolver_outcomes in H. rewrite Hcu in H.
  destruct H as [(u & q0 & [=] & _)
                |(_ & [(_ & [=] & _)
                      |[(E & q0 & -> & [(_ & [= ->] & ->)|(text & _ & [=] & _)])
                       |(q0 & E & [(_ & [= ->] & ->)|(u & [=] & _)])]])].
  - right. split; [|split; [apply write_row_new; reflexivity|reflexivity]].
    intros Hin%fresh_id_above. simpl in Hin. lia.
  - left. split; [|reflexivity]. apply (objects_get_found _ _ _ _ E).
Qed.

End ResolverOutcomes.

Lemma failed_call_changes_no_row_witness :
  Orm.rows
    (snd (Serializers.find_and_modify_catalog_query Backends.sqlite_check
            Backends.numbered_uuid Backends.keys_hash Backends.course_filter
            (Some (Orm.uuid Backends.demo_query)) (Some "All courses, again") false
            Backends.demo_world))
  = Orm.rows Backends.demo_world.
Proof.
  exact (proj1 (failed_call_changes_no_row Backends.sqlite_check Backends.numbered_uuid
                  Backends.keys_hash Backends.course_filter
                  (Some (Orm.uuid Backends.demo_query)) (Some "All courses, again") false
                  Backends.demo_world _ _ eq_refl)).
Defined.

Lemma successful_call_stores_the_returned_row_witness :
  In (Orm.assign_defaults Backends.demo_query Backends.demo_filter
        "0b7c9a52-0000-4000-8000-00000000000f" (Some "Renamed"))
     (Orm.rows
        (snd (Serializers.find_and_modify_catalog_query Backends.sqlite_check
                Backends.numbered_uuid Backends.keys_hash Backends.demo_filter
                (Some "0b7c9a52-0000-4000-8000-00000000000f") (Some "Renamed") false
                Backends.demo_world))).
Proof.
  exact (proj1 (successful_call_stores_the_returned_row Backends.sqlite_check
                  Backends.numbered_uuid Backends.keys_hash Backends.demo_filter
                  (Some "0b7c9a52-0000-4000-8000-00000000000f") (Some "Renamed") false
                  Backends.demo_world _ _ eq_refl)).
Defined.

Lemma known_uuid_overwrites_in_place_witness :
  exists q w',
    Serializers.find_and_modify_catalog_query Backends.sqlite_check Backends.numbered_uuid
      Backends.keys_hash (JDict [("aggregation_key", JList [JStr "course:edX+DemoX"])])
      (Some (Orm.uuid Backends.demo_query)) None false Backends.demo_world
    = (Return q, w') /\
    Orm.natural_key q = ("aggregation_key", false) /\
    Orm.uuid q = Orm.uuid Backends.demo_query /\
    List.map Orm.id (Orm.rows w') = [1; 2].
Proof.
  eexists. eexists. split; [reflexivity|].
  destruct (known_uuid_overwrites_in_place Backends.sqlite_check Backends.numbered_uuid
              Backends.keys_hash (JDict [("aggregation_key", JList [JStr "course:edX+DemoX"])])
              (Orm.uuid Backends.demo_query) None false Backends.demo_world
              Backends.demo_query _ _ ltac:(discriminate) eq_refl eq_refl)
    as (Hq & Hu & Hids & _).
  split; [reflexivity|]. split; [exact Hu|exact Hids].
Defined.

Lemma call_with_uuid_is_idempotent_witness :
  exists q w1,
    Serializers.find_and_modify_catalog_query Backends.sqlite_check Backends.numbered_uuid
      Backends.keys_hash (JDict [("aggregation_key", JList [JStr "course:edX+DemoX"])])
      (Some "0b7c9a52-0000-4000-8000-00000000000f") (Some "Direct") false
      Backends.demo_world = (Return q, w1) /\
    fst (Serializers.find_and_modify_catalog_query Backends.sqlite_check
           Backends.numbered_uuid Backends.keys_hash
           (JDict [("aggregation_key", JList [JStr "course:edX+DemoX"])])
           (Some "0b7c9a52-0000-4000-8000-00000000000f") (Some "Direct") false w1)
    = Return q.
Proof.
  eexists. eexists. split; [reflexivity|].
  exact (f_equal fst
           (call_with_uuid_is_idempotent Backends.sqlite_check Backends.numbered_uuid
              Backends.keys_hash
              (JDict [("aggregation_key", JList [JStr "course:edX+DemoX"])])
              "0b7c9a52-0000-4000-8000-00000000000f" (Some "Direct") false
              Backends.demo_world _ _ ltac:(discriminate) eq_refl)).
Defined.

Lemma sqlite_check_enforces q others :
  Backends.sqlite_check q others = None ->
  Orm.natural_key q ∉ List.map Orm.natural_key others.
Proof.
  unfold Backends.sqlite_check, Backends.natural_key_taken.
  destruct (existsb _ others) eqn:E; [discriminate|]. intros _.
  intros (r & Hr & Hin)%list_elem_of_In%in_map_iff.
  assert (existsb (Orm.same_natural_key (Orm.content_filter_hash q)
                     (Orm.include_exec_ed_2u_courses q)) others = true); [|congruence].
  apply existsb_exists. exists r. split; [exact Hin|].
  apply same_natural_key_spec. exact Hr.
Qed.

Lemma demo_world_ids : NoDup (List.map Orm.id (Orm.rows Backends.demo_world)).
Proof.
  simpl. repeat (apply NoDup_cons; split); try apply NoDup_nil_2.
  - rewrite list_elem_of_singleton. discriminate.
  - apply not_elem_of_nil.
Qed.

Lemma resolver_keeps_the_table_invariant_witness :
  NoDup (List.map Orm.id
           (Orm.rows
              (snd (Serializers.find_and_modify_catalog_query Backends.sqlite_check
                      Backends.numbered_uuid Backends.keys_hash
                      (JDict [("aggregation_key", JList [JStr "course:edX+DemoX"])])
                      None (Some "Direct") false Backends.demo_world)))) /\
  Orm.unique_natural_keys
    (Orm.rows
       (snd (Serializers.find_and_modify_catalog_query Backends.sqlite_check
               Backends.numbered_uuid Backends.keys_hash
               (JDict [("aggregation_key", JList [JStr "course:edX+DemoX"])])
               None (Some "Direct") false Backends.demo_world))).
Proof.
  eapply (resolver_keeps_the_table_invariant Backends.sqlite_check Backends.numbered_uuid
            Backends.keys_hash sqlite_check_enforces
            (JDict [("aggregation_key", JList [JStr "course:edX+DemoX"])])
            None (Some "Direct") false Backends.demo_world);
    [exact demo_world_ids | exact demo_world_unique | apply surjective_pairing].
Defined.

Lemma call_without_uuid_changes_no_stored_row_witness :
  In Backends.demo_query (Orm.rows Backends.demo_world) /\
  snd (Serializers.find_and_modify_catalog_query Backends.sqlite_check
         Backends.numbered_uuid Backends.keys_hash Backends.demo_filter None
         (Some "Another title") false Backends.demo_world)
  = Backends.demo_world.
Proof.
  destruct (call_without_uuid_changes_no_stored_row Backends.sqlite_check
              Backends.numbered_uuid Backends.keys_hash Backends.demo_filter None
              (Some "Another title") false Backends.demo_world
              Backends.demo_query Backends.demo_world eq_refl eq_refl)
    as [[Hin _]|[Hout _]].
  - split; [exact Hin|reflexivity].
  - destruct Hout. left. reflexivity.
Defined.

(** ** More on the row projections: partner cells, errors *)

Section RowCells.
Import Py ExportUtils.

Variable parse_strftime : string -> outcome py_exn string.
Variable fromtimestamp_strftime : Z -> outcome py_exn string.
Variable strip_tags : json -> string.

Abbreviation course_hit_to_row := (course_hit_to_row parse_strftime fromtimestamp_strftime strip_tags).
Abbreviation course_run_to_row := (course_run_to_row parse_strftime fromtimestamp_strftime).
Abbreviation course_hit_shape := (course_hit_shape parse_strftime fromtimestamp_strftime).

Implicit Types (hit run : list (string * json)) (v : json).

Lemma join_items_concat sep (names : list string) :
  join_items sep (List.map JStr names) = Return (String.concat sep names).
Proof.
  induction names as [|s rest IH]; [reflexivity|].
  cbn [List.map join_items]. rewrite IH. cbn [obind].
  destruct rest; reflexivity.
Qed.

Lemma named_entries entries :
  forallb has_name entries = true ->
  exists names,
    Forall2 (fun entry name => subscript_key entry "name" = Return (JStr name)) entries names /\
    comprehension (fun entry => subscript_key entry "name") entries
    = Return (List.map JStr names).
Proof.
  induction entries as [|x rest IH]; simpl; [exists []; split; [constructor|reflexivity]|].
  intros [Hx Hrest]%andb_prop. destruct (IH Hrest) as (names & Hall & Hcomp).
  destruct x as [| | | | |d]; try discriminate. simpl in Hx.
  destruct (lookup_entry "name" d) as [[| | |name| |]|] eqn:En; try discriminate.
  exists (name :: names). split.
  - constructor; [|exact Hall]. cbn [subscript_key]. unfold dict_item. rewrite En. reflexivity.
  - cbn [comprehension subscript_key]. unfold dict_item. rewrite En. cbn [obind].
    rewrite Hcomp. reflexivity.
Qed.

(** X16. The Partner Name cell of a course row is the name of the first
    partner of the hit only, whatever partners follow; the Partner cell of a
    program row holds the names of all partners, in their order, joined by a
    comma and a space. *)
Theorem partner_cells_of_the_rows :
  (forall hit first rest,
      course_hit_shape hit = true ->
      lookup_entry "partners" hit = Some (JList (first :: rest)) ->
      exists row name,
        course_hit_to_row hit = Return row /\
        subscript_key first "name" = Return (JStr name) /\
        row !! 1%nat = Some (JStr name)) /\
  (forall hit entries,
      program_hit_shape hit = true ->
      lookup_entry "partners" hit = Some (JList entries) ->
      exists row names,
        program_hit_to_row hit = Return row /\
        Forall2 (fun entry name => subscript_key entry "name" = Return (JStr name))
          entries names /\
        row !! 2%nat = Some (JStr (String.concat ", " names))).
Proof.
  split.
  - intros hit first rest Hshape Hp.
    destruct (course_hit_to_row_cells parse_strftime fromtimestamp_strftime strip_tags
                hit Hshape)
      as (partner & start_date & end_date & deadline & pacing & key & programs & titles
          & subjects & skills & run & Hrow & _).
    assert (Hname : exists name, subscript_key first "name" = Return (JStr name)).
    { unfold ExportUtils.course_hit_shape, optional in Hshape. rewrite Hp in Hshape.
      simpl in Hshape. destruct (has_name first) eqn:Hf; [|discriminate].
      destruct first as [| | | | |d]; try discriminate. simpl in Hf.
      cbn [subscript_key]. unfold dict_item.
      destruct (lookup_entry "name" d) as [[| | |name| |]|]; try discriminate. eauto. }
    destruct Hname as (name & Hname).
    eexists. exists name. split; [exact Hrow|]. split; [exact Hname|].
    pose proof Hrow as H. unfold ExportUtils.course_hit_to_row in H. cbv zeta in H.
    apply obind_Return in H as (row1 & H1 & H).
    unfold dict_get, dict_item in H1. rewrite Hp in H1.
    cbn [truthy obind subscript_zero] in H1. rewrite Hname in H1.
    cbn [obind] in H1. injection H1 as <-.
    apply obind_Return in H as ([[row2 pacing_type] key'] & H2 & H).
    assert (H2' : exists a b c, row2 = [dict_get hit "title"; JStr name; a; b; c]).
    { destruct (truthy _).
      - repeat (apply obind_Return in H2 as (? & _ & H2)).
        injection H2 as <- _ _. eauto.
      - injection H2 as <- _ _. eauto. }
    clear H2. destruct H2' as (a & b & c & ->).
    repeat (apply obind_Return in H as (? & _ & H)).
    apply (f_equal (fun r : outcome py_exn (list json) =>
                      match r with Return l => l !! 1%nat | Raise _ => None end)) in H.
    unfold append in H. simpl in H. simpl. congruence.
  - intros hit entries Hshape Hp.
    unfold program_hit_shape in Hshape. apply andb_prop in Hshape as [Hpartners Hkeys].
    unfold optional in Hpartners. rewrite Hp in Hpartners. simpl in Hpartners.
    destruct (named_entries entries Hpartners) as (names & Hall & Hcomp).
    assert (Hlen : exists n, len (dict_get_default hit "course_keys" (JList [])) = Return n).
    { unfold optional, dict_get_default in *.
      destruct (lookup_entry "course_keys" hit) as [v|]; [|simpl; eauto].
      destruct v; try discriminate. simpl. eauto. }
    destruct Hlen as (n & Hlen).
    eexists. exists names. split; [|split; [exact Hall|]].
    + unfold program_hit_to_row. cbv zeta. unfold dict_get_default at 1. rewrite Hp.
      cbn [iterate obind]. rewrite Hcomp. cbn [obind]. rewrite join_items_concat.
      cbn [obind]. rewrite Hlen. reflexivity.
    + reflexivity.
Qed.


Lemma parse_date_raises raw e :
  parse_date parse_strftime raw = Raise e ->
  match raw with
  | JStr text => parse_strftime text = Raise e
  | _ => e = TypeError
  end.
Proof.
  unfold parse_date. destruct raw; try (intros [= <-]; reflexivity).
  destruct (parse_strftime s); [discriminate|]. cbn [obind]. congruence.
Qed.

Lemma timestamp_date_raises raw e :
  timestamp_date fromtimestamp_strftime raw = Raise e ->
  match raw with
  | JNum z => fromtimestamp_strftime z = Raise e
  | JBool b => fromtimestamp_strftime (if b then 1 else 0)%Z = Raise e
  | _ => e = TypeError
  end.
Proof.
  unfold timestamp_date. destruct raw; try (intros [= <-]; reflexivity);
    destruct (fromtimestamp_strftime _); try discriminate; cbn [obind]; congruence.
Qed.

(** X17. [course_run_to_row] reads the course run with safe lookups only,
    so no lookup raises: when the call raises, the error is the one
    [dateutil] raised for the text of a non-empty [start] or [end], or the
    one [fromtimestamp] raised for the number of a non-zero
    [upgrade_deadline], or the [TypeError] of a non-empty [start] or [end]
    that is not a text or of an [upgrade_deadline] that is not a number.
    The row it returns starts with the title the caller gave, the key of
    the run and the course key the caller gave. *)
Theorem course_run_to_row_outcomes :
  forall course_key course_title run,
    match course_run_to_row course_key course_title run with
    | Return row =>
        row !! 0%nat = Some course_title /\
        row !! 1%nat = Some (dict_get run "key") /\
        row !! 2%nat = Some course_key
    | Raise e =>
        (exists k,
            (k = "start" \/ k = "end") /\
            truthy (dict_get run k) = true /\
            match dict_get run k with
            | JStr text => parse_strftime text = Raise e
            | _ => e = TypeError
            end) \/
        (truthy (dict_get run "upgrade_deadline") = true /\
         match dict_get run "upgrade_deadline" with
         | JNum z => fromtimestamp_strftime z = Raise e
         | JBool b => fromtimestamp_strftime (if b then 1 else 0)%Z = Raise e
         | _ => e = TypeError
         end)
    end.
Proof.
  intros course_key course_title run. unfold ExportUtils.course_run_to_row. cbv zeta.
  assert (Hdate : forall k,
             match (if truthy (dict_get run k)
                    then parse_date parse_strftime (dict_get run k) else Return JNull) with
             | Return _ => True
             | Raise e =>
                 truthy (dict_get run k) = true /\
                 match dict_get run k with
                 | JStr text => parse_strftime text = Raise e
                 | _ => e = TypeError
                 end
             end).
  { intros k. destruct (truthy (dict_get run k)); [|exact I].
    destruct (parse_date parse_strftime (dict_get run k)) eqn:E; [exact I|].
    split; [reflexivity|]. exact (parse_date_raises _ _ E). }
  pose proof (Hdate "start") as H1. pose proof (Hdate "end") as H2. clear Hdate.
  assert (H3 : match (if truthy (dict_get run "upgrade_deadline")
                      then timestamp_date fromtimestamp_strftime
                             (dict_get run "upgrade_deadline")
                      else Return JNull) with
               | Return _ => True
               | Raise e =>
                   truthy (dict_get run "upgrade_deadline") = true /\
                   match dict_get run "upgrade_deadline" with
                   | JNum z => fromtimestamp_strftime z = Raise e
                   | JBool b => fromtimestamp_strftime (if b then 1 else 0)%Z = Raise e
                   | _ => e = TypeError
                   end
               end).
  { destruct (truthy (dict_get run "upgrade_deadline")); [|exact I].
    destruct (timestamp_date fromtimestamp_strftime (dict_get run "upgrade_deadline")) eqn:E;
      [exact I|].
    split; [reflexivity|]. exact (timestamp_date_raises _ _ E). }
  destruct (if truthy (dict_get run "start") then _ else _);
    [|left; exists "start"; split; [left; reflexivity|exact H1]].
  cbn [obind].
  destruct (if truthy (dict_get run "end") then _ else _);
    [|left; exists "end"; split; [right; reflexivity|exact H2]].
  cbn [obind].
  destruct (if truthy (dict_get run "upgrade_deadline") then _ else _);
    [|right; exact H3].
  cbn [obind]. unfold append. simpl. auto.
Qed.

(** X18. A course hit whose [advertised_course_run] is present but is not a
    dictionary, a null for one, gives no row: with well-formed partners,
    programs, subjects and skills, [course_hit_to_row] raises
    [AttributeError]. *)
Theorem advertised_run_that_is_no_dictionary_raises_AttributeError :
  forall hit v,
    lookup_entry "advertised_course_run" hit = Some v ->
    (forall d, v <> JDict d) ->
    optional named_list hit "partners" = true ->
    optional text_list hit "programs" = true ->
    optional text_list hit "program_titles" = true ->
    optional text_list hit "subjects" = true ->
    optional named_list hit "skills" = true ->
    course_hit_to_row hit = Raise AttributeError.
Proof.
  intros hit v Hv Hnd Hpartners Hprograms Htitles Hsubjects Hskills.
  assert (Hget : forall k, method_get v k = Raise AttributeError).
  { intros k. destruct v; try reflexivity. destruct (Hnd entries eq_refl). }
  unfold ExportUtils.course_hit_to_row. cbv zeta.
  destruct (partner_cell hit (append [] (dict_get hit "title")) Hpartners) as (cell & -> & _).
  cbn [obind].
  assert (E1 : dict_get hit "advertised_course_run" = v)
    by (unfold dict_get; rewrite Hv; reflexivity).
  assert (E2 : dict_item hit "advertised_course_run" = Return v)
    by (unfold dict_item; rewrite Hv; reflexivity).
  assert (E3 : dict_get_default hit "advertised_course_run" (JDict []) = v)
    by (unfold dict_get_default; rewrite Hv; reflexivity).
  rewrite E1, E2, E3. destruct (truthy v).
  - cbn [obind]. rewrite Hget. reflexivity.
  - cbn [obind].
    destruct (joined_texts hit "programs" Hprograms) as (programs & -> & _).
    destruct (joined_texts hit "program_titles" Htitles) as (titles & -> & _).
    destruct (joined_texts hit "subjects" Hsubjects) as (subjects & -> & _).
    cbn [obind].
    destruct (joined_names hit "skills" Hskills) as (skills & Eskills & _).
    unfold obind in Eskills.
    destruct (iterate (dict_get_default hit "skills" (JList []))) as [entries|];
      [|discriminate].
    cbn [obind].
    destruct (comprehension _ entries) as [names|]; [|discriminate].
    cbn [obind]. rewrite Eskills. cbn [obind]. rewrite Hget. reflexivity.
Qed.

End RowCells.

Lemma partner_cells_of_the_rows_witness :
  exists row names,
    ExportUtils.program_hit_to_row
      [("title", JStr "Data Science");
       ("partners", JList [JDict [("name", JStr "edX")]; JDict [("name", JStr "MITx")]])]
    = Return row /\
    names = ["edX"; "MITx"] /\
    row !! 2%nat = Some (JStr (String.concat ", " names)).
Proof.
  destruct (proj2 (partner_cells_of_the_rows (fun _ => Raise ValueError) (fun _ => Raise OverflowError) (fun _ => ""))
              [("title", JStr "Data Science");
               ("partners", JList [JDict [("name", JStr "edX")]; JDict [("name", JStr "MITx")]])]
              [JDict [("name", JStr "edX")]; JDict [("name", JStr "MITx")]]
              eq_refl eq_refl)
    as (row & names & Hrow & Hnames & Hcell).
  exists row, names. split; [exact Hrow|]. split; [|exact Hcell].
  inversion Hnames as [|? n1 ? rest1 H1 Hrest1]; subst.
  inversion Hrest1 as [|? n2 ? rest2 H2 Hrest2]; subst.
  inversion Hrest2; subst.
  injection H1 as <-. injection H2 as <-. reflexivity.
Defined.

Lemma advertised_run_that_is_no_dictionary_raises_AttributeError_witness :
  ExportUtils.course_hit_to_row (fun _ => Raise ValueError) (fun _ => Raise OverflowError) (fun _ => "")
    [("title", JStr "Demo"); ("advertised_course_run", JNull)]
  = Raise AttributeError.
Proof.
  apply (advertised_run_that_is_no_dictionary_raises_AttributeError
           (fun _ => Raise ValueError) (fun _ => Raise OverflowError) (fun _ => "")
           [("title", JStr "Demo"); ("advertised_course_run", JNull)] JNull);
    [reflexivity | discriminate | reflexivity..].
Defined.

(** The error of the library is passed on as it is, here the [OSError] of a
    timestamp far out of range. *)
Example fromtimestamp_error_is_passed_on :
  ExportUtils.course_run_to_row (fun _ => Return "2023-06-01") (fun _ => Raise OSError)
    (JStr "edX+DemoX") (JStr "Demo")
    [("key", JStr "course-v1:edX+DemoX+1T2023");
     ("upgrade_deadline", JNum 100000000000000000)]
  = Raise OSError.
Proof. reflexivity. Qed.

(** ** More on [to_representation]: what a call changes and what it keeps *)

Section RepresentationChanges.
Import Heap Enrichment Changes.

Variables COURSE COURSE_RUN PROGRAM : string.
Variable get_content_enrollment_url : EnterpriseCatalog -> ContentMetadata -> value.
Variable get_xapi_activity_id : EnterpriseCatalog -> string -> value -> value.
Variable get_enterprise_utm_context : string -> list (string * string).
Variable update_query_parameters :
  value -> list (string * string) -> outcome py_exn value.
Variable is_any_course_run_active : gmap nat object -> value -> outcome py_exn bool.
Variable get_child_records : ContentMetadata -> list ContentMetadata.

Abbreviation to_representation :=
  (Enrichment.to_representation COURSE COURSE_RUN PROGRAM get_content_enrollment_url
     get_xapi_activity_id get_enterprise_utm_context update_query_parameters
     is_any_course_run_active get_child_records).
Abbreviation add_urls :=
  (Enrichment._add_course_run_enrollment_urls get_content_enrollment_url get_child_records).

Implicit Types (h : gmap nat object) (v : value) (entries : list (string * value)).

Lemma same_except_refl key o : same_except key o o.
Proof. destruct o; simpl; auto. Qed.

Lemma only_entry_setitem_copy key h0 c k x :
  h0 !! c = None -> keeps (only_entry key h0) (setitem (VRef c) k x).
Proof.
  intros Hc h r h' Hh H a o Ha. destruct (Hh a o Ha) as (o' & Ho' & Hsame).
  exists o'. split; [|exact Hsame]. rewrite <- Ho'.
  apply (setitem_frame _ _ _ _ _ _ a H). intros [= ->]. congruence.
Qed.

Lemma only_entry_alloc key h0 o : keeps (only_entry key h0) (alloc o).
Proof.
  intros h r h' Hh H a o0 Ha. destruct (Hh a o0 Ha) as (o' & Ho' & Hsame).
  exists o'. split; [|exact Hsame]. unfold alloc in H. injection H as _ <-.
  rewrite lookup_insert_ne; [exact Ho'|].
  intros <-. assert (Hin : fresh (dom h) ∈ dom h) by (apply elem_of_dom; eauto).
  exact (is_fresh _ Hin).
Qed.

Lemma only_entry_setitem key h0 x url :
  keeps (only_entry key h0) (setitem x key url).
Proof.
  intros h r h' Hh H a o Ha. destruct (Hh a o Ha) as (o' & Ho' & Hsame).
  unfold setitem in H. destruct x as [| | | | |b]; try solve [injection H as _ <-; eauto].
  destruct (h !! b) as [[entries|items]|] eqn:Eb; try solve [injection H as _ <-; eauto].
  injection H as _ <-. destruct (decide (a = b)) as [->|Hne].
  - rewrite lookup_insert_eq. eexists. split; [reflexivity|].
    rewrite Eb in Ho'. injection Ho' as <-.
    destruct o as [d|items]; simpl in *; [|contradiction].
    intros k Hk. rewrite entry_lookup_set.
    destruct (String.eqb k key) eqn:E; [apply String.eqb_eq in E; contradiction|auto].
  - rewrite lookup_insert_ne by congruence. eauto.
Qed.

Lemma keeps_for_each I (body : value -> M unit) items :
  (forall x, keeps I (body x)) -> keeps I (for_each items body).
Proof.
  intros Hbody. induction items as [|x rest IH]; simpl.
  - apply keeps_pure. reflexivity.
  - apply keeps_bind; [apply Hbody|intros _; exact IH].
Qed.

Lemma getitem_pure v k h : snd (getitem v k h) = h.
Proof.
  unfold getitem. destruct v; try reflexivity.
  destruct (h !! a) as [[entries|]|]; try reflexivity.
  destruct (entry_lookup k entries); reflexivity.
Qed.

Lemma iterate_pure v h : snd (iterate v h) = h.
Proof. unfold iterate. destruct v; try reflexivity. destruct (h !! a) as [[]|]; reflexivity. Qed.

Lemma urls_get_pure urls key h : snd (urls_get urls key h) = h.
Proof. destruct key; reflexivity. Qed.

Lemma only_entry_add_urls h0 catalog course runs :
  keeps (only_entry "enrollment_url" h0) (add_urls catalog course runs).
Proof.
  unfold Enrichment._add_course_run_enrollment_urls.
  apply keeps_bind; [apply keeps_pure, iterate_pure|]. intros items.
  apply keeps_for_each. intros x.
  apply keeps_bind; [apply keeps_pure, getitem_pure|]. intros key.
  apply keeps_bind; [apply keeps_pure, urls_get_pure|]. intros url.
  apply only_entry_setitem.
Qed.

(** X12. Whatever the record and however the call ends, every object that
    existed before [to_representation] is still there afterwards and differs
    from what it was at most in the entry [enrollment_url] of a dictionary;
    and for a record that is not a course, and for an exec-ed-2u course,
    every such object is exactly as it was. *)
Theorem to_representation_changes_only_run_urls :
  forall catalog instance h r h',
    to_representation catalog instance h = (r, h') ->
    only_entry "enrollment_url" h h' /\
    (String.eqb (content_type instance) COURSE && negb (is_exec_ed_2u_course instance)
     = false ->
     unchanged h h').
Proof.
  intros catalog instance h r h' H. split.
  2:{ intros Hloop. exact (to_representation_frame _ _ _ _ _ _ _ _ _ _ _ _ _ _ Hloop H). }
  unfold Enrichment.to_representation, bind at 1 in H.
  destruct (copy (json_metadata instance) h) as [[jm|e] h1] eqn:Ecopy.
  2:{ injection H as _ <-. unfold copy in Ecopy. intros a o Ha. exists o.
      split; [|apply same_except_refl].
      destruct (json_metadata instance); try (injection Ecopy as _ <-; exact Ha).
      destruct (h !! a0); [discriminate|]. injection Ecopy as _ <-. exact Ha. }
  unfold copy in Ecopy.
  destruct (json_metadata instance) as [| | | | |a0]; try discriminate.
  destruct (h !! a0) as [o|]; [|discriminate].
  unfold alloc in Ecopy. injection Ecopy as <- <-.
  set (c := fresh (dom h)) in *.
  assert (Hc : h !! c = None) by (apply not_elem_of_dom, is_fresh).
  assert (H1 : only_entry "enrollment_url" h (<[c:=o]> h)).
  { intros a oa Ha. exists oa. split; [|apply same_except_refl].
    rewrite lookup_insert_ne; [exact Ha|]. intros <-. congruence. }
  revert H. generalize (<[c:=o]> h) H1. intros h1 Hh1 H. revert h1 r h' Hh1 H.
  repeat first
    [ apply only_entry_add_urls
    | apply keeps_bind; [|intros ?]
    | apply only_entry_setitem_copy; exact Hc
    | apply only_entry_alloc
    | apply keeps_pure; intros ?; first [apply get_pure | apply truthy_pure | reflexivity]
    | match goal with
      | |- keeps _ (if ?b then _ else _) => destruct b eqn:?
      end ].
Qed.


(** X13. A record whose metadata blob is not a dictionary cannot be
    rendered: [to_representation] raises [AttributeError], and every object
    that existed before the call is as it was. *)
Theorem non_dictionary_blob_raises_AttributeError :
  forall catalog instance h,
    (forall a entries, json_metadata instance = VRef a -> h !! a <> Some (ODict entries)) ->
    exists h',
      to_representation catalog instance h = (Raise AttributeError, h') /\
      unchanged h h'.
Proof.
  intros catalog instance h Hblob. unfold Enrichment.to_representation, bind at 1, copy.
  destruct (json_metadata instance) as [| | | | |a];
    try (exists h; split; [reflexivity|intros ? _; reflexivity]).
  destruct (h !! a) as [[entries|items]|] eqn:Ea.
  - destruct (Hblob a entries eq_refl Ea).
  - unfold alloc, bind, get. rewrite lookup_insert_eq. eexists. split; [reflexivity|].
    intros b Hb. apply lookup_insert_ne. intros <-.
    apply elem_of_dom in Hb. exact (is_fresh _ Hb).
  - exists h. split; [reflexivity|intros ? _; reflexivity].
Qed.

(** *** The loop over the serialized course runs *)

Abbreviation urls_of catalog course :=
  (List.fold_left
     (fun (urls : gmap string value) course_run =>
        <[content_key course_run := get_content_enrollment_url catalog course_run]> urls)
     (get_child_records course) ∅).

(** The url of the last child record that has the content key [key]. *)
Abbreviation url_of catalog course key :=
  (match key with
   | VStr s =>
       match List.find (fun record => String.eqb (content_key record) s)
               (rev (get_child_records course)) with
       | Some record => get_content_enrollment_url catalog record
       | None => VNone
       end
   | _ => VNone
   end).

Lemma fold_urls_lookup catalog (records : list ContentMetadata) (urls : gmap string value) s :
  List.fold_left
    (fun (urls : gmap string value) course_run =>
       <[content_key course_run := get_content_enrollment_url catalog course_run]> urls)
    records urls !! s
  = match List.find (fun record => String.eqb (content_key record) s) (rev records) with
    | Some record => Some (get_content_enrollment_url catalog record)
    | None => urls !! s
    end.
Proof.
  revert urls. induction records as [|r records IH]; intros urls; simpl; [reflexivity|].
  rewrite IH.
  assert (Hfind : forall (p : ContentMetadata -> bool) l x,
             List.find p (l ++ [x])%list
             = match List.find p l with
               | Some y => Some y
               | None => if p x then Some x else None
               end).
  { intros p l x. induction l as [|y l IHl]; simpl; [reflexivity|].
    destruct (p y); [reflexivity|exact IHl]. }
  rewrite Hfind. destruct (List.find _ (rev records)); [reflexivity|].
  destruct (String.eqb (content_key r) s) eqn:E.
  - apply String.eqb_eq in E. subst s. apply lookup_insert_eq.
  - apply lookup_insert_ne. intros Heq. rewrite Heq, String.eqb_refl in E. discriminate.
Qed.

Lemma urls_get_Return catalog course key h url h1 :
  urls_get (urls_of catalog course) key h = (Return url, h1) ->
  h1 = h /\ url = url_of catalog course key /\ forall a, key <> VRef a.
Proof.
  destruct key as [| | |s| |a]; simpl; try (intros [= <- <-]; repeat split; discriminate).
  intros [= <- <-]. split; [reflexivity|]. split; [|discriminate].
  rewrite fold_urls_lookup, lookup_empty.
  destruct (List.find _ _); reflexivity.
Qed.

(** A run that has its url: its dictionary holds a key and, under
    [enrollment_url], the url of that key. *)
Abbreviation has_url catalog course h x :=
  (exists a entries key,
      x = VRef a /\ h !! a = Some (ODict entries) /\
      entry_lookup "key" entries = Some key /\
      entry_lookup "enrollment_url" entries = Some (url_of catalog course key)).

Abbreviation run_body catalog course :=
  (fun serialized_run : value =>
     do! key := getitem serialized_run "key" in
     do! url := urls_get (urls_of catalog course) key in
     setitem serialized_run "enrollment_url" url).

Lemma run_body_Return catalog course x h h' :
  run_body catalog course x h = (Return tt, h') ->
  exists a entries key,
    x = VRef a /\ h !! a = Some (ODict entries) /\
    entry_lookup "key" entries = Some key /\
    h' = <[a := ODict (entry_set "enrollment_url" (url_of catalog course key) entries)]> h.
Proof.
  intros H. apply bind_Return in H as (key & h1 & Hget & H).
  apply bind_Return in H as (url & h2 & Hurl & Hset).
  pose proof (getitem_heap _ _ _ _ _ Hget) as ->.
  apply urls_get_Return in Hurl as (-> & -> & _).
  unfold getitem in Hget. destruct x as [| | | | |a]; try discriminate.
  destruct (h !! a) as [[entries|items]|] eqn:Ea; try discriminate.
  destruct (entry_lookup "key" entries) as [key'|] eqn:Ek; [|discriminate].
  injection Hget as ->.
  apply setitem_Return in Hset as (entries' & Ha & ->).
  rewrite Ea in Ha. injection Ha as <-. exists a, entries, key. auto.
Qed.

Lemma run_body_establishes catalog course x h h' :
  run_body catalog course x h = (Return tt, h') -> has_url catalog course h' x.
Proof.
  intros (a & entries & key & -> & Ha & Hk & ->)%run_body_Return.
  eexists a, _, key. split; [reflexivity|]. rewrite lookup_insert_eq.
  split; [reflexivity|]. rewrite !entry_lookup_set. simpl. auto.
Qed.

Lemma run_body_preserves catalog course x y h h' :
  has_url catalog course h y ->
  run_body catalog course x h = (Return tt, h') ->
  has_url catalog course h' y.
Proof.
  intros (b & entries_b & key_b & -> & Hb & Hkb & Hub).
  intros (a & entries & key & -> & Ha & Hk & ->)%run_body_Return.
  destruct (decide (b = a)) as [->|Hne].
  - rewrite Ha in Hb. injection Hb as <-. rewrite Hk in Hkb. injection Hkb as <-.
    eexists a, _, key. split; [reflexivity|]. rewrite lookup_insert_eq.
    split; [reflexivity|]. rewrite !entry_lookup_set. simpl. auto.
  - exists b, entries_b, key_b. rewrite lookup_insert_ne by congruence. auto.
Qed.

Lemma for_each_preserves catalog course items y :
  forall h h',
    has_url catalog course h y ->
    for_each items (run_body catalog course) h = (Return tt, h') ->
    has_url catalog course h' y.
Proof.
  induction items as [|x rest IH]; simpl; intros h h' Hy H.
  - injection H as <-. exact Hy.
  - apply bind_Return in H as ([] & h1 & Hx & H).
    exact (IH _ _ (run_body_preserves _ _ _ _ _ _ Hy Hx) H).
Qed.

Lemma for_each_establishes catalog course items :
  forall h h',
    for_each items (run_body catalog course) h = (Return tt, h') ->
    forall x, In x items -> has_url catalog course h' x.
Proof.
  induction items as [|x rest IH]; simpl; intros h h' H y Hy; [destruct Hy|].
  apply bind_Return in H as ([] & h1 & Hx & H). destruct Hy as [<-|Hy].
  - exact (for_each_preserves _ _ _ _ _ _ (run_body_establishes _ _ _ _ _ Hx) H).
  - exact (IH _ _ H y Hy).
Qed.

Abbreviation ready h x :=
  (exists a entries key,
      x = VRef a /\ h !! a = Some (ODict entries) /\
      entry_lookup "key" entries = Some key /\ forall b, key <> VRef b).

Lemma run_body_returns catalog course x h :
  ready h x ->
  exists h', run_body catalog course x h = (Return tt, h') /\
             forall y, ready h y -> ready h' y.
Proof.
  intros (a & entries & key & -> & Ha & Hk & Hkey).
  eexists. split.
  - eapply bind_intro; [unfold getitem; rewrite Ha, Hk; reflexivity|].
    eapply bind_intro.
    + instantiate (1 := h). instantiate (1 := url_of catalog course key).
      destruct key as [| | |s| |b]; try reflexivity; [|destruct (Hkey b eq_refl)].
      unfold urls_get, ret. rewrite fold_urls_lookup, lookup_empty.
      destruct (List.find _ _); reflexivity.
    + unfold setitem. rewrite Ha. reflexivity.
  - intros y (b & entries_b & key_b & -> & Hb & Hkb & Hkeyb).
    destruct (decide (b = a)) as [->|Hne].
    + rewrite Ha in Hb. injection Hb as <-.
      eexists a, _, key_b. split; [reflexivity|]. rewrite lookup_insert_eq.
      split; [reflexivity|]. rewrite entry_lookup_set. simpl. auto.
    + exists b, entries_b, key_b. rewrite lookup_insert_ne by congruence. auto.
Qed.

Lemma for_each_returns catalog course items :
  forall h,
    (forall x, In x items -> ready h x) ->
    exists h', for_each items (run_body catalog course) h = (Return tt, h').
Proof.
  induction items as [|x rest IH]; simpl; intros h Hready; [eexists; reflexivity|].
  destruct (run_body_returns catalog course x h (Hready x (or_introl eq_refl)))
    as (h1 & Hx & Hkeep).
  destruct (IH h1 (fun y Hy => Hkeep y (Hready y (or_intror Hy)))) as (h' & Hrest).
  exists h'. eapply bind_intro; [exact Hx|exact Hrest].
Qed.

(** X14. [_add_course_run_enrollment_urls] returns when every serialized
    run is a dictionary with a key that is not itself a list or dictionary;
    and when it returns, every serialized run holds, under [enrollment_url],
    the enrollment url of the last child record of the course whose content
    key is the run's key, or [None] when no child record has that key or the
    key is not a text. *)
Theorem add_course_run_enrollment_urls_sets_every_run :
  forall catalog course runs h,
    (forall items,
        iterate runs h = (Return items, h) ->
        (forall x, In x items ->
           exists a entries key,
             x = VRef a /\ h !! a = Some (ODict entries) /\
             entry_lookup "key" entries = Some key /\ forall b, key <> VRef b) ->
        exists h', add_urls catalog course runs h = (Return tt, h')) /\
    (forall h',
        add_urls catalog course runs h = (Return tt, h') ->
        exists items,
          iterate runs h = (Return items, h) /\
          forall x, In x items ->
            exists a entries key,
              x = VRef a /\ h' !! a = Some (ODict entries) /\
              entry_lookup "key" entries = Some key /\
              entry_lookup "enrollment_url" entries =
                Some (match key with
                      | VStr s =>
                          match List.find
                                  (fun record => String.eqb (content_key record) s)
                                  (rev (get_child_records course)) with
                          | Some record => get_content_enrollment_url catalog record
                          | None => VNone
                          end
                      | _ => VNone
                      end)).
Proof.
  intros catalog course runs h. split.
  - intros items Hit Hready.
    destruct (for_each_returns catalog course items h Hready) as (h' & H).
    exists h'. unfold Enrichment._add_course_run_enrollment_urls.
    eapply bind_intro; [exact Hit|exact H].
  - intros h' H. unfold Enrichment._add_course_run_enrollment_urls in H.
    apply bind_Return in H as (items & h1 & Hit & H).
    pose proof (iterate_heap _ _ _ _ Hit) as ->.
    exists items. split; [exact Hit|].
    exact (for_each_establishes _ _ _ _ _ H).
Qed.

(** *** The entries of the representation *)

Lemma not_assigned k :
  ~ In k ASSIGNED_KEYS ->
  String.eqb k "content_last_modified" = false /\ String.eqb k "marketing_url" = false /\
  String.eqb k "enrollment_url" = false /\ String.eqb k "xapi_activity_id" = false /\
  String.eqb k "active" = false.
Proof.
  unfold ASSIGNED_KEYS. simpl. intros H.
  repeat split; apply String.eqb_neq; intros ->; tauto.
Qed.

Ltac entries_agree :=
  repeat match goal with
         | |- _ /\ _ => split
         | |- forall k, ~ In k ASSIGNED_KEYS -> _ =>
             let H1 := fresh in let H2 := fresh in let H3 := fresh in
             let H4 := fresh in let H5 := fresh in
             intros k (H1 & H2 & H3 & H4 & H5)%not_assigned;
             rewrite ?entry_lookup_set, ?H3, ?H4, ?H5;
             match goal with Hother : forall k, _ -> _ -> _ = _ |- _ =>
               apply Hother; assumption end
         | |- true = false -> _ => discriminate
         | |- _ -> _ => intros ?
         | |- _ = _ =>
             first
               [ reflexivity
               | assumption
               | rewrite ?entry_lookup_set; simpl;
                 match goal with
                 | Hother : forall k, _ -> _ -> _ = _ |- _ => apply Hother; reflexivity
                 | Hmu : _ -> entry_lookup "marketing_url" _ = _ |- _ =>
                     apply Hmu; assumption
                 end ]
         end.

(** X15. The representation [to_representation] returns is a new
    dictionary, not the blob of the record, and it agrees with the blob on
    every key the function does not assign.  Of the assigned keys,
    [marketing_url] is as in the blob when the blob has none or an empty
    one, [active] when the record is not a course, [xapi_activity_id] when
    it is neither a course nor a course run, and [enrollment_url] when it
    is not a program either. *)
Theorem representation_keeps_the_other_entries :
  forall catalog instance h rep h',
    closed h ->
    to_representation catalog instance h = (Return rep, h') ->
    exists a0 d c d',
      json_metadata instance = VRef a0 /\ h !! a0 = Some (ODict d) /\
      rep = VRef c /\ h !! c = None /\ h' !! c = Some (ODict d') /\
      (forall k, ~ In k ASSIGNED_KEYS -> entry_lookup k d' = entry_lookup k d) /\
      (entry_lookup "marketing_url" d = None \/
       entry_lookup "marketing_url" d = Some VNone \/
       entry_lookup "marketing_url" d = Some (VStr "") ->
       entry_lookup "marketing_url" d' = entry_lookup "marketing_url" d) /\
      (String.eqb (content_type instance) COURSE = false ->
       entry_lookup "active" d' = entry_lookup "active" d) /\
      (String.eqb (content_type instance) COURSE
       || String.eqb (content_type instance) COURSE_RUN = false ->
       entry_lookup "xapi_activity_id" d' = entry_lookup "xapi_activity_id" d /\
       (String.eqb (content_type instance) PROGRAM = false ->
        entry_lookup "enrollment_url" d' = entry_lookup "enrollment_url" d)).
Proof.
  intros catalog instance h rep h' Hclosed H. unfold Enrichment.to_representation in H.
  apply bind_Return in H as (jm & h1 & Hcopy & H).
  unfold copy in Hcopy.
  destruct (json_metadata instance) as [| | | | |a0] eqn:Ejm; try discriminate.
  destruct (h !! a0) as [o|] eqn:Ea0; [|discriminate].
  unfold alloc in Hcopy. injection Hcopy as <- <-.
  set (c := fresh (dom h)) in *.
  assert (Hc : h !! c = None) by (apply not_elem_of_dom, is_fresh).
  apply bind_Return in H as (marketing_url & h2 & Hget & H).
  unfold get in Hget. rewrite lookup_insert_eq in Hget.
  destruct o as [d|items]; [|discriminate]. injection Hget as <- <-.
  apply bind_Return in H as (key & h2 & Hget & H).
  unfold get in Hget. rewrite lookup_insert_eq in Hget. injection Hget as <- <-.
  apply bind_Return in H as ([] & h2 & Hset & H).
  apply setitem_Return in Hset as (e & He & ->).
  rewrite lookup_insert_eq in He. injection He as <-. rewrite insert_insert_eq in H.
  set (m := get_most_recent_modified_time _ _ _) in *.
  set (d1 := entry_set "content_last_modified" (VTime m) d) in *.
  apply bind_Return in H as (has & h2 & Htruthy & H).
  pose proof (truthy_heap _ _ _ _ Htruthy) as ->.
  apply bind_Return in H as ([] & h3 & Hmarketing & H).
  assert (Hd2 : exists d2,
             h3 = <[c := ODict d2]> h /\
             (forall k, String.eqb k "marketing_url" = false ->
                        entry_lookup k d2 = entry_lookup k d1) /\
             (has = false -> d2 = d1)).
  { destruct has.
    - apply bind_Return in Hmarketing as (url & h2 & Hlift & Hset).
      unfold lift in Hlift. injection Hlift as _ <-.
      apply setitem_Return in Hset as (e & He & ->).
      rewrite lookup_insert_eq in He. injection He as <-. rewrite insert_insert_eq.
      eexists. split; [reflexivity|]. split; [|discriminate].
      intros k Hk. rewrite entry_lookup_set, Hk. reflexivity.
    - injection Hmarketing as <-. eauto. }
  clear Hmarketing. destruct Hd2 as (d2 & -> & Hd2 & Hfalsy).
  assert (Hmu : entry_lookup "marketing_url" d = None \/
                entry_lookup "marketing_url" d = Some VNone \/
                entry_lookup "marketing_url" d = Some (VStr "") ->
                entry_lookup "marketing_url" d2 = entry_lookup "marketing_url" d).
  { intros Hcase. rewrite Hfalsy; [unfold d1; rewrite entry_lookup_set; reflexivity|].
    destruct Hcase as [E|[E|E]]; rewrite E in Htruthy; simpl in Htruthy; congruence. }
  assert (Hother : forall k, String.eqb k "content_last_modified" = false ->
                             String.eqb k "marketing_url" = false ->
                             entry_lookup k d2 = entry_lookup k d).
  { intros k H1 H2. rewrite (Hd2 k H2). unfold d1. rewrite entry_lookup_set, H1. reflexivity. }
  clear Htruthy Hfalsy Hd2.
  apply bind_Return in H as ([] & h4 & Hbranch & H).
  injection H as <- <-.
  exists a0, d, c.
  destruct (String.eqb (content_type instance) COURSE
            || String.eqb (content_type instance) COURSE_RUN) eqn:Ecr.
  - apply bind_Return in Hbranch as ([] & h5 & Hset & Hbranch).
    apply setitem_Return in Hset as (e & He & ->).
    rewrite lookup_insert_eq in He. injection He as <-.
    rewrite insert_insert_eq in Hbranch.
    apply bind_Return in Hbranch as ([] & h5 & Hset & Hbranch).
    apply setitem_Return in Hset as (e & He & ->).
    rewrite lookup_insert_eq in He. injection He as <-.
    rewrite insert_insert_eq in Hbranch.
    set (url := get_content_enrollment_url catalog instance) in *.
    set (xapi := get_xapi_activity_id catalog _ _) in *.
    set (d4 := entry_set "xapi_activity_id" xapi (entry_set "enrollment_url" url d2)) in *.
    destruct (String.eqb (content_type instance) COURSE) eqn:Ecourse.
    + apply bind_Return in Hbranch as (empty & h5 & Halloc & Hbranch).
      unfold alloc in Halloc. injection Halloc as <- <-.
      set (c2 := fresh (dom (<[c:=ODict d4]> h))) in *.
      assert (Hc2 : <[c:=ODict d4]> h !! c2 = None) by (apply not_elem_of_dom, is_fresh).
      assert (Hne : c2 <> c) by (intros E; rewrite E, lookup_insert_eq in Hc2; discriminate).
      assert (Hc2' : h !! c2 = None) by (rewrite lookup_insert_ne in Hc2 by congruence; exact Hc2).
      apply bind_Return in Hbranch as (runs & h5 & Hget & Hbranch).
      unfold get in Hget.
      rewrite lookup_insert_ne, lookup_insert_eq in Hget by exact Hne.
      injection Hget as Hruns' <-.
      apply bind_Return in Hbranch as (active & h5 & Hread & Hbranch).
      unfold read in Hread. injection Hread as _ <-.
      apply bind_Return in Hbranch as ([] & h5 & Hset & Hbranch).
      apply setitem_Return in Hset as (e & He & ->).
      rewrite lookup_insert_ne, lookup_insert_eq in He by exact Hne.
      injection He as <-.
      set (d5 := entry_set "active" (VBool active) d4) in *.
      set (hk := <[c:=ODict d5]> (<[c2:=OList []]> (<[c:=ODict d4]> h))) in *.
      assert (Hk : hk !! c = Some (ODict d5)) by apply lookup_insert_eq.
      assert (H4 : h4 !! c = Some (ODict d5)).
      { destruct (negb (is_exec_ed_2u_course instance)).
        - rewrite (add_urls_frame _ _ _ _ _ c _ _ _ (runs_not_copy h c c2 d d4 runs hk
                     Hclosed Hc Hne Hc2' ltac:(intros a ? ?; unfold hk;
                       rewrite !lookup_insert_ne by congruence; reflexivity)
                     ltac:(unfold hk; rewrite lookup_insert_ne, lookup_insert_eq by congruence;
                           reflexivity)
                     ltac:(unfold d4; rewrite !entry_lookup_set; apply Hother; reflexivity)
                     (ex_intro _ a0 Ea0) (eq_sym Hruns')) Hbranch).
          exact Hk.
        - injection Hbranch as <-. exact Hk. }
      exists d5. unfold d5, d4. entries_agree.
    + injection Hbranch as <-. exists d4.
      rewrite lookup_insert_eq. unfold d4. entries_agree.
  - assert (Hcourse : String.eqb (content_type instance) COURSE = false)
      by (apply orb_false_elim in Ecr; tauto).
    destruct (String.eqb (content_type instance) PROGRAM) eqn:Eprogram.
    + apply setitem_Return in Hbranch as (e & He & ->).
      rewrite lookup_insert_eq in He. injection He as <-.
      rewrite insert_insert_eq, lookup_insert_eq.
      exists (entry_set "enrollment_url" VNone d2). entries_agree.
    + injection Hbranch as <-. rewrite lookup_insert_eq.
      exists d2. entries_agree.
Qed.

(** *** When a representation is returned *)

(** X21. [to_representation] returns a representation whenever the blob of
    the record is a dictionary, its marketing url, if any, can be rewritten
    and, for a course, the activity of the runs can be told and the
    [course_runs] of the blob, if any, are a list of dictionaries, each with
    a key that is not itself a list or dictionary. *)
Theorem to_representation_returns_a_representation :
  forall catalog instance h a0 d,
    closed h ->
    json_metadata instance = VRef a0 ->
    h !! a0 = Some (ODict d) ->
    (forall v, entry_lookup "marketing_url" d = Some v ->
               exists v', update_query_parameters v
                            (get_enterprise_utm_context (enterprise_name catalog))
                          = Return v') ->
    (String.eqb (content_type instance) COURSE = true ->
     (forall h1 runs, exists active, is_any_course_run_active h1 runs = Return active) /\
     (entry_lookup "course_runs" d = None \/
      exists l items,
        entry_lookup "course_runs" d = Some (VRef l) /\ h !! l = Some (OList items) /\
        forall x, In x items ->
          exists a entries key,
            x = VRef a /\ h !! a = Some (ODict entries) /\
            entry_lookup "key" entries = Some key /\ forall b, key <> VRef b)) ->
    exists rep h', to_representation catalog instance h = (Return rep, h').
Proof.
  intros catalog instance h a0 d Hclosed Ejm Ea0 Hurl Hcourse.
  destruct (String.eqb (content_type instance) COURSE) eqn:Ecourse.
  2:{ exact (to_representation_returns _ _ _ _ _ _ _ _ _ _ _ _ _ _
               Hclosed Ejm Ea0 Ecourse Hurl). }
  destruct (Hcourse eq_refl) as [Hactive Hruns]. clear Hcourse.
  set (c := fresh (dom h)).
  assert (Hc : h !! c = None) by (apply not_elem_of_dom, is_fresh).
  set (url := match entry_lookup "marketing_url" d with Some x => x | None => VNone end).
  set (d1 := entry_set "content_last_modified"
               (VTime (get_most_recent_modified_time (modified instance)
                         (catalog_modified catalog)
                         (last_modified_date (enterprise_customer catalog)))) d).
  assert (Htruthy : exists b,
             truthy url (<[c:=ODict d1]> (<[c:=ODict d]> h))
             = (Return b, <[c:=ODict d1]> (<[c:=ODict d]> h)) /\
             (b = true -> exists url',
                 update_query_parameters url
                   (get_enterprise_utm_context (enterprise_name catalog)) = Return url')).
  { unfold url. destruct (entry_lookup "marketing_url" d) as [v|] eqn:Ev.
    - destruct (truthy_returns h v (<[c:=ODict d1]> (<[c:=ODict d]> h)) Hclosed) as [b Hb].
      + eauto 6.
      + intros a [oa Hoa]. rewrite !lookup_insert_ne by congruence. reflexivity.
      + exists b. split; [exact Hb|]. intros _. exact (Hurl v eq_refl).
    - exists false. split; [reflexivity|discriminate]. }
  destruct Htruthy as (b & Htruthy & Hrewrite).
  assert (Hmarketing : exists d2,
             (if b then
                do! marketing_url :=
                  lift (update_query_parameters url
                          (get_enterprise_utm_context (enterprise_name catalog))) in
                setitem (VRef c) "marketing_url" marketing_url
              else ret tt) (<[c:=ODict d1]> (<[c:=ODict d]> h))
             = (Return tt, <[c:=ODict d2]> h) /\
             entry_lookup "course_runs" d2 = entry_lookup "course_runs" d).
  { destruct b.
    - destruct (Hrewrite eq_refl) as [url' Hurl'].
      eexists. split.
      + eapply bind_intro; [unfold lift; rewrite Hurl'; reflexivity|].
        unfold setitem. rewrite lookup_insert_eq, !insert_insert_eq. reflexivity.
      + unfold d1. rewrite !entry_lookup_set. reflexivity.
    - exists d1. split; [unfold ret; rewrite insert_insert_eq; reflexivity|].
      unfold d1. rewrite entry_lookup_set. reflexivity. }
  destruct Hmarketing as (d2 & Hmarketing & Hd2).
  set (d4 := entry_set "xapi_activity_id"
               (get_xapi_activity_id catalog (content_type instance)
                  match entry_lookup "key" d with Some x => x | None => VNone end)
               (entry_set "enrollment_url" (get_content_enrollment_url catalog instance) d2)).
  set (c2 := fresh (dom (<[c:=ODict d4]> h))).
  assert (Hc2 : <[c:=ODict d4]> h !! c2 = None) by (apply not_elem_of_dom, is_fresh).
  assert (Hne : c2 <> c) by (intros E; rewrite E, lookup_insert_eq in Hc2; discriminate).
  assert (Hc2' : h !! c2 = None) by (rewrite lookup_insert_ne in Hc2 by congruence; exact Hc2).
  set (runs := match entry_lookup "course_runs" d4 with Some x => x | None => VRef c2 end).
  destruct (Hactive (<[c2:=OList []]> (<[c:=ODict d4]> h)) runs) as [active Eactive].
  set (hk := <[c:=ODict (entry_set "active" (VBool active) d4)]>
               (<[c2:=OList []]> (<[c:=ODict d4]> h))).
  assert (Hframe : forall a, is_Some (h !! a) -> hk !! a = h !! a).
  { intros a [oa Hoa]. unfold hk. rewrite !lookup_insert_ne by congruence. reflexivity. }
  assert (Hd4 : entry_lookup "course_runs" d4 = entry_lookup "course_runs" d).
  { unfold d4. rewrite !entry_lookup_set. exact Hd2. }
  assert (Hloop : exists h3, add_urls catalog instance runs hk = (Return tt, h3)).
  { assert (Hit : exists items,
               iterate runs hk = (Return items, hk) /\ forall x, In x items -> ready hk x).
    { unfold runs. rewrite Hd4. destruct Hruns as [->|(l & items & -> & Hl & Hitems)].
      - exists []. split; [|intros x []]. unfold iterate, hk.
        rewrite lookup_insert_ne, lookup_insert_eq by congruence. reflexivity.
      - exists items. split.
        + unfold iterate. rewrite (Hframe l) by eauto. rewrite Hl. reflexivity.
        + intros x Hx. destruct (Hitems x Hx) as (a & entries & key & -> & Ha & Hk & Hkey).
          exists a, entries, key. rewrite (Hframe a) by eauto. auto. }
    destruct Hit as (items & Hit & Hready).
    destruct (for_each_returns catalog instance items hk Hready) as (h3 & H3).
    exists h3. unfold Enrichment._add_course_run_enrollment_urls.
    eapply bind_intro; [exact Hit|exact H3]. }
  assert (Hlast : exists h3,
             (if negb (is_exec_ed_2u_course instance)
              then add_urls catalog instance runs else ret tt) hk = (Return tt, h3)).
  { destruct (negb (is_exec_ed_2u_course instance)); [exact Hloop|eexists; reflexivity]. }
  destruct Hlast as (h3 & Hlast).
  exists (VRef c), h3.
  unfold Enrichment.to_representation. rewrite Ecourse. cbn [orb].
  eapply bind_intro; [unfold copy, alloc; rewrite Ejm, Ea0; reflexivity|].
  eapply bind_intro; [unfold get; fold c; rewrite lookup_insert_eq; reflexivity|].
  eapply bind_intro; [unfold get; fold c; rewrite lookup_insert_eq; reflexivity|].
  eapply bind_intro; [unfold setitem; fold c; rewrite lookup_insert_eq; reflexivity|].
  eapply bind_intro; [exact Htruthy|].
  eapply bind_intro; [exact Hmarketing|].
  eapply bind_intro; [|reflexivity].
  eapply bind_intro; [unfold setitem; rewrite lookup_insert_eq, insert_insert_eq; reflexivity|].
  eapply bind_intro; [unfold setitem; rewrite lookup_insert_eq, insert_insert_eq; reflexivity|].
  eapply bind_intro; [unfold alloc; reflexivity|].
  eapply bind_intro;
    [unfold get; fold d4; fold c2;
     rewrite lookup_insert_ne, lookup_insert_eq by exact Hne; reflexivity|].
  fold runs.
  eapply bind_intro; [unfold read; rewrite Eactive; reflexivity|].
  eapply bind_intro;
    [unfold setitem; rewrite lookup_insert_ne, lookup_insert_eq by exact Hne; reflexivity|].
  exact Hlast.
Qed.

End RepresentationChanges.

Lemma to_representation_changes_only_run_urls_witness :
  Changes.only_entry "enrollment_url" Enrichment.demo_heap
    (snd (Enrichment.demo_to_representation Enrichment.demo_catalog Enrichment.demo_course
            Enrichment.demo_heap)).
Proof.
  exact (proj1 (to_representation_changes_only_run_urls
                  "course" "courserun" "program"
                  Enrichment.demo_enrollment_url Enrichment.demo_xapi_activity_id
                  (fun name => [("utm_medium", "enterprise"); ("utm_source", name)])
                  (fun url _ => Return url) (fun _ _ => Return true)
                  (fun course => [Enrichment.demo_course_run])
                  Enrichment.demo_catalog Enrichment.demo_course Enrichment.demo_heap
                  _ _ (surjective_pairing _))).
Defined.

Lemma non_dictionary_blob_raises_AttributeError_witness :
  exists h',
    Enrichment.demo_to_representation Enrichment.demo_catalog
      {| Enrichment.content_type := "course";
         Enrichment.content_key := "edX+DemoX";
         Enrichment.json_metadata := Heap.VRef 1;
         Enrichment.modified := 1685577600;
         Enrichment.is_exec_ed_2u_course := false |}
      Enrichment.demo_heap
    = (Raise AttributeError, h') /\
    Heap.unchanged Enrichment.demo_heap h'.
Proof.
  apply (non_dictionary_blob_raises_AttributeError
           "course" "courserun" "program"
           Enrichment.demo_enrollment_url Enrichment.demo_xapi_activity_id
           (fun name => [("utm_medium", "enterprise"); ("utm_source", name)])
           (fun url _ => Return url) (fun _ _ => Return true)
           (fun course => [Enrichment.demo_course_run])).
  intros a entries [= <-]. unfold Enrichment.demo_heap.
  rewrite lookup_insert_ne, lookup_insert_eq by lia. discriminate.
Defined.

Lemma add_course_run_enrollment_urls_sets_every_run_witness :
  exists h',
    Enrichment._add_course_run_enrollment_urls Enrichment.demo_enrollment_url
      (fun course => [Enrichment.demo_course_run])
      Enrichment.demo_catalog Enrichment.demo_course (Heap.VRef 1) Enrichment.demo_heap
    = (Return tt, h').
Proof.
  apply (proj1 (add_course_run_enrollment_urls_sets_every_run
                  Enrichment.demo_enrollment_url
                  (fun course => [Enrichment.demo_course_run])
                  Enrichment.demo_catalog Enrichment.demo_course (Heap.VRef 1)
                  Enrichment.demo_heap) [Heap.VRef 2]).
  - reflexivity.
  - intros x [<-|[]].
    exists 2%nat, [("key", Heap.VStr "course-v1:edX+DemoX+1T2023")],
      (Heap.VStr "course-v1:edX+DemoX+1T2023").
    repeat split; discriminate.
Defined.

Lemma representation_keeps_the_other_entries_witness :
  exists d',
    snd (Enrichment.demo_to_representation Enrichment.demo_catalog Enrichment.demo_course
           Enrichment.demo_heap) !! 3%nat = Some (Heap.ODict d') /\
    Heap.entry_lookup "title" d' = Some (Heap.VStr "Demo").
Proof.
  destruct (representation_keeps_the_other_entries
              "course" "courserun" "program"
              Enrichment.demo_enrollment_url Enrichment.demo_xapi_activity_id
              (fun name => [("utm_medium", "enterprise"); ("utm_source", name)])
              (fun url _ => Return url) (fun _ _ => Return true)
              (fun course => [Enrichment.demo_course_run])
              Enrichment.demo_catalog Enrichment.demo_course Enrichment.demo_heap
              (Heap.VRef 3) _ demo_heap_closed eq_refl)
    as (a0 & d & c & d' & Ejm & Ea0 & Erep & _ & Hd' & Hother & _).
  injection Ejm as <-. injection Erep as <-.
  exists d'. split; [exact Hd'|].
  rewrite Hother.
  - unfold Enrichment.demo_heap in Ea0. rewrite lookup_insert_eq in Ea0.
    injection Ea0 as <-. reflexivity.
  - unfold Changes.ASSIGNED_KEYS. simpl. intros [H|[H|[H|[H|[H|[]]]]]]; discriminate H.
Defined.

Lemma to_representation_returns_a_representation_witness :
  exists rep h',
    Enrichment.demo_to_representation Enrichment.demo_catalog Enrichment.demo_course
      Enrichment.demo_heap = (Return rep, h').
Proof.
  apply (to_representation_returns_a_representation
           "course" "courserun" "program"
           Enrichment.demo_enrollment_url Enrichment.demo_xapi_activity_id
           (fun name => [("utm_medium", "enterprise"); ("utm_source", name)])
           (fun url _ => Return url) (fun _ _ => Return true)
           (fun course => [Enrichment.demo_course_run])
           Enrichment.demo_catalog Enrichment.demo_course Enrichment.demo_heap 0%nat
           [("key", Heap.VStr "edX+DemoX"); ("title", Heap.VStr "Demo");
            ("course_runs", Heap.VRef 1)]
           demo_heap_closed eq_refl eq_refl).
  - intros v. eauto.
  - intros _. split; [eauto|]. right.
    exists 1%nat, [Heap.VRef 2]. split; [reflexivity|]. split; [reflexivity|].
    intros x [<-|[]].
    exists 2%nat, [("key", Heap.VStr "course-v1:edX+DemoX+1T2023")],
      (Heap.VStr "course-v1:edX+DemoX+1T2023").
    repeat split; discriminate.
Defined.

(** ** The header row of a sheet *)

Section HeaderRow.
Import Sheets.

Variables worksheet format : Type.
Variable set_column : nat -> nat -> Z -> worksheet -> worksheet.
Variable write : nat -> nat -> string -> format -> worksheet -> worksheet.

(** What can be read back from a worksheet: the content of a cell and the
    width of a column. *)
Variable cell : worksheet -> nat -> nat -> option (string * format).
Variable width : worksheet -> nat -> option Z.

(** [write] fills one cell and touches nothing else; [set_column] sets the
    width of the columns of its range and touches nothing else. *)
Hypothesis write_cell :
  forall row col data cell_format sheet,
    cell (write row col data cell_format sheet) row col = Some (data, cell_format).
Hypothesis write_other_cell :
  forall row col data cell_format sheet row' col',
    (row', col') <> (row, col) ->
    cell (write row col data cell_format sheet) row' col' = cell sheet row' col'.
Hypothesis write_width :
  forall row col data cell_format sheet k,
    width (write row col data cell_format sheet) k = width sheet k.
Hypothesis set_column_cell :
  forall first_col last_col w sheet row col,
    cell (set_column first_col last_col w sheet) row col = cell sheet row col.
Hypothesis set_column_inside :
  forall first_col last_col w sheet k,
    first_col <= k <= last_col -> width (set_column first_col last_col w sheet) k = Some w.
Hypothesis set_column_outside :
  forall first_col last_col w sheet k,
    ~ (first_col <= k <= last_col) ->
    width (set_column first_col last_col w sheet) k = width sheet k.

Abbreviation write_headers_from :=
  (Sheets.write_headers_from worksheet format set_column write).
Abbreviation write_headers_to_sheet :=
  (Sheets.write_headers_to_sheet worksheet format set_column write).

Lemma cells_outside headers cell_format :
  forall col_num sheet row col,
    row <> 0 \/ col < col_num \/ col_num + length headers <= col ->
    cell (write_headers_from col_num headers cell_format sheet) row col = cell sheet row col.
Proof.
  induction headers as [|cell_data rest IH]; intros col_num sheet row col Hout;
    [reflexivity|].
  cbn [Sheets.write_headers_from]. simpl in Hout.
  rewrite IH by lia. rewrite write_other_cell by (intros [= -> ->]; lia).
  apply set_column_cell.
Qed.

Lemma cells_inside headers cell_format :
  forall col_num sheet k cell_data,
    headers !! k = Some cell_data ->
    cell (write_headers_from col_num headers cell_format sheet) 0 (col_num + k)
    = Some (cell_data, cell_format).
Proof.
  induction headers as [|first rest IH]; intros col_num sheet k cell_data Hk;
    [discriminate|].
  cbn [Sheets.write_headers_from]. destruct k as [|k]; simpl in Hk.
  - injection Hk as ->. rewrite cells_outside by lia.
    rewrite Nat.add_0_r. apply write_cell.
  - replace (col_num + S k) with (S col_num + k) by lia. apply IH, Hk.
Qed.

Lemma widths_after headers cell_format :
  forall col_num sheet k,
    (headers <> [] -> k < col_num + length headers ->
     width (write_headers_from col_num headers cell_format sheet) k = Some 30%Z) /\
    (col_num + length headers <= k ->
     width (write_headers_from col_num headers cell_format sheet) k = width sheet k).
Proof.
  induction headers as [|first rest IH]; intros col_num sheet k.
  - split; [congruence|reflexivity].
  - cbn [Sheets.write_headers_from]. simpl. split.
    + intros _ Hk. destruct rest as [|second rest].
      * cbn [Sheets.write_headers_from]. rewrite write_width.
        apply set_column_inside. simpl in Hk. lia.
      * apply IH; [discriminate|]. simpl in *. lia.
    + intros Hk. rewrite (proj2 (IH (S col_num) _ k)) by lia.
      rewrite write_width. apply set_column_outside. lia.
Qed.

(** X19. On a worksheet where [write] fills one cell and [set_column] sets
    the width of the columns of its range, each touching nothing else,
    [write_headers_to_sheet] puts the headers in row 0, the k-th header in
    column k with the given format, leaves every other cell as it was, and
    sets the width of exactly the columns of the headers to 30. *)
Theorem write_headers_to_sheet_fills_the_first_row :
  forall sheet headers cell_format,
    (forall k cell_data,
        headers !! k = Some cell_data ->
        cell (write_headers_to_sheet sheet headers cell_format) 0 k
        = Some (cell_data, cell_format)) /\
    (forall row col,
        row <> 0 \/ length headers <= col ->
        cell (write_headers_to_sheet sheet headers cell_format) row col
        = cell sheet row col) /\
    (forall k,
        k < length headers ->
        width (write_headers_to_sheet sheet headers cell_format) k = Some 30%Z) /\
    (forall k,
        length headers <= k ->
        width (write_headers_to_sheet sheet headers cell_format) k = width sheet k).
Proof.
  intros sheet headers cell_format. unfold Sheets.write_headers_to_sheet.
  split; [|split; [|split]].
  - intros k cell_data Hk. exact (cells_inside headers cell_format 0 sheet k cell_data Hk).
  - intros row col Hout. apply cells_outside. simpl. tauto.
  - intros k Hk. apply widths_after; [|exact Hk].
    intros ->. simpl in Hk. lia.
  - intros k Hk. apply widths_after. exact Hk.
Qed.

End HeaderRow.

Lemma record_set_column_width {format} first_col last_col w (sheet : Sheets.recorded format) k :
  Sheets.widths (Sheets.record_set_column first_col last_col w sheet) !! k
  = if decide (first_col <= k <= last_col) then Some w else Sheets.widths sheet !! k.
Proof.
  unfold Sheets.record_set_column. cbn [Sheets.widths].
  assert (H : forall (l : list nat) (m : gmap nat Z),
             List.fold_left (fun m col => <[col := w]> m) l m !! k
             = if decide (k ∈ l) then Some w else m !! k).
  { induction l as [|col l IH]; intros m; simpl.
    - destruct (decide (k ∈ [])) as [Hin|_]; [inversion Hin|reflexivity].
    - rewrite IH. destruct (decide (k ∈ l)) as [Hl|Hl].
      + rewrite decide_True by (right; exact Hl). reflexivity.
      + destruct (decide (k = col)) as [->|Hne].
        * rewrite decide_True by left. apply lookup_insert_eq.
        * rewrite decide_False by (intros [?|?]%elem_of_cons; tauto).
          apply lookup_insert_ne. congruence. }
  rewrite H. destruct (decide (first_col <= k <= last_col)) as [Hin|Hout].
  - rewrite decide_True; [reflexivity|]. apply elem_of_seq. lia.
  - rewrite decide_False; [reflexivity|]. rewrite elem_of_seq. lia.
Qed.

Lemma write_headers_to_sheet_fills_the_first_row_witness :
  Sheets.cells
    (Sheets.write_headers_to_sheet (Sheets.recorded string) string
       Sheets.record_set_column Sheets.record_write
       Sheets.blank ExportUtils.CSV_PROGRAM_HEADERS "bold") !! (0%nat, 2%nat)
  = Some ("Partner", "bold") /\
  Sheets.widths
    (Sheets.write_headers_to_sheet (Sheets.recorded string) string
       Sheets.record_set_column Sheets.record_write
       Sheets.blank ExportUtils.CSV_PROGRAM_HEADERS "bold") !! 4%nat
  = Some 30%Z.
Proof.
  pose proof (write_headers_to_sheet_fills_the_first_row
                (Sheets.recorded string) string
                Sheets.record_set_column Sheets.record_write
                (fun sheet row col => Sheets.cells sheet !! (row, col))
                (fun sheet k => Sheets.widths sheet !! k)
                ltac:(intros; apply lookup_insert_eq)
                ltac:(intros; apply lookup_insert_ne; congruence)
                ltac:(reflexivity)
                ltac:(reflexivity)
                ltac:(intros; cbv beta; rewrite record_set_column_width; apply decide_True; assumption)
                ltac:(intros; cbv beta; rewrite record_set_column_width; apply decide_False; assumption)
                Sheets.blank ExportUtils.CSV_PROGRAM_HEADERS "bold")
    as (Hcell & _ & Hwidth & _).
  split.
  - apply (Hcell 2%nat "Partner"). reflexivity.
  - apply (Hwidth 4%nat). simpl. lia.
Defined.
